(** * Cytation 5 plate-reader backend: a shallow embedding

    Embedding of [pylabrobot/plate_reading/biotek_backend.py]
    (class [Cytation5Backend]) and the properties of its wire protocol,
    response parser, state cache, shake session and image acquisition loop.

    Conventions of the embedding
    - Python [str] is [string]; Python [bytes] is [list byte]; [str.encode()]
      on the ASCII text the backend builds is [list_byte_of_string].
    - Python [int] is [Z]; [%] with a positive modulus is [Z.modulo].
    - Python [float] settings (exposure, gain, focal height) are exact
      rationals [Q] compared with [Qeq_bool]; binary rounding is outside the
      model.  The conversion [float(bytes.decode())] of the parser is a
      parameter of the development.
    - Wall-clock time is an integer number of milliseconds.
    - A coroutine is a function from the world to an outcome and a new
      world; a raised exception leaves the mutations made before it in
      place.  The loop of [_read_until] has no bound of its own and takes a
      fuel; [OutOfFuel] is the outcome of a run that needed more.
    - A coroutine runs to its end without another task running in between;
      the tasks of the event loop advance only when [run_task] gives them a
      turn. *)

From Stdlib Require Import ZArith List String Ascii Bool Lia.
From Stdlib Require Import DecimalString DecimalZ DecimalPos.
From Stdlib Require Import QArith Qround.
From Stdlib Require Import Strings.Byte.
Import ListNotations.

Open Scope Z_scope.
Open Scope string_scope.

(* ================================================================= *)
(** ** Python values used by the backend *)

Definition bytes := list byte.

(** [str.encode()] for ASCII text. *)
Definition encode (s : string) : bytes := list_byte_of_string s.

(** [str(n)] for an [int]. *)
Definition str (n : Z) : string := NilZero.string_of_int (Z.to_int n).

(** [len(s)] for a [str]. *)
Definition len (s : string) : Z := Z.of_nat (String.length s).

(** [sum(b)] for a [bytes] object: the sum of the byte values. *)
Fixpoint sum (b : bytes) : Z :=
  match b with
  | [] => 0
  | x :: b' => Z.of_N (Byte.to_N x) + sum b'
  end.

Fixpoint zeros (n : nat) : string :=
  match n with
  | O => ""
  | S n' => String "0" (zeros n')
  end.

(** [s.zfill(width)]: left-pad with ['0'] up to [width]; a leading sign stays
    in front of the padding. *)
Definition zfill (width : nat) (s : string) : string :=
  let pad := zeros (width - String.length s) in
  match s with
  | String c rest =>
      if (Ascii.eqb c "+" || Ascii.eqb c "-")%bool
      then String c (pad ++ rest)
      else pad ++ s
  | EmptyString => pad
  end.

(** The control bytes of the framing. *)
Definition ETX : ascii := "003"%char.
Definition ETX_str : string := String ETX "".
Definition ACK_byte : byte := x06.
Definition ETX_byte : byte := x03.

Inductive exn : Type :=
| ValueError (msg : string)
| AssertionError
| TimeoutError (msg : string)
| RuntimeError (msg : string)
| NotImplementedError (msg : string)
| TypeError
| KeyError.

Inductive result (A : Type) : Type :=
| Ok (a : A)
| Raise (e : exn).
Arguments Ok {A} a.
Arguments Raise {A} e.

Definition rbind {A B : Type} (r : result A) (k : A -> result B) : result B :=
  match r with
  | Ok a => k a
  | Raise e => Raise e
  end.

Fixpoint rmap {A B : Type} (f : A -> result B) (l : list A) : result (list B) :=
  match l with
  | [] => Ok []
  | a :: l' =>
      rbind (f a) (fun b => rbind (rmap f l') (fun bs => Ok (b :: bs)))
  end.

(* ----------------------------------------------------------------- *)
(** *** Searching and splitting [bytes] *)

Fixpoint starts_with (sub s : bytes) : bool :=
  match sub, s with
  | [], _ => true
  | _ :: _, [] => false
  | a :: sub', b :: s' => (Byte.eqb a b && starts_with sub' s')%bool
  end.

(** [s.find(sub)]: offset of the first occurrence. *)
Fixpoint find (sub s : bytes) : option nat :=
  if starts_with sub s then Some O
  else match s with
       | [] => None
       | _ :: s' => option_map S (find sub s')
       end.

(** [s.rfind(sub)]: offset of the last occurrence. *)
Fixpoint rfind (sub s : bytes) : option nat :=
  match s with
  | [] => if starts_with sub [] then Some O else None
  | _ :: s' =>
      match rfind sub s' with
      | Some i => Some (S i)
      | None => if starts_with sub s then Some O else None
      end
  end.

(** [s.index(sub)] and [s.rindex(sub)] raise [ValueError] when [sub] does not
    occur. *)
Definition index (sub s : bytes) : result nat :=
  match find sub s with
  | Some i => Ok i
  | None => Raise (ValueError "subsection not found")
  end.

Definition rindex (sub s : bytes) : result nat :=
  match rfind sub s with
  | Some i => Ok i
  | None => Raise (ValueError "subsection not found")
  end.

(** [s[lo:hi]] for offsets inside the object. *)
Definition slice (lo hi : nat) (s : bytes) : bytes := skipn lo (firstn hi s).

(** [s.split(sep)] for a non-empty separator: the occurrences of [sep] are
    taken left to right without overlap.  [skip] counts the bytes of a
    separator still to be dropped. *)
Fixpoint split_from (sep : bytes) (skip : nat) (s : bytes) : list bytes :=
  match s with
  | [] => [[]]
  | c :: s' =>
      match skip with
      | S k => split_from sep k s'
      | O =>
          if starts_with sep s
          then [] :: split_from sep (Nat.pred (List.length sep)) s'
          else match split_from sep O s' with
               | seg :: rest => (c :: seg) :: rest
               | [] => [[c]]
               end
      end
  end.

Definition split (sep s : bytes) : list bytes := split_from sep O s.

(** [[values[i : i + 3] for i in range(0, len(values), 3)]]. *)
Fixpoint group3 {A : Type} (values : list A) : list (list A) :=
  match values with
  | [] => []
  | a :: b :: c :: rest => [a; b; c] :: group3 rest
  | short => [short]
  end.

(* ================================================================= *)
(** ** Payload builder (the command bodies and their checksums) *)

(** [read_absorbance], lines 260-263. *)
Definition absorbance_body (wavelength : Z) : string :=
  let wavelength_str := zfill 4 (str wavelength) in
  "00470101010812000120010000110010000010600008" ++ wavelength_str ++ "1".

Definition absorbance_checksum (wavelength : Z) : string :=
  str (sum (encode (absorbance_body wavelength)) mod 100).

Definition absorbance_cmd (wavelength : Z) : string :=
  absorbance_body wavelength ++ absorbance_checksum wavelength ++ ETX_str.

(** [read_fluorescence], lines 311-318. *)
Definition fluorescence_body (excitation_wavelength emission_wavelength : Z)
  : string :=
  let excitation_wavelength_str := zfill 4 (str excitation_wavelength) in
  let emission_wavelength_str := zfill 4 (str emission_wavelength) in
  "008401010108120001200100001100100000135000100200200"
    ++ excitation_wavelength_str ++ "000"
    ++ emission_wavelength_str ++ "000000000000000000210011".

Definition fluorescence_checksum (excitation_wavelength emission_wavelength : Z)
  : string :=
  str ((sum (encode (fluorescence_body excitation_wavelength
                       emission_wavelength)) + 7) mod 100).

Definition fluorescence_cmd (excitation_wavelength emission_wavelength : Z)
  : string :=
  fluorescence_body excitation_wavelength emission_wavelength
    ++ fluorescence_checksum excitation_wavelength emission_wavelength
    ++ ETX_str.

(** [class ShakeType(enum.IntEnum)]. *)
Inductive ShakeType : Type := LINEAR | ORBITAL.

Definition ShakeType_value (t : ShakeType) : Z :=
  match t with
  | LINEAR => 0
  | ORBITAL => 1
  end.

Definition max_duration : Z := 16 * 60.

(** [shake_maximal_duration], lines 346-350. *)
Definition shake_body (shake_type : ShakeType) : string :=
  let shake_type_bit := str (ShakeType_value shake_type) in
  let duration := zfill 3 (str max_duration) in
  "0033010101010100002000000013" ++ duration ++ shake_type_bit ++ "301".

Definition shake_checksum (shake_type : ShakeType) : string :=
  str ((sum (encode (shake_body shake_type)) + 73) mod 100).

Definition shake_cmd (shake_type : ShakeType) : string :=
  shake_body shake_type ++ shake_checksum shake_type ++ ETX_str.

(** The four leading digits of a body announce how many characters follow
    them, checksum included and terminator excluded. *)
Definition declared_length (cmd : string) : Z :=
  match NilZero.int_of_string (substring 0 4 cmd) with
  | Some d => Z.of_int d
  | None => -1
  end.

Definition actual_length (cmd : string) : Z := len cmd - 4 - 1.

(** [read_luminescence], line 283: a literal body, checksum included. *)
Definition luminescence_cmd : string :=
  "008401010108120001200100001100100000123000500200200-001000-00300000000000000000001351092".

(* ================================================================= *)
(** ** The world: serial device, clock, log, camera, backend attributes *)

(** [self.dev], the FTDI device.  [rx_script n] is what the [n]-th call of
    [dev.read(1)] returns: one byte, or nothing when no byte is available.
    Bytes dropped by a purge never show up in the script, so a purge is only
    counted. *)
Record Device : Type := {
  rx_script : nat -> option byte;
  rx_count : nat;
  tx : list bytes;
  rx_purges : nat;
  tx_purges : nat
}.

(** A setting of type [Exposure], [FocalPosition] or [Gain]: a number or a
    text such as ["auto"]. *)
Inductive Setting : Type :=
| Num (q : Q)
| Text (s : string).

(** Python [==] on two settings. *)
Definition Setting_eqb (a b : Setting) : bool :=
  match a, b with
  | Num x, Num y => Qeq_bool x y
  | Text s, Text t => String.eqb s t
  | _, _ => false
  end.

(** [value == cached] where the cache may still hold [None]. *)
Definition cached_eqb (value : Setting) (cached : option Setting) : bool :=
  match cached with
  | Some c => Setting_eqb value c
  | None => false
  end.

(** Modelled from the spec: the enumeration [ImagingMode] of
    [pylabrobot.plate_reading.standard], which is not part of the sources at
    hand.  The five members the backend names are listed; [OTHER_MODE]
    stands for any further member. *)
Inductive ImagingMode : Type :=
| BRIGHTFIELD
| GFP
| TEXAS_RED
| PHASE_CONTRAST
| COLOR_BRIGHTFIELD
| OTHER_MODE (n : nat).

Definition ImagingMode_eqb (a b : ImagingMode) : bool :=
  match a, b with
  | BRIGHTFIELD, BRIGHTFIELD => true
  | GFP, GFP => true
  | TEXAS_RED, TEXAS_RED => true
  | PHASE_CONTRAST, PHASE_CONTRAST => true
  | COLOR_BRIGHTFIELD, COLOR_BRIGHTFIELD => true
  | OTHER_MODE n, OTHER_MODE m => Nat.eqb n m
  | _, _ => false
  end.

(** Arguments of a log record. *)
Inductive pyarg : Type :=
| ABytes (b : bytes)
| AStr (s : string)
| AInt (n : Z)
| AFloat (q : Q)
| AMode (m : ImagingMode)
| AException.

Inductive log_level : Type := DEBUG | INFO.

Record log_record : Type := Log {
  level : log_level;
  fmt : string;
  args : list pyarg
}.

(** The instrument state cache. *)
Record Cache : Type := {
  _exposure : option Setting;
  _focal_height : option Setting;
  _gain : option Setting;
  _imaging_mode : option ImagingMode;
  _row : option Z;
  _column : option Z
}.

(** PySpin access modes of a node. *)
Inductive access_mode : Type := NI | NA | WO | RO | RW.

Definition is_RW (m : access_mode) : bool :=
  match m with
  | RW => true
  | _ => false
  end.

Inductive auto_value : Type := Auto_Off | Auto_Once | Auto_Continuous.

(** Raw sensor data of one frame. *)
Definition Image := list (list Z).

(** What one trigger-and-fetch attempt meets. *)
Inductive attempt : Type :=
| TriggerNotWritable
| FetchFails
| Incomplete
| Complete (img : Image).

(** [self.cam]: the nodes the backend consults, and what the coming
    acquisition attempts will meet. *)
Record Camera : Type := {
  ExposureAuto_access : access_mode;
  ExposureTime_access : access_mode;
  ExposureTime_min : Q;
  ExposureTime_max : Q;
  GainAuto_readable : bool;
  GainAuto_writable : bool;
  GainAuto_Continuous_readable : bool;
  GainAuto_Off_readable : bool;
  Gain_readable : bool;
  Gain_writable : bool;
  Gain_min : Q;
  Gain_max : Q;
  attempts : list attempt
}.

(** The calls into the camera SDK that act on the camera, in order. *)
Inductive sdk_call : Type :=
| ExposureAuto_SetValue (v : auto_value)
| ExposureTime_SetValue (exposure_us : Z)
| GainAuto_SetIntValue (v : auto_value)
| Gain_SetValue (gain : Q)
| BeginAcquisition
| TriggerSoftware_Execute
| GetNextImage (grab_timeout : Z)
| Image_Release
| EndAcquisition.

(** A task of the event loop running [shake_continuous]; the state records
    the point at which the coroutine is suspended. *)
Inductive task_state : Type :=
| Created
| Waiting (since_start_ms : Z)
| Finished
| Failed (e : exn)
| Cancelled.

Record Task : Type := {
  task_shake_type : ShakeType;
  task_status : task_state
}.

Definition task_live (t : Task) : bool :=
  match task_status t with
  | Created | Waiting _ => true
  | _ => false
  end.

Record World : Type := {
  dev : Device;
  clock : Z;
  read_latency : Z;
  log : list log_record;
  timeout : Z;
  cam : option Camera;
  sdk_calls : list sdk_call;
  max_image_read_attempts : Z;
  cache : Cache;
  _shaking : bool;
  _shaking_task : option nat;
  tasks : list Task
}.

Definition with_dev (d : Device) (w : World) : World :=
  {| dev := d; clock := clock w; read_latency := read_latency w; log := log w;
     timeout := timeout w; cam := cam w; sdk_calls := sdk_calls w;
     max_image_read_attempts := max_image_read_attempts w; cache := cache w;
     _shaking := _shaking w; _shaking_task := _shaking_task w;
     tasks := tasks w |}.

Definition with_clock (t : Z) (w : World) : World :=
  {| dev := dev w; clock := t; read_latency := read_latency w; log := log w;
     timeout := timeout w; cam := cam w; sdk_calls := sdk_calls w;
     max_image_read_attempts := max_image_read_attempts w; cache := cache w;
     _shaking := _shaking w; _shaking_task := _shaking_task w;
     tasks := tasks w |}.

Definition with_log (l : list log_record) (w : World) : World :=
  {| dev := dev w; clock := clock w; read_latency := read_latency w; log := l;
     timeout := timeout w; cam := cam w; sdk_calls := sdk_calls w;
     max_image_read_attempts := max_image_read_attempts w; cache := cache w;
     _shaking := _shaking w; _shaking_task := _shaking_task w;
     tasks := tasks w |}.

Definition with_cam (c : option Camera) (w : World) : World :=
  {| dev := dev w; clock := clock w; read_latency := read_latency w;
     log := log w; timeout := timeout w; cam := c; sdk_calls := sdk_calls w;
     max_image_read_attempts := max_image_read_attempts w; cache := cache w;
     _shaking := _shaking w; _shaking_task := _shaking_task w;
     tasks := tasks w |}.

Definition with_sdk_calls (l : list sdk_call) (w : World) : World :=
  {| dev := dev w; clock := clock w; read_latency := read_latency w;
     log := log w; timeout := timeout w; cam := cam w; sdk_calls := l;
     max_image_read_attempts := max_image_read_attempts w; cache := cache w;
     _shaking := _shaking w; _shaking_task := _shaking_task w;
     tasks := tasks w |}.

Definition with_cache (c : Cache) (w : World) : World :=
  {| dev := dev w; clock := clock w; read_latency := read_latency w;
     log := log w; timeout := timeout w; cam := cam w;
     sdk_calls := sdk_calls w;
     max_image_read_attempts := max_image_read_attempts w; cache := c;
     _shaking := _shaking w; _shaking_task := _shaking_task w;
     tasks := tasks w |}.

Definition with_shaking (b : bool) (w : World) : World :=
  {| dev := dev w; clock := clock w; read_latency := read_latency w;
     log := log w; timeout := timeout w; cam := cam w;
     sdk_calls := sdk_calls w;
     max_image_read_attempts := max_image_read_attempts w; cache := cache w;
     _shaking := b; _shaking_task := _shaking_task w; tasks := tasks w |}.

Definition with_shaking_task (t : option nat) (w : World) : World :=
  {| dev := dev w; clock := clock w; read_latency := read_latency w;
     log := log w; timeout := timeout w; cam := cam w;
     sdk_calls := sdk_calls w;
     max_image_read_attempts := max_image_read_attempts w; cache := cache w;
     _shaking := _shaking w; _shaking_task := t; tasks := tasks w |}.

Definition with_tasks (l : list Task) (w : World) : World :=
  {| dev := dev w; clock := clock w; read_latency := read_latency w;
     log := log w; timeout := timeout w; cam := cam w;
     sdk_calls := sdk_calls w;
     max_image_read_attempts := max_image_read_attempts w; cache := cache w;
     _shaking := _shaking w; _shaking_task := _shaking_task w; tasks := l |}.

(* ----------------------------------------------------------------- *)
(** *** Coroutines *)

(** The outcome of running a coroutine: a value, an exception, or the loop
    bound of the model reached before the coroutine finished. *)
Inductive outcome (A : Type) : Type :=
| Returns (a : A)
| Raises (e : exn)
| OutOfFuel.
Arguments Returns {A} a.
Arguments Raises {A} e.
Arguments OutOfFuel {A}.

Definition M (A : Type) : Type := World -> outcome A * World.

Definition ret {A : Type} (a : A) : M A := fun w => (Returns a, w).

Definition raise {A : Type} (e : exn) : M A := fun w => (Raises e, w).

Definition bind {A B : Type} (m : M A) (k : A -> M B) : M B :=
  fun w =>
    match m w with
    | (Returns a, w') => k a w'
    | (Raises e, w') => (Raises e, w')
    | (OutOfFuel, w') => (OutOfFuel, w')
    end.

Declare Scope coroutine_scope.
Delimit Scope coroutine_scope with co.
Notation "x <- m ;; k" := (bind m (fun x => k))
  (at level 61, m at next level, right associativity) : coroutine_scope.
Notation "m ;; k" := (bind m (fun _ => k))
  (at level 61, right associativity) : coroutine_scope.
Open Scope coroutine_scope.

Definition lift {A : Type} (r : result A) : M A :=
  match r with
  | Ok a => ret a
  | Raise e => raise e
  end.

Definition get {A : Type} (f : World -> A) : M A := fun w => (Returns (f w), w).

Definition modify (f : World -> World) : M unit := fun w => (Returns tt, f w).

Definition assert (b : bool) : M unit :=
  if b then ret tt else raise AssertionError.

Definition when (b : bool) (m : M unit) : M unit := if b then m else ret tt.

(* ----------------------------------------------------------------- *)
(** *** Primitive effects *)

Definition logger_debug (f : string) (a : list pyarg) : M unit :=
  modify (fun w => with_log (log w ++ [Log DEBUG f a]) w).

(** [time.time()]. *)
Definition time_time : M Z := get clock.

(** [await asyncio.sleep(ms)]. *)
Definition asyncio_sleep (ms : Z) : M unit :=
  modify (fun w => with_clock (clock w + ms) w).

(** [self.dev.read(1)]: the next entry of the script; the call takes
    [read_latency] milliseconds. *)
Definition next_read (d : Device) : bytes :=
  match rx_script d (rx_count d) with
  | Some b => [b]
  | None => []
  end.

Definition after_read (d : Device) : Device :=
  {| rx_script := rx_script d; rx_count := S (rx_count d); tx := tx d;
     rx_purges := rx_purges d; tx_purges := tx_purges d |}.

Definition dev_read1 : M bytes :=
  fun w =>
    (Returns (next_read (dev w)),
     with_clock (clock w + read_latency w) (with_dev (after_read (dev w)) w)).

(** [self.dev.write(data)]. *)
Definition dev_write (data : bytes) : M unit :=
  modify (fun w =>
    let d := dev w in
    with_dev {| rx_script := rx_script d; rx_count := rx_count d;
                tx := tx d ++ [data]; rx_purges := rx_purges d;
                tx_purges := tx_purges d |} w).

Definition ftdi_usb_purge_rx_buffer : M unit :=
  modify (fun w =>
    let d := dev w in
    with_dev {| rx_script := rx_script d; rx_count := rx_count d;
                tx := tx d; rx_purges := S (rx_purges d);
                tx_purges := tx_purges d |} w).

Definition ftdi_usb_purge_tx_buffer : M unit :=
  modify (fun w =>
    let d := dev w in
    with_dev {| rx_script := rx_script d; rx_count := rx_count d;
                tx := tx d; rx_purges := rx_purges d;
                tx_purges := S (tx_purges d) |} w).

Definition sdk (c : sdk_call) : M unit :=
  modify (fun w => with_sdk_calls (sdk_calls w ++ [c]) w).

Fixpoint bytes_eqb (a b : bytes) : bool :=
  match a, b with
  | [], [] => true
  | x :: a', y :: b' => (Byte.eqb x y && bytes_eqb a' b')%bool
  | _, _ => false
  end.

Fixpoint repeat_m (n : nat) (m : M unit) : M unit :=
  match n with
  | O => ret tt
  | S n' => m ;; repeat_m n' m
  end.

(* ================================================================= *)
(** ** Framed command transport *)

(** [_purge_buffers]. *)
Definition _purge_buffers : M unit :=
  repeat_m 6 ftdi_usb_purge_rx_buffer ;;
  ftdi_usb_purge_tx_buffer.

(** The [while x != char] loop of [_read_until]; [res] is the accumulator
    and [fuel] bounds the number of iterations of the model. *)
Fixpoint read_until_loop (fuel : nat) (char : bytes) (time_limit t0 : Z)
    (res : bytes) : M bytes :=
  match fuel with
  | O => fun w => (OutOfFuel, w)
  | S fuel' =>
      x <- dev_read1 ;;
      let res := (res ++ x)%list in
      now <- time_time ;;
      (if now - t0 >? time_limit
       then logger_debug "[cytation5] received incomplete %s" [ABytes res] ;;
            raise (TimeoutError "Timeout while waiting for response")
       else ret tt) ;;
      when (bytes_eqb x []) (asyncio_sleep 10) ;;
      if bytes_eqb x char
      then logger_debug "[cytation5] received %s" [ABytes res] ;; ret res
      else read_until_loop fuel' char time_limit t0 res
  end.

(** [_read_until(char, timeout=None)]; times are in milliseconds. *)
Definition _read_until (fuel : nat) (char : bytes) (time_limit : option Z)
  : M bytes :=
  self_timeout <- get timeout ;;
  let time_limit := match time_limit with
                    | Some t => t
                    | None => self_timeout
                    end in
  t0 <- time_time ;;
  read_until_loop fuel char time_limit t0 [].

(** [send_command(command, parameter=None, wait_for_response=True)]. *)
Definition send_command (fuel : nat) (command : string)
    (parameter : option string) (wait_for_response : bool)
  : M (option bytes) :=
  _purge_buffers ;;
  dev_write (encode command) ;;
  logger_debug "[cytation5] sent %s" [AStr command] ;;
  response <-
    (if (wait_for_response
         || match parameter with Some _ => true | None => false end)%bool
     then r <- _read_until fuel
                 (match parameter with
                  | Some _ => [ACK_byte]
                  | None => [ETX_byte]
                  end) None ;;
          ret (Some r)
     else ret None) ;;
  match parameter with
  | Some p =>
      dev_write (encode p) ;;
      logger_debug "[cytation5] sent %s" [AStr p] ;;
      if wait_for_response
      then r <- _read_until fuel [ETX_byte] None ;; ret (Some r)
      else ret response
  | None => ret response
  end.

(** Truncation towards zero of an exact value: what [int(x)] gives when the
    float [x] was computed without rounding. *)
Definition int_of_float (x : Q) : Z := Z.quot (Qnum x) (Z.pos (Qden x)).

Definition response_is (resp : option bytes) (expected : bytes) : bool :=
  match resp with
  | Some r => bytes_eqb r expected
  | None => false
  end.

(** [b"\x060000\x03"]. *)
Definition ack_0000 : bytes := (ACK_byte :: encode "0000" ++ [ETX_byte])%list.

Definition priming_parameter : string :=
  "08120112207434014351135308559127881772" ++ ETX_str.

Definition shake_priming_parameter : string :=
  "08120112207434014351135308559127881422" ++ ETX_str.

(* ================================================================= *)
(** ** The queries of the instrument *)

(** A Python [str], as the sequence of its code points. *)
Definition text : Type := list N.

Definition space : N := 32%N.

(** [s.split(sep)] for a [str] and a separator of one character. *)
Fixpoint text_split (sep : N) (s : text) : list text :=
  match s with
  | [] => [[]]
  | c :: s' =>
      if N.eqb c sep then [] :: text_split sep s'
      else match text_split sep s' with
           | word :: rest => (c :: word) :: rest
           | [] => [[c]]
           end
  end.

(** [sep.join(parts)] for [str]s. *)
Fixpoint text_join (sep : text) (parts : list text) : text :=
  match parts with
  | [] => []
  | [p] => p
  | p :: rest => (p ++ sep ++ text_join sep rest)%list
  end.

(** [s[1:-1]]. *)
Definition inner (s : bytes) : bytes := slice 1 (List.length s - 1) s.

Section Queries.

(** [b.decode()], [int(b)] for a [bytes] object and [n / d] for two [int]s:
    their results or the exceptions they raise; [T] is the type of Python
    floats. *)
Variable bytes_decode : bytes -> result text.
Variable int_of_bytes : bytes -> result Z.
Variable T : Type.
Variable true_div : Z -> Z -> result T.

(** [get_serial_number()].  [split] returns at least one segment, so that
    [[0]] is always in range. *)
Definition get_serial_number (fuel : nat) : M text :=
  resp <- send_command fuel "C" None true ;;
  match resp with
  | None => raise AssertionError
  | Some resp => lift (bytes_decode (hd [] (split (encode " ") (skipn 1 resp))))
  end.

(** [get_firmware_version()]. *)
Definition get_firmware_version (fuel : nat) : M text :=
  resp <- send_command fuel "e" None true ;;
  match resp with
  | None => raise AssertionError
  | Some resp =>
      decoded <- lift (bytes_decode (inner resp)) ;;
      ret (text_join [space] (firstn 4 (text_split space decoded)))
  end.

(** [get_current_temperature()]. *)
Definition get_current_temperature (fuel : nat) : M T :=
  resp <- send_command fuel "h" None true ;;
  match resp with
  | None => raise AssertionError
  | Some resp =>
      n <- lift (int_of_bytes (inner resp)) ;;
      lift (true_div n 100000)
  end.

End Queries.

(** An arithmetic expression on Python numbers as the source writes it:
    numbers (arguments of a call and literals), sums and products. *)
Inductive arith : Type :=
| Number (q : Q)
| Plus (a b : arith)
| Times (a b : arith).

Section Backend.

(** The type of Python floats as results, the conversion
    [float(field.decode())] of a field of a response (nothing when it
    raises [ValueError]), and the conversion of a grabbed image by the camera
    SDK under a colour processing algorithm and a pixel format. *)
Variable F : Type.
Variable float_decode : bytes -> option F.
Variable ImageProcessor_Convert : Z -> Z -> Image -> list (list F).

(** [int(e)] for an arithmetic expression [e]: Python evaluates [e], each
    operation on floats rounded to the nearest float, and truncates the
    result towards zero; when the conversion raises (as [OverflowError] on
    an infinite result) the exception is kept. *)
Variable python_int : arith -> result Z.

(* ================================================================= *)
(** ** Response parser *)

Definition parse_group (group : list bytes) : result F :=
  match group with
  | [_; _; value] =>
      match float_decode value with
      | Some v => Ok v
      | None => Raise (ValueError "could not convert string to float")
      end
  | _ => Raise AssertionError
  end.

Definition parse_row (row : bytes) : result (list F) :=
  let values := split (encode ",") row in
  let grouped_values := group3 values in
  rmap parse_group grouped_values.

(** [_parse_body(body)]. *)
Definition _parse_body (body : bytes) : result (list (list F)) :=
  rbind (index (encode "01,01") body) (fun start_index =>
  rbind (rindex [x0d; x0a] body) (fun end_index =>
  let num_rows := 8%nat in
  let rows :=
    firstn num_rows
      (split [x0d; x0a; x2c] (slice start_index end_index body)) in
  rmap parse_row rows)).

(* ================================================================= *)
(** ** Read sequencing *)

(** [read_absorbance(wavelength)]. *)
Definition read_absorbance (fuel : nat) (wavelength : Z)
  : M (list (list F)) :=
  if negb ((230 <=? wavelength)%Z && (wavelength <=? 999)%Z)%bool
  then raise (ValueError "Wavelength must be between 230 and 999")
  else
    send_command fuel "y" (Some priming_parameter) true ;;
    send_command fuel "D" (Some (absorbance_cmd wavelength)) true ;;
    resp <- send_command fuel "O" None true ;;
    assert (response_is resp ack_0000) ;;
    body <- _read_until fuel [ETX_byte] (Some (60 * 3 * 1000)) ;;
    lift (_parse_body body).

Definition focal_height_ok (focal_height : Q) : bool :=
  (Qle_bool (45 # 10) focal_height && Qle_bool focal_height (1388 # 100))%bool.

(** [read_luminescence(focal_height)]. *)
Definition read_luminescence (fuel : nat) (focal_height : Q)
  : M (list (list F)) :=
  if negb (focal_height_ok focal_height)
  then raise (ValueError "Focal height must be between 4.5 and 13.88")
  else
    focus <- lift (python_int (Times (Number 1000) (Number focal_height))) ;;
    let cmd := "3" ++ str (14220 + focus) ++ ETX_str in
    send_command fuel "t" (Some cmd) true ;;
    send_command fuel "y" (Some priming_parameter) true ;;
    send_command fuel "D" (Some luminescence_cmd) true ;;
    resp <- send_command fuel "O" None true ;;
    assert (response_is resp ack_0000) ;;
    body <- _read_until fuel [ETX_byte] (Some (60 * 3 * 1000)) ;;
    lift (_parse_body body).

(** [read_fluorescence(excitation_wavelength, emission_wavelength,
    focal_height)]. *)
Definition read_fluorescence (fuel : nat)
    (excitation_wavelength emission_wavelength : Z) (focal_height : Q)
  : M (list (list F)) :=
  if negb (focal_height_ok focal_height)
  then raise (ValueError "Focal height must be between 4.5 and 13.88")
  else if negb ((250 <=? excitation_wavelength)%Z
                && (excitation_wavelength <=? 700)%Z)%bool
  then raise (ValueError "Excitation wavelength must be between 250 and 700")
  else if negb ((250 <=? emission_wavelength)%Z
                && (emission_wavelength <=? 700)%Z)%bool
  then raise (ValueError "Emission wavelength must be between 250 and 700")
  else
    focus <- lift (python_int (Times (Number 1000) (Number focal_height))) ;;
    let cmd := str (614220 + focus) ++ ETX_str in
    send_command fuel "t" (Some cmd) true ;;
    send_command fuel "y" (Some priming_parameter) true ;;
    send_command fuel "D"
      (Some (fluorescence_cmd excitation_wavelength emission_wavelength))
      true ;;
    resp <- send_command fuel "O" None true ;;
    assert (response_is resp ack_0000) ;;
    body <- _read_until fuel [ETX_byte] (Some (60 * 2 * 1000)) ;;
    lift (_parse_body body).

(* ================================================================= *)
(** ** Shake session *)

(** [shake_maximal_duration()] of [shake]. *)
Definition shake_maximal_duration (fuel : nat) (shake_type : ShakeType)
  : M unit :=
  send_command fuel "y" (Some shake_priming_parameter) true ;;
  send_command fuel "D" (Some (shake_cmd shake_type)) true ;;
  resp <- send_command fuel "O" None true ;;
  assert (response_is resp ack_0000).

(** [asyncio.create_task(coro)]: the new task joins the tasks of the event
    loop; the handle is its position among them. *)
Definition create_task (t : Task) : M nat :=
  fun w => (Returns (List.length (tasks w)), with_tasks (tasks w ++ [t]) w).

(** [shake(shake_type)]. *)
Definition shake (shake_type : ShakeType) : M unit :=
  modify (with_shaking true) ;;
  task <- create_task {| task_shake_type := shake_type;
                         task_status := Created |} ;;
  modify (with_shaking_task (Some task)).

Fixpoint set_nth {A : Type} (i : nat) (a : A) (l : list A) : list A :=
  match l, i with
  | [], _ => []
  | _ :: l', O => a :: l'
  | x :: l', S i' => x :: set_nth i' a l'
  end.

Definition set_task_status (i : nat) (st : task_state) : M unit :=
  modify (fun w =>
    match nth_error (tasks w) i with
    | Some t =>
        with_tasks
          (set_nth i {| task_shake_type := task_shake_type t;
                        task_status := st |} (tasks w)) w
    | None => w
    end).

(** [shake_continuous()] from the head of its outer loop to the next point
    where it is suspended in [asyncio.sleep(loop_wait_time)], or to its
    end. *)
Definition shake_round (fuel : nat) (i : nat) (shake_type : ShakeType)
  : M unit :=
  shaking <- get _shaking ;;
  if shaking
  then
    shake_maximal_duration fuel shake_type ;;
    shaking <- get _shaking ;;
    if ((0 <? max_duration * 1000)%Z && shaking)%bool
    then asyncio_sleep 250 ;; set_task_status i (Waiting 250)
    else set_task_status i Finished
  else set_task_status i Finished.

(** One turn of the event loop given to task [i]: the coroutine runs from
    where it is suspended to its next suspension in the polling loop.  An
    exception ends the task and is kept in it.  The exchanges of
    [shake_maximal_duration] are run in one piece. *)
Definition run_task (fuel : nat) (i : nat) : M unit :=
  fun w =>
    match nth_error (tasks w) i with
    | Some t =>
        let body :=
          match task_status t with
          | Created => shake_round fuel i (task_shake_type t)
          | Waiting since =>
              shaking <- get _shaking ;;
              if ((since <? max_duration * 1000)%Z && shaking)%bool
              then asyncio_sleep 250 ;; set_task_status i (Waiting (since + 250))
              else shake_round fuel i (task_shake_type t)
          | _ => ret tt
          end in
        match body w with
        | (Raises e, w') => set_task_status i (Failed e) w'
        | r => r
        end
    | None => (Returns tt, w)
    end.

(** [_abort()]. *)
Definition _abort (fuel : nat) : M unit :=
  send_command fuel "x" None false ;; ret tt.

(** The turns the event loop gives while a coroutine is suspended in
    [await task] on a task that is not done: the tasks that are ready run
    before the coroutine resumes.  These are the tasks created and not yet
    started, whose first step was scheduled at their creation, and, of the
    tasks asleep in the polling loop, those whose sleep is over by then,
    which [woken] tells.  [ts] are the tasks from position [j] on. *)
Fixpoint loop_turns (fuel : nat) (woken : nat -> bool) (ts : list Task)
    (j : nat) : M unit :=
  match ts with
  | [] => ret tt
  | t :: ts' =>
      match task_status t with
      | Created => run_task fuel j
      | Waiting _ => if woken j then run_task fuel j else ret tt
      | _ => ret tt
      end ;;
      loop_turns fuel woken ts' (S j)
  end.

(** [task.cancel()] followed by [await task] inside
    [try ... except asyncio.CancelledError: pass].  Awaiting a task that is
    done does not suspend; awaiting the task just cancelled does, until its
    cancellation has been delivered. *)
Definition cancel_and_await (fuel : nat) (woken : nat -> bool) (i : nat)
  : M unit :=
  ts <- get tasks ;;
  match nth_error ts i with
  | Some t =>
      match task_status t with
      | Created | Waiting _ =>
          set_task_status i Cancelled ;;
          ts <- get tasks ;;
          loop_turns fuel woken ts 0
      | Failed e => raise e
      | Finished | Cancelled => ret tt
      end
  | None => ret tt
  end.

(** [stop_shaking()]. *)
Definition stop_shaking (fuel : nat) (woken : nat -> bool) : M unit :=
  _abort fuel ;;
  shaking <- get _shaking ;;
  when shaking (modify (with_shaking false)) ;;
  task <- get _shaking_task ;;
  match task with
  | Some i =>
      cancel_and_await fuel woken i ;; modify (with_shaking_task None)
  | None => ret tt
  end.

(** The number of tasks of the event loop still running [shake_continuous]. *)
Definition live_tasks (w : World) : nat :=
  List.length (filter task_live (tasks w)).

(* ================================================================= *)
(** ** Setters with a state cache *)

Definition arg_of_setting (v : Setting) : pyarg :=
  match v with
  | Num q => AFloat q
  | Text s => AStr s
  end.

Definition is_auto (v : Setting) : bool :=
  match v with
  | Text s => String.eqb s "auto"
  | Num _ => false
  end.

Definition set_cached_exposure (v : option Setting) (c : Cache) : Cache :=
  {| _exposure := v; _focal_height := _focal_height c; _gain := _gain c;
     _imaging_mode := _imaging_mode c; _row := _row c;
     _column := _column c |}.

Definition set_cached_focal_height (v : option Setting) (c : Cache) : Cache :=
  {| _exposure := _exposure c; _focal_height := v; _gain := _gain c;
     _imaging_mode := _imaging_mode c; _row := _row c;
     _column := _column c |}.

Definition set_cached_gain (v : option Setting) (c : Cache) : Cache :=
  {| _exposure := _exposure c; _focal_height := _focal_height c; _gain := v;
     _imaging_mode := _imaging_mode c; _row := _row c;
     _column := _column c |}.

Definition set_cached_imaging_mode (v : option ImagingMode) (c : Cache)
  : Cache :=
  {| _exposure := _exposure c; _focal_height := _focal_height c;
     _gain := _gain c; _imaging_mode := v; _row := _row c;
     _column := _column c |}.

Definition set_cached_well (row column : option Z) (c : Cache) : Cache :=
  {| _exposure := _exposure c; _focal_height := _focal_height c;
     _gain := _gain c; _imaging_mode := _imaging_mode c; _row := row;
     _column := column |}.

Definition update_cache (f : Cache -> Cache) : M unit :=
  modify (fun w => with_cache (f (cache w)) w).

Definition camera_not_initialized : exn :=
  ValueError "Camera not initialized. Run setup(use_cam=True) first.".

Definition int_cached_eqb (value : Z) (cached : option Z) : bool :=
  match cached with
  | Some c => (value =? c)%Z
  | None => false
  end.

Definition mode_cached_eqb (value : ImagingMode) (cached : option ImagingMode)
  : bool :=
  match cached with
  | Some c => ImagingMode_eqb value c
  | None => false
  end.

(** [led_on(intensity=10)]. *)
Definition led_on (fuel : nat) (intensity : Z) : M unit :=
  if negb ((1 <=? intensity)%Z && (intensity <=? 10)%Z)%bool
  then raise (ValueError "intensity must be between 1 and 10")
  else
    let intensity_str := zfill 2 (str intensity) in
    c <- get cache ;;
    match _imaging_mode c with
    | None =>
        raise (ValueError "Imaging mode not set. Run set_imaging_mode() first.")
    | Some mode =>
        match
          match mode with
          | BRIGHTFIELD => Some "05"
          | GFP => Some "02"
          | TEXAS_RED => Some "03"
          | PHASE_CONTRAST => Some "07"
          | _ => None
          end
        with
        | Some imaging_mode_code =>
            send_command fuel "i"
              (Some ("L" ++ imaging_mode_code ++ intensity_str)) true ;;
            ret tt
        | None => raise KeyError
        end
    end.

(** [led_off()]. *)
Definition led_off (fuel : nat) : M unit :=
  send_command fuel "i" (Some "L0001") true ;; ret tt.

(** [auto_focus()]. *)
Definition auto_focus : M unit :=
  raise (NotImplementedError "auto_focus not implemented yet").

Definition slope : Q := 10637991436186072 # 1000000000000000.
Definition intercept : Q := 10243013203461762 # 10000000000000000.

(** [set_focus(focal_position)]. *)
Definition set_focus (fuel : nat) (focal_position : Setting) : M unit :=
  c <- get cache ;;
  if cached_eqb focal_position (_focal_height c)
  then logger_debug "Focus position is already set to %s"
         [arg_of_setting focal_position]
  else
    match focal_position with
    | Text s => if String.eqb s "auto" then auto_focus else raise TypeError
    | Num q =>
        focus_integer <-
          lift (python_int
                  (Plus (Plus (Number q) (Number intercept))
                     (Times (Times (Number slope) (Number q))
                        (Number 1000)))) ;;
        let focus_str := zfill 5 (str focus_integer) in
        send_command fuel "Y" (Some "Z1560101000000000000") true ;;
        send_command fuel "i" (Some ("F50" ++ focus_str)) true ;;
        update_cache (set_cached_focal_height (Some focal_position))
    end.

(** [set_auto_exposure(auto_exposure)]. *)
Definition set_auto_exposure (auto_exposure : string) : M unit :=
  camera <- get cam ;;
  match camera with
  | None => raise camera_not_initialized
  | Some camera =>
      if negb (is_RW (ExposureAuto_access camera))
      then raise (RuntimeError "unable to write ExposureAuto")
      else if String.eqb auto_exposure "off"
      then sdk (ExposureAuto_SetValue Auto_Off)
      else if String.eqb auto_exposure "once"
      then sdk (ExposureAuto_SetValue Auto_Once)
      else if String.eqb auto_exposure "continuous"
      then sdk (ExposureAuto_SetValue Auto_Continuous)
      else raise KeyError
  end.

(** [x < y] on floats. *)
Definition Qlt_bool (x y : Q) : bool := negb (Qle_bool y x).

(** [set_exposure(exposure)]; messages built with an f-string are kept
    as their template. *)
Definition set_exposure (exposure : Setting) : M unit :=
  c <- get cache ;;
  if cached_eqb exposure (_exposure c)
  then logger_debug "Exposure time is already set to %s"
         [arg_of_setting exposure]
  else
    camera <- get cam ;;
    match camera with
    | None => raise camera_not_initialized
    | Some camera =>
        match exposure with
        | Text s =>
            if String.eqb s "auto"
            then set_auto_exposure "continuous" ;;
                 update_cache (set_cached_exposure (Some (Text "auto")))
            else raise (ValueError "exposure must be a number or 'auto'")
        | Num q =>
            sdk (ExposureAuto_SetValue Auto_Off) ;;
            if negb (is_RW (ExposureTime_access camera))
            then raise (RuntimeError "unable to write ExposureTime")
            else
              exposure_us <-
                lift (python_int (Times (Number q) (Number 1000))) ;;
              let min_et := ExposureTime_min camera in
              if Qlt_bool (inject_Z exposure_us) min_et
              then raise (ValueError "exposure must be >= {min_et}")
              else
                let max_et := ExposureTime_max camera in
                if Qlt_bool max_et (inject_Z exposure_us)
                then raise (ValueError "exposure must be <= {max_et}")
                else
                  sdk (ExposureTime_SetValue exposure_us) ;;
                  update_cache (set_cached_exposure (Some exposure))
        end
    end.

(** [select(row, column)]. *)
Definition select (fuel : nat) (row column : Z) : M unit :=
  c <- get cache ;;
  if (int_cached_eqb row (_row c) && int_cached_eqb column (_column c))%bool
  then logger_debug "Already selected %s, %s" [AInt row; AInt column]
  else
    send_command fuel "Y" (Some "Z1260101000000000000") true ;;
    let row_str := zfill 2 (str row) in
    let column_str := zfill 2 (str column) in
    send_command fuel "Y" (Some ("W6" ++ row_str ++ column_str)) true ;;
    update_cache (set_cached_well (Some row) (Some column)).

(** [set_gain(gain)]. *)
Definition set_gain (gain : Setting) : M unit :=
  camera <- get cam ;;
  match camera with
  | None => raise camera_not_initialized
  | Some camera =>
      c <- get cache ;;
      if cached_eqb gain (_gain c)
      then logger_debug "Gain is already set to %s" [arg_of_setting gain]
      else
        match
          match gain with
          | Text s => if String.eqb s "auto" then Ok true else Raise TypeError
          | Num q => Ok (Qle_bool 0 q && Qle_bool q 30)%bool
          end
        with
        | Raise e => raise e
        | Ok false =>
            raise (ValueError
                     "gain must be between 0 and 30 (inclusive), or 'auto'")
        | Ok true =>
            if negb (GainAuto_readable camera && GainAuto_writable camera)%bool
            then raise (RuntimeError "unable to set automatic gain")
            else
              let node_readable :=
                if is_auto gain then GainAuto_Continuous_readable camera
                else GainAuto_Off_readable camera in
              if negb node_readable
              then raise (RuntimeError
                     "unable to set automatic gain (enum entry retrieval)")
              else
                sdk (GainAuto_SetIntValue
                       (if is_auto gain then Auto_Continuous else Auto_Off)) ;;
                match gain with
                | Text _ => ret tt
                | Num q =>
                    if (negb (Gain_readable camera)
                        || negb (Gain_writable camera)
                        || Qeq_bool (Gain_max camera) 0)%bool
                    then raise (RuntimeError "unable to set gain")
                    else
                      let min_gain := Gain_min camera in
                      if Qlt_bool q min_gain
                      then raise (ValueError "gain must be >= {min_gain}")
                      else
                        let max_gain := Gain_max camera in
                        if Qlt_bool max_gain q
                        then raise (ValueError "gain must be <= {max_gain}")
                        else sdk (Gain_SetValue q)
                end ;;
                update_cache (set_cached_gain (Some gain))
        end
  end.

(** [set_imaging_mode(mode)]. *)
Definition set_imaging_mode (fuel : nat) (mode : ImagingMode) : M unit :=
  camera <- get cam ;;
  match camera with
  | None => raise camera_not_initialized
  | Some _ =>
      c <- get cache ;;
      if mode_cached_eqb mode (_imaging_mode c)
      then logger_debug "Imaging mode is already set to %s" [AMode mode]
      else if ImagingMode_eqb mode COLOR_BRIGHTFIELD
      then raise (NotImplementedError
                    "Color brightfield imaging not implemented yet")
      else
        led_off fuel ;;
        match mode with
        | PHASE_CONTRAST =>
            send_command fuel "Y" (Some "P1120") true ;;
            send_command fuel "Y" (Some "P0d05") true ;;
            send_command fuel "Y" (Some "P1002") true ;;
            ret tt
        | BRIGHTFIELD =>
            send_command fuel "Y" (Some "Z1500000000000000000") true ;;
            send_command fuel "i" (Some "F5000000") true ;;
            send_command fuel "i" (Some "W000000") true ;;
            send_command fuel "Y" (Some "P1101") true ;;
            send_command fuel "Y" (Some "P0d05") true ;;
            send_command fuel "Y" (Some "P1002") true ;;
            ret tt
        | GFP =>
            send_command fuel "Y" (Some "P1101") true ;;
            send_command fuel "Y" (Some "P0d02") true ;;
            send_command fuel "Y" (Some "P1001") true ;;
            ret tt
        | TEXAS_RED =>
            send_command fuel "Y" (Some "P1101") true ;;
            send_command fuel "Y" (Some "P0d03") true ;;
            send_command fuel "Y" (Some "P1001") true ;;
            ret tt
        | _ => ret tt
        end ;;
        update_cache (set_cached_imaging_mode (Some mode)) ;;
        led_on fuel 10
  end.

(* ================================================================= *)
(** ** Image acquisition *)

Definition with_attempts (a : list attempt) (c : Camera) : Camera :=
  {| ExposureAuto_access := ExposureAuto_access c;
     ExposureTime_access := ExposureTime_access c;
     ExposureTime_min := ExposureTime_min c;
     ExposureTime_max := ExposureTime_max c;
     GainAuto_readable := GainAuto_readable c;
     GainAuto_writable := GainAuto_writable c;
     GainAuto_Continuous_readable := GainAuto_Continuous_readable c;
     GainAuto_Off_readable := GainAuto_Off_readable c;
     Gain_readable := Gain_readable c;
     Gain_writable := Gain_writable c;
     Gain_min := Gain_min c;
     Gain_max := Gain_max c;
     attempts := a |}.

(** What the coming attempt meets; when the camera has nothing more in
    store, [GetNextImage] raises. *)
Definition next_attempt : M attempt :=
  fun w =>
    match cam w with
    | Some c =>
        match attempts c with
        | a :: rest => (Returns a, with_cam (Some (with_attempts rest c)) w)
        | [] => (Returns FetchFails, w)
        end
    | None => (Returns FetchFails, w)
    end.

(** [try: body finally: cleanup]. *)
Definition finally {A : Type} (body : M A) (cleanup : M unit) : M A :=
  fun w =>
    match body w with
    | (r, w') =>
        match cleanup w' with
        | (Returns _, w'') => (r, w'')
        | (Raises e, w'') => (Raises e, w'')
        | (OutOfFuel, w'') => (OutOfFuel, w'')
        end
    end.

(** The [while num_tries < self.max_image_read_attempts] loop of
    [_acquire_image]; [remaining] is
    [max_image_read_attempts - num_tries]. *)
Fixpoint acquire_loop (remaining : nat)
    (color_processing_algorithm pixel_format : Z) : M (list (list F)) :=
  match remaining with
  | O => raise (TimeoutError "max_image_read_attempts reached")
  | S remaining' =>
      a <- next_attempt ;;
      match a with
      | TriggerNotWritable =>
          raise (RuntimeError "unable to execute software trigger")
      | Complete img =>
          sdk TriggerSoftware_Execute ;;
          sdk (GetNextImage 1000) ;;
          sdk Image_Release ;;
          ret (ImageProcessor_Convert color_processing_algorithm
                 pixel_format img)
      | Incomplete =>
          sdk TriggerSoftware_Execute ;;
          sdk (GetNextImage 1000) ;;
          asyncio_sleep 300 ;;
          acquire_loop remaining' color_processing_algorithm pixel_format
      | FetchFails =>
          sdk TriggerSoftware_Execute ;;
          sdk (GetNextImage 1000) ;;
          logger_debug "Failed to get image: %s" [AException] ;;
          asyncio_sleep 300 ;;
          acquire_loop remaining' color_processing_algorithm pixel_format
      end
  end.

(** [_acquire_image(color_processing_algorithm, pixel_format)]. *)
Definition _acquire_image (color_processing_algorithm pixel_format : Z)
  : M (list (list F)) :=
  camera <- get cam ;;
  assert (match camera with Some _ => true | None => false end) ;;
  sdk BeginAcquisition ;;
  finally
    (n <- get max_image_read_attempts ;;
     acquire_loop (Z.to_nat n) color_processing_algorithm pixel_format)
    (sdk EndAcquisition).


End Backend.

(* ================================================================= *)
(** ** Notions used to state the properties *)

(** [sep.join(parts)]. *)
Fixpoint join (sep : bytes) (parts : list bytes) : bytes :=
  match parts with
  | [] => []
  | [p] => p
  | p :: rest => (p ++ sep ++ join sep rest)%list
  end.

Definition CRLF : bytes := [x0d; x0a].

(** A group of a row segment: the two indices and the value, as fields. *)
Record Group : Type := {
  row_index : bytes;
  col_index : bytes;
  value : bytes
}.

Definition group_fields (g : Group) : list bytes :=
  [row_index g; col_index g; value g].

(** A row segment: the fields of its groups joined by commas. *)
Definition render_row (groups : list Group) : bytes :=
  join (encode ",") (flat_map group_fields groups).

(** The row segments, separated by CR LF and a comma. *)
Definition render_rows (rows : list (list Group)) : bytes :=
  join [x0d; x0a; x2c] (map render_row rows).

(** A response body: whatever precedes the rows, the rows, the final CR LF
    and whatever follows it. *)
Definition render_body (header : bytes) (rows : list (list Group))
    (trailer : bytes) : bytes :=
  (header ++ render_rows rows ++ CRLF ++ trailer)%list.

(** No byte of [s] is [c]. *)
Definition free_of (c : byte) (s : bytes) : bool :=
  forallb (fun b => negb (Byte.eqb c b)) s.

(** A field contains neither a comma nor a carriage return. *)
Definition clean_field (f : bytes) : bool :=
  (free_of x2c f && free_of x0d f)%bool.

Definition clean_group (g : Group) : bool :=
  (clean_field (row_index g) && clean_field (col_index g)
   && clean_field (value g))%bool.

(** A row has at least one group, and all its fields are clean. *)
Definition clean_row (groups : list Group) : bool :=
  (match groups with [] => false | _ => true end
   && forallb clean_group groups)%bool.

(** [x] is the value of group [g] as the parser converts it. *)
Definition converted (F : Type) (float_decode : bytes -> option F)
    (g : Group) (x : F) : Prop :=
  float_decode (value g) = Some x.

(** [w'] differs from [w] by log records at most: the serial device, the
    camera, the calls into the SDK, the clock, the cache and the tasks are
    the same. *)
Definition only_logged (w w' : World) : Prop := w' = with_log (log w') w.

(** A call of one of the five setters that keep a cached value. *)
Inductive setter_call : Type :=
| SetExposure (exposure : Setting)
| SetFocus (focal_position : Setting)
| SetGain (gain : Setting)
| SetImagingMode (mode : ImagingMode)
| Select (row column : Z).

Definition call_setter (python_int : arith -> result Z) (fuel : nat)
    (c : setter_call) : M unit :=
  match c with
  | SetExposure v => set_exposure python_int v
  | SetFocus v => set_focus python_int fuel v
  | SetGain v => set_gain v
  | SetImagingMode m => set_imaging_mode fuel m
  | Select row column => select fuel row column
  end.

(** The requested value equals the cached one, by the comparison the setter
    makes. *)
Definition requested_is_cached (c : setter_call) (k : Cache) : bool :=
  match c with
  | SetExposure v => cached_eqb v (_exposure k)
  | SetFocus v => cached_eqb v (_focal_height k)
  | SetGain v => cached_eqb v (_gain k)
  | SetImagingMode m => mode_cached_eqb m (_imaging_mode k)
  | Select row column =>
      (int_cached_eqb row (_row k) && int_cached_eqb column (_column k))%bool
  end.

(** The setters that look for the camera before they look at the cache. *)
Definition checks_camera_first (c : setter_call) : bool :=
  match c with
  | SetGain _ | SetImagingMode _ => true
  | _ => false
  end.

(** An attempt after which the loop tries again. *)
Definition retryable (a : attempt) : bool :=
  match a with
  | Incomplete | FetchFails => true
  | _ => false
  end.

(** The number of fetches ([GetNextImage]) among calls into the SDK. *)
Fixpoint fetches (l : list sdk_call) : nat :=
  match l with
  | [] => 0
  | GetNextImage _ :: l' => S (fetches l')
  | _ :: l' => fetches l'
  end.

(** What [n] successive reads return, from position [from] of a script. *)
Fixpoint script_bytes (s : nat -> option byte) (from n : nat) : bytes :=
  match n with
  | O => []
  | S n' =>
      (match s from with Some b => [b] | None => [] end
       ++ script_bytes s (S from) n')%list
  end.

(* ================================================================= *)
(** ** A concrete instance, for running the model *)

Definition digit_of (b : byte) : option Z :=
  let n := Z.of_N (Byte.to_N b) in
  if ((48 <=? n)%Z && (n <=? 57)%Z)%bool then Some (n - 48) else None.

Fixpoint digits_value (acc : Z) (l : bytes) : option Z :=
  match l with
  | [] => Some acc
  | b :: l' =>
      match digit_of b with
      | Some d => digits_value (10 * acc + d) l'
      | None => None
      end
  end.

(** A stand-in for [float(field.decode())] on the fields the instrument
    sends: a non-empty run of decimal digits, read as that number. *)
Definition digits_float (field : bytes) : option Q :=
  match field with
  | [] => None
  | _ => option_map inject_Z (digits_value 0 field)
  end.

(** A stand-in for [int(e)] on expressions whose operations are exact on
    floats, such as [50 * 1000]: the exact value, truncated. *)
Fixpoint exact_value (e : arith) : Q :=
  match e with
  | Number q => q
  | Plus a b => exact_value a + exact_value b
  | Times a b => exact_value a * exact_value b
  end.

Definition exact_int (e : arith) : result Z := Ok (int_of_float (exact_value e)).

(** A stand-in for the conversion of the camera SDK: the pixels
    unchanged. *)
Definition plain_convert (_ _ : Z) (img : Image) : list (list Q) :=
  map (map inject_Z) img.

Definition script_of (l : bytes) : nat -> option byte :=
  fun n => nth_error l n.

Definition fresh_device (incoming : bytes) : Device :=
  {| rx_script := script_of incoming; rx_count := 0; tx := [];
     rx_purges := 0; tx_purges := 0 |}.

Definition empty_cache : Cache :=
  {| _exposure := None; _focal_height := None; _gain := None;
     _imaging_mode := None; _row := None; _column := None |}.

(** The backend after [__init__] and [setup()], without a camera, facing a
    device that will send [incoming]; a read takes one millisecond. *)
Definition fresh_world (incoming : bytes) : World :=
  {| dev := fresh_device incoming; clock := 0; read_latency := 1; log := [];
     timeout := 20 * 1000; cam := None; sdk_calls := [];
     max_image_read_attempts := 8; cache := empty_cache;
     _shaking := false; _shaking_task := None; tasks := [] |}.

(** A camera whose nodes are all accessible, with the attempts given. *)
Definition sample_camera (a : list attempt) : Camera :=
  {| ExposureAuto_access := RW; ExposureTime_access := RW;
     ExposureTime_min := 10; ExposureTime_max := 30000000;
     GainAuto_readable := true; GainAuto_writable := true;
     GainAuto_Continuous_readable := true; GainAuto_Off_readable := true;
     Gain_readable := true; Gain_writable := true;
     Gain_min := 0; Gain_max := 24; attempts := a |}.

Definition camera_world (a : list attempt) : World :=
  with_cam (Some (sample_camera a)) (fresh_world []).

(** A grid of eight rows and two columns; the value of the well in row [r]
    and column [c] is [10 r + c]. *)
Definition sample_group (r c : Z) : Group :=
  {| row_index := encode (zfill 2 (str r));
     col_index := encode (zfill 2 (str c));
     value := encode (str (10 * r + c)) |}.

Definition sample_grid : list (list Group) :=
  map (fun r => [sample_group r 1; sample_group r 2]) [1; 2; 3; 4; 5; 6; 7; 8].

Definition sample_values (rows : list Z) : list (list Q) :=
  map (fun r => [inject_Z (10 * r + 1); inject_Z (10 * r + 2)]) rows.

Definition sample_header : bytes := (encode "0000" ++ CRLF)%list.

Definition sample_body (rows : list (list Group)) : bytes :=
  render_body sample_header rows [ETX_byte].

(** What a device sends that acknowledges the three exchanges of a read or
    of a shake command. *)
Definition sample_acks : bytes :=
  ([ACK_byte] ++ encode "0" ++ [ETX_byte]
   ++ [ACK_byte] ++ encode "0" ++ [ETX_byte] ++ ack_0000)%list.

Definition sample_incoming (rows : list (list Group)) : bytes :=
  (sample_acks ++ sample_body rows)%list.

(** Worlds with something in the cache. *)
Definition exposure_cached_world : World :=
  with_cache (set_cached_exposure (Some (Num 50)) empty_cache) (fresh_world []).

Definition well_cached_world : World :=
  with_cache (set_cached_well (Some 2) (Some 3) empty_cache)
    (camera_world []).

(** A camera that delivers a complete image at the fourth attempt. *)
Definition sample_image : Image := [[1; 2]; [3; 4]].

Definition slow_camera_world : World :=
  camera_world [Incomplete; Incomplete; Incomplete; Complete sample_image].

(* ================================================================= *)
(** ** Further notions *)

(** How many of [n] successive reads, from position [from] of a script,
    find no byte. *)
Fixpoint idle_reads (s : nat -> option byte) (from n : nat) : Z :=
  match n with
  | O => 0
  | S n' =>
      (match s from with Some _ => 0 | None => 1 end)
      + idle_reads s (S from) n'
  end.

(** [w'] has the camera, the calls into the SDK, the cache, the shake
    session, the tasks and the settings of [w], and faces the same script. *)
Definition same_backend (w w' : World) : Prop :=
  cam w' = cam w /\ sdk_calls w' = sdk_calls w /\ cache w' = cache w
  /\ _shaking w' = _shaking w /\ _shaking_task w' = _shaking_task w
  /\ tasks w' = tasks w /\ timeout w' = timeout w
  /\ read_latency w' = read_latency w
  /\ max_image_read_attempts w' = max_image_read_attempts w
  /\ rx_script (dev w') = rx_script (dev w).

(** The device sends the bytes [l], one at each of the coming reads. *)
Definition sends (w : World) (l : bytes) : Prop :=
  forall i, (i < List.length l)%nat ->
    rx_script (dev w) (rx_count (dev w) + i) = nth_error l i.

(** What happened on the serial port between [w] and [w']: [consumed] reads
    were made, the chunks [written] were written in this order, the
    buffers were purged [purged] times (six purges of the receive buffer and
    one of the transmit buffer each time); the clock did not go back and
    the rest of the backend is as it was. *)
Definition port_after (w w' : World) (consumed : nat) (written : list bytes)
    (purged : nat) : Prop :=
  same_backend w w'
  /\ rx_count (dev w') = (rx_count (dev w) + consumed)%nat
  /\ tx (dev w') = (tx (dev w) ++ written)%list
  /\ rx_purges (dev w') = (rx_purges (dev w) + 6 * purged)%nat
  /\ tx_purges (dev w') = (tx_purges (dev w) + purged)%nat
  /\ clock w <= clock w'.

(** The world once [send_command] has purged the buffers, written the
    command and logged it. *)
Definition command_sent (command : string) (w : World) : World :=
  snd ((_purge_buffers ;;
        dev_write (encode command) ;;
        logger_debug "[cytation5] sent %s" [AStr command]) w).

(** The world once [send_command] has written the parameter and logged
    it. *)
Definition parameter_sent (parameter : string) (w : World) : World :=
  snd ((dev_write (encode parameter) ;;
        logger_debug "[cytation5] sent %s" [AStr parameter]) w).

(** The three exchanges shared by the reads and by the shake command: the
    priming command, the action command, and the trigger whose answer must
    be [b"\x060000\x03"]. *)
Definition command_sequence (fuel : nat) (priming action : string) : M unit :=
  send_command fuel "y" (Some priming) true ;;
  send_command fuel "D" (Some action) true ;;
  resp <- send_command fuel "O" None true ;;
  assert (response_is resp ack_0000).

(** What a device sends that acknowledges at once the priming command with
    the response [r1], the action command with [r2], and answers the trigger
    with [r3]. *)
Definition sequence_answers (r1 r2 r3 : bytes) : bytes :=
  ([ACK_byte] ++ r1 ++ [ETX_byte] ++ [ACK_byte] ++ r2 ++ [ETX_byte]
   ++ r3 ++ [ETX_byte])%list.

(** A coroutine keeps a relation between the world it finds and the world
    it leaves, however it ends. *)
Definition keeps {A : Type} (R : World -> World -> Prop) (m : M A) : Prop :=
  forall w, R w (snd (m w)).

(** The camera and the record of calls into its SDK are the same. *)
Definition same_camera (w w' : World) : Prop :=
  cam w' = cam w /\ sdk_calls w' = sdk_calls w.

(** The serial device and the clock are the same. *)
Definition same_device (w w' : World) : Prop :=
  dev w' = dev w /\ clock w' = clock w.

(** The cache is the same. *)
Definition same_cache (w w' : World) : Prop := cache w' = cache w.

(** Two worlds that differ by their logs at most. *)
Definition same_but_log (w w' : World) : Prop := with_log [] w = with_log [] w'.



(* ================================================================= *)
(** ** Further concrete instances *)

(** Stand-ins for [b.decode()], [int(b)] and [n / d] on what the instrument
    sends: ASCII text, a non-empty run of decimal digits, and the exact
    quotient by a positive divisor. *)
Definition ascii_decode (b : bytes) : result text :=
  if forallb (fun x => (Byte.to_N x <? 128)%N) b
  then Ok (map Byte.to_N b)
  else Raise (ValueError "'utf-8' codec can't decode byte").

Definition digits_int (b : bytes) : result Z :=
  match b, digits_value 0 b with
  | _ :: _, Some n => Ok n
  | _, _ => Raise (ValueError "invalid literal for int() with base 10")
  end.

Definition exact_div (n d : Z) : result Q := Ok (n # Z.to_pos d).

(** Answers to the queries: each begins with the ACK. *)
Definition temperature_reply : bytes := ACK_byte :: encode "2345678".

Definition serial_reply_rest : bytes := encode "rev 2".

Definition firmware_reply : bytes :=
  ACK_byte :: encode "7090202 Version 2.07 extra words".

(** A group whose value is not a number. *)
Definition overflow_group : Group :=
  {| row_index := encode "09"; col_index := encode "01";
     value := encode "OVRFLW" |}.

(** What a device sends that acknowledges two commands and answers each
    with [0]. *)
Definition two_acks : bytes :=
  (([ACK_byte] ++ encode "0" ++ [ETX_byte])
   ++ ([ACK_byte] ++ encode "0" ++ [ETX_byte]) ++ [])%list.


(** Backends whose stored task has failed, and is waiting. *)
Definition failed_task_world : World :=
  with_shaking_task (Some 0%nat)
    (with_tasks [{| task_shake_type := LINEAR;
                    task_status := Failed AssertionError |}]
       (fresh_world [])).

Definition waiting_task_world : World :=
  with_shaking true
    (with_shaking_task (Some 0%nat)
       (with_tasks [{| task_shake_type := LINEAR;
                       task_status := Waiting 250 |}]
          (fresh_world []))).

(** A task of the event loop once a coroutine has awaited a task that was
    not done, while the shaking flag is cleared: a task that got a turn
    (created and not started, or asleep and woken) found the flag cleared
    and ended; the others are as they were. *)
Definition after_turn (woken : nat -> bool) (j : nat) (t : Task) : Task :=
  match task_status t with
  | Created => {| task_shake_type := task_shake_type t;
                  task_status := Finished |}
  | Waiting _ =>
      if woken j
      then {| task_shake_type := task_shake_type t; task_status := Finished |}
      else t
  | _ => t
  end.

(** The tasks [ts], at the positions from [j] on, after these turns. *)
Fixpoint turns_from (woken : nat -> bool) (j : nat) (ts : list Task)
  : list Task :=
  match ts with
  | [] => []
  | t :: ts' => after_turn woken j t :: turns_from woken (S j) ts'
  end.

(** A backend with a task asleep from an earlier session and two tasks
    created and not yet started, the handle of the last one stored. *)
Definition three_tasks_world : World :=
  with_shaking true
    (with_shaking_task (Some 2%nat)
       (with_tasks [{| task_shake_type := LINEAR;
                       task_status := Waiting 500 |};
                    {| task_shake_type := ORBITAL; task_status := Created |};
                    {| task_shake_type := LINEAR; task_status := Created |}]
          (fresh_world []))).

(** What a device sends that acknowledges the focus command of a
    fluorescence read, then the three exchanges, then the sample grid. *)
Definition fluorescence_incoming : bytes :=
  (([ACK_byte] ++ encode "0" ++ [ETX_byte])
   ++ sequence_answers (encode "0") (encode "0") (ACK_byte :: encode "0000")
   ++ (sample_header ++ render_rows sample_grid ++ CRLF) ++ [ETX_byte])%list.
(* ================================================================= *)
(** ** Properties of the payload builder *)

Lemma to_int_not_nil (n : Z) :
  Z.to_int n <> Decimal.Pos Decimal.Nil /\ Z.to_int n <> Decimal.Neg Decimal.Nil.
Proof.
  destruct n as [|p|p]; simpl; split; try discriminate;
    intro H; inversion H as [H']; exact (Unsigned.to_uint_nonnil p H').
Qed.

(** [str] is injective: two integers with the same decimal text are equal. *)
Lemma str_inj (a b : Z) : str a = str b -> a = b.
Proof.
  unfold str. intro H.
  apply DecimalZ.to_int_inj.
  destruct (to_int_not_nil a) as [Ha1 Ha2].
  destruct (to_int_not_nil b) as [Hb1 Hb2].
  pose proof (NilZero.isi _ Ha1 Ha2) as Ia.
  pose proof (NilZero.isi _ Hb1 Hb2) as Ib.
  rewrite H in Ia. rewrite Ia in Ib. now inversion Ib.
Qed.

(** A value below ten is written with one character. *)
Lemma str_one_digit (n : Z) : 0 <= n < 10 -> String.length (str n) = 1%nat.
Proof.
  intros [Hlo Hhi]. destruct n as [|p|p]; [reflexivity | | lia].
  repeat (destruct p as [p|p|]; try reflexivity; try lia).
Qed.

Lemma offset_changes_residue (s k : Z) :
  0 < k < 100 -> (s + k) mod 100 <> s mod 100.
Proof.
  intros Hk Heq.
  pose proof (Z.div_mod (s + k) 100 ltac:(lia)) as E1.
  pose proof (Z.div_mod s 100 ltac:(lia)) as E2.
  pose proof (Z.mod_pos_bound s 100 ltac:(lia)).
  rewrite Heq in E1. lia.
Qed.

Lemma offsets_differ (s : Z) : (s + 7) mod 100 <> (s + 73) mod 100.
Proof.
  intro Heq.
  replace (s + 73) with ((s + 7) + 66) in Heq by lia.
  symmetry in Heq. revert Heq. apply offset_changes_residue. lia.
Qed.

(** The length announced by each body counts a checksum of two
    characters. *)
Example fluorescence_cmd_485_528 :
  fluorescence_cmd 485 528 =
  "00840101010812000120010000110010000013500010020020004850000528000000000000000000210011"
    ++ "19" ++ ETX_str
  /\ declared_length (fluorescence_cmd 485 528) = 84
  /\ actual_length (fluorescence_cmd 485 528) = 84.
Proof. repeat split. Qed.

Example shake_cmd_literal :
  shake_cmd LINEAR = "00330101010101000020000000139600301" ++ "89" ++ ETX_str
  /\ shake_cmd ORBITAL = "00330101010101000020000000139601301" ++ "90" ++ ETX_str
  /\ declared_length (shake_cmd LINEAR) = actual_length (shake_cmd LINEAR).
Proof. repeat split. Qed.

Example luminescence_cmd_length :
  declared_length (luminescence_cmd ++ ETX_str) = 84
  /\ actual_length (luminescence_cmd ++ ETX_str) = 84.
Proof. split; reflexivity. Qed.

(** Whenever the sum of the body leaves a residue below ten, the checksum
    of the absorbance command is a single character. *)
Lemma absorbance_checksum_one_character (wavelength : Z) :
  sum (encode (absorbance_body wavelength)) mod 100 < 10 ->
  String.length (absorbance_checksum wavelength) = 1%nat.
Proof.
  intros H. apply str_one_digit. split; [|exact H].
  apply Z.mod_pos_bound. lia.
Qed.

(** C1.  The checksum of the absorbance command is [sum(body) mod 100]
    written by [str], which does not pad: at wavelength 230 the body sums to
    2405 and the checksum on the wire is the single character ["5"], not
    ["05"], so that the command is one character shorter than the 47 its own
    header announces.  The same happens at wavelength 500. *)
Theorem absorbance_checksum_not_padded :
  sum (encode (absorbance_body 230)) = 2405
  /\ absorbance_checksum 230 = "5"
  /\ absorbance_checksum 230 <> "05"
  /\ absorbance_cmd 230 =
       "0047010101081200012001000011001000001060000802301" ++ "5" ++ ETX_str
  /\ declared_length (absorbance_cmd 230) = 47
  /\ actual_length (absorbance_cmd 230) = 46
  /\ absorbance_checksum 500 = "5"
  /\ (let w := snd (read_absorbance Q digits_float 100 230
                      (fresh_world (sample_incoming sample_grid))) in
      nth_error (tx (dev w)) 3 = Some (encode (absorbance_cmd 230))).
Proof.
  repeat split; try reflexivity. discriminate.
Qed.

(** The fluorescence command ends with the decimal text of
    [(sum(body) + 7) mod 100] and the shake command with that of
    [(sum(body) + 73) mod 100], each followed by ETX; neither checksum is the
    one without offset, nor the one with the other offset. *)
Lemma checksum_arithmetic (excitation emission : Z) (shake_type : ShakeType) :
  let fb := fluorescence_body excitation emission in
  let sb := shake_body shake_type in
  fluorescence_cmd excitation emission
    = fb ++ str ((sum (encode fb) + 7) mod 100) ++ ETX_str
  /\ shake_cmd shake_type
    = sb ++ str ((sum (encode sb) + 73) mod 100) ++ ETX_str
  /\ 0 <= (sum (encode fb) + 7) mod 100 < 100
  /\ 0 <= (sum (encode sb) + 73) mod 100 < 100
  /\ fluorescence_checksum excitation emission <> str (sum (encode fb) mod 100)
  /\ shake_checksum shake_type <> str (sum (encode sb) mod 100)
  /\ fluorescence_checksum excitation emission
       <> str ((sum (encode fb) + 73) mod 100)
  /\ shake_checksum shake_type <> str ((sum (encode sb) + 7) mod 100).
Proof.
  intros fb sb.
  split; [reflexivity|]. split; [reflexivity|].
  split; [apply Z.mod_pos_bound; lia|].
  split; [apply Z.mod_pos_bound; lia|].
  unfold fluorescence_checksum, shake_checksum. fold fb. fold sb.
  repeat split; intro H; apply str_inj in H.
  - revert H. apply offset_changes_residue. lia.
  - revert H. apply offset_changes_residue. lia.
  - revert H. apply offsets_differ.
  - symmetry in H. revert H. apply offsets_differ.
Qed.

(* ================================================================= *)
(** ** Properties of the coroutines *)

Lemma only_logged_refl (w : World) : only_logged w w.
Proof. unfold only_logged. now destruct w. Qed.

Lemma only_logged_with_log (w : World) (l : list log_record) :
  only_logged w (with_log l w).
Proof. reflexivity. Qed.

Lemma only_logged_fields (w w' : World) :
  only_logged w w' ->
  dev w' = dev w /\ sdk_calls w' = sdk_calls w /\ cam w' = cam w
  /\ cache w' = cache w /\ clock w' = clock w /\ tasks w' = tasks w.
Proof. unfold only_logged. intros ->. now repeat split. Qed.

Section BackendProperties.

Variable F : Type.
Variable float_decode : bytes -> option F.
Variable ImageProcessor_Convert : Z -> Z -> Image -> list (list F).
Variable python_int : arith -> result Z.

(** C8.  A wavelength below 230 or above 999 makes [read_absorbance] raise
    the [ValueError] of its bound check, and the world it leaves is the one
    it found: nothing was written to the device, nothing purged or read. *)
Theorem read_absorbance_rejects_wavelength
    (fuel : nat) (wavelength : Z) (w : World) :
  wavelength < 230 \/ 999 < wavelength ->
  read_absorbance F float_decode fuel wavelength w
  = (Raises (ValueError "Wavelength must be between 230 and 999"), w).
Proof.
  intros H. unfold read_absorbance.
  destruct (230 <=? wavelength)%Z eqn:Hlo;
    destruct (wavelength <=? 999)%Z eqn:Hhi; simpl; try reflexivity.
  apply Z.leb_le in Hlo. apply Z.leb_le in Hhi. lia.
Qed.

(** C10.  Without a camera, [set_exposure] returns normally when the value
    requested equals the cached one, and raises the not-initialized error
    when it differs; [set_gain] raises that error in both cases. *)
Theorem set_exposure_checks_cache_first
    (exposure gain : Setting) (w : World) :
  cam w = None ->
  (cached_eqb exposure (_exposure (cache w)) = true ->
     fst (set_exposure python_int exposure w) = Returns tt
     /\ only_logged w (snd (set_exposure python_int exposure w)))
  /\ (cached_eqb exposure (_exposure (cache w)) = false ->
     set_exposure python_int exposure w = (Raises camera_not_initialized, w))
  /\ set_gain gain w = (Raises camera_not_initialized, w).
Proof.
  intros Hcam. unfold set_exposure, set_gain, bind, get.
  rewrite Hcam. split; [|split].
  - intros H. rewrite H. split; [reflexivity|].
    apply only_logged_with_log.
  - intros H. rewrite H. cbv beta. now rewrite Hcam.
  - reflexivity.
Qed.

(** C5 as the code has it.  [shake] asks nothing about a session in
    progress: it sets the flag, creates one more task and stores its handle;
    the tasks created earlier stay as they are, so that each call adds one
    live task.  Nothing is exchanged with the device by the call itself. *)
Theorem shake_always_creates_a_task (shake_type : ShakeType) (w : World) :
  exists w',
    shake shake_type w = (Returns tt, w')
    /\ tasks w' = (tasks w ++ [{| task_shake_type := shake_type;
                                  task_status := Created |}])%list
    /\ live_tasks w' = S (live_tasks w)
    /\ _shaking w' = true
    /\ _shaking_task w' = Some (List.length (tasks w))
    /\ dev w' = dev w.
Proof.
  eexists. split; [reflexivity|]. simpl.
  repeat split.
  unfold live_tasks. simpl. rewrite filter_app, length_app. simpl. lia.
Qed.

Lemma set_exposure_returns_caches (v : Setting) (w w1 : World) :
  set_exposure python_int v w = (Returns tt, w1) ->
  cached_eqb v (_exposure (cache w1)) = true
  /\ (cached_eqb v (_exposure (cache w)) = false ->
      (List.length (sdk_calls w) < List.length (sdk_calls w1))%nat).
Proof.
  unfold set_exposure, bind, get. intros H.
  destruct (cached_eqb v (_exposure (cache w))) eqn:Hc.
  - inversion H; subst. simpl. split; [exact Hc | discriminate].
  - cbv beta in H. destruct (cam w) as [camera|] eqn:Hcam; [|discriminate].
    destruct v as [q|s].
    + simpl in H.
      destruct (negb (is_RW (ExposureTime_access camera))); [discriminate|].
      destruct (python_int (Times (Number q) (Number 1000))) as [us|e];
        [|discriminate].
      simpl in H.
      destruct (Qlt_bool _ _); [discriminate|].
      destruct (Qlt_bool _ _); [discriminate|].
      simpl in H. inversion H; subst; clear H. simpl. split.
      * apply Qeq_bool_refl.
      * intros _. rewrite !length_app. simpl. lia.
    + destruct (String.eqb s "auto") eqn:Hs; [|discriminate].
      unfold set_auto_exposure, bind, get in H. rewrite Hcam in H.
      destruct (negb (is_RW (ExposureAuto_access camera))); [discriminate|].
      simpl in H. inversion H; subst; clear H. simpl. split.
      * exact Hs.
      * intros _. rewrite !length_app. simpl. lia.
Qed.

Lemma cached_call_outcome (fuel : nat) (c : setter_call) (w : World) :
  requested_is_cached c (cache w) = true ->
  only_logged w (snd (call_setter python_int fuel c w))
  /\ (fst (call_setter python_int fuel c w) = Returns tt
      \/ (checks_camera_first c = true /\ cam w = None
          /\ fst (call_setter python_int fuel c w) = Raises camera_not_initialized)).
Proof.
  intros H.
  destruct c as [v|v|v|m|row column]; simpl in H; simpl call_setter.
  - unfold set_exposure, bind, get. rewrite H.
    split; [apply only_logged_with_log | now left].
  - unfold set_focus, bind, get. rewrite H.
    split; [apply only_logged_with_log | now left].
  - unfold set_gain, bind, get.
    destruct (cam w) as [camera|] eqn:Hcam.
    + rewrite H. split; [apply only_logged_with_log | now left].
    + split; [apply only_logged_refl | right; now repeat split].
  - unfold set_imaging_mode, bind, get.
    destruct (cam w) as [camera|] eqn:Hcam.
    + rewrite H. split; [apply only_logged_with_log | now left].
    + split; [apply only_logged_refl | right; now repeat split].
  - unfold select, bind, get. rewrite H.
    split; [apply only_logged_with_log | now left].
Qed.

(** C7.  When the value requested equals the cached one, each of the five
    setters leaves the serial device, the camera, the calls into the SDK and
    the cache as they were: it returns at once (or, for the two setters that
    look for the camera first, raises the not-initialized error when there is
    none).  Hence, after a call of [set_exposure] that returned, a second
    call with the same value returns and exchanges nothing; and the first
    call did reach the camera when the value was not cached before it. *)
Theorem setter_with_cached_value_is_silent (fuel : nat) (w : World) :
  (forall c : setter_call,
     requested_is_cached c (cache w) = true ->
     only_logged w (snd (call_setter python_int fuel c w))
     /\ (fst (call_setter python_int fuel c w) = Returns tt
         \/ (checks_camera_first c = true /\ cam w = None
             /\ fst (call_setter python_int fuel c w) = Raises camera_not_initialized)))
  /\ (forall (exposure : Setting) (w1 : World),
        set_exposure python_int exposure w = (Returns tt, w1) ->
        fst (set_exposure python_int exposure w1) = Returns tt
        /\ only_logged w1 (snd (set_exposure python_int exposure w1))
        /\ (cached_eqb exposure (_exposure (cache w)) = false ->
            (List.length (sdk_calls w) < List.length (sdk_calls w1))%nat)).
Proof.
  split.
  - intros c H. now apply cached_call_outcome.
  - intros exposure w1 H.
    destruct (set_exposure_returns_caches exposure w w1 H) as [Hc Hgrow].
    destruct (cached_call_outcome fuel (SetExposure exposure) w1 Hc)
      as [Hlog [Hret | [Hfirst _]]].
    + now repeat split.
    + discriminate.
Qed.

Lemma fetches_app (l1 l2 : list sdk_call) :
  fetches (l1 ++ l2) = (fetches l1 + fetches l2)%nat.
Proof.
  induction l1 as [|c l1 IH]; simpl; [reflexivity|].
  destruct c; simpl; rewrite IH; reflexivity.
Qed.

(** A run of attempts that do not deliver: the loop goes through each of
    them with one trigger and one fetch, and goes on. *)
Lemma acquire_loop_retries (alg pf : Z) (pre : list attempt) :
  forall (n : nat) (w : World) (c : Camera) (rest : list attempt),
    cam w = Some c ->
    attempts c = (pre ++ rest)%list ->
    forallb retryable pre = true ->
    exists w',
      acquire_loop F ImageProcessor_Convert (List.length pre + n) alg pf w
      = acquire_loop F ImageProcessor_Convert n alg pf w'
      /\ cam w' = Some (with_attempts rest c)
      /\ fetches (sdk_calls w')
         = (fetches (sdk_calls w) + List.length pre)%nat
      /\ dev w' = dev w.
Proof.
  induction pre as [|a pre IH]; intros n w c rest Hcam Hatt Hall.
  - exists w. simpl in *. repeat split; try lia.
    rewrite Hcam. f_equal. destruct c; simpl in *. now subst.
  - simpl in Hall. apply andb_prop in Hall as [Ha Hall].
    simpl List.length. simpl Nat.add.
    assert (Hstep : exists w1,
      acquire_loop F ImageProcessor_Convert (S (List.length pre + n)) alg pf w
      = acquire_loop F ImageProcessor_Convert (List.length pre + n) alg pf w1
      /\ cam w1 = Some (with_attempts (pre ++ rest) c)
      /\ fetches (sdk_calls w1) = S (fetches (sdk_calls w))
      /\ dev w1 = dev w).
    { simpl acquire_loop. unfold bind at 1. unfold next_attempt.
      rewrite Hcam, Hatt. simpl.
      destruct a; try discriminate.
      - eexists. split; [reflexivity|]. simpl.
        repeat split. rewrite !fetches_app. simpl. lia.
      - eexists. split; [reflexivity|]. simpl.
        repeat split. rewrite !fetches_app. simpl. lia. }
    destruct Hstep as (w1 & E1 & Hc1 & Hf1 & Hd1).
    destruct (IH n w1 (with_attempts (pre ++ rest) c) rest Hc1 eq_refl Hall)
      as (w' & E & Hc' & Hf' & Hd').
    exists w'. rewrite E1, E. repeat split.
    + exact Hc'.
    + lia.
    + congruence.
Qed.

(** Once the camera has nothing in store every fetch fails, and the loop
    ends with the timeout after as many fetches as attempts were left. *)
Lemma acquire_loop_exhausted (alg pf : Z) :
  forall (n : nat) (w : World) (c : Camera),
    cam w = Some c ->
    attempts c = [] ->
    exists w',
      acquire_loop F ImageProcessor_Convert n alg pf w
      = (Raises (TimeoutError "max_image_read_attempts reached"), w')
      /\ fetches (sdk_calls w') = (fetches (sdk_calls w) + n)%nat.
Proof.
  induction n as [|n IH]; intros w c Hcam Hatt.
  - exists w. simpl. split; [reflexivity | lia].
  - simpl acquire_loop. unfold bind at 1. unfold next_attempt.
    rewrite Hcam, Hatt.
    unfold bind, sdk, logger_debug, asyncio_sleep, modify. cbv beta iota.
    match goal with
    | |- context [acquire_loop F ImageProcessor_Convert n alg pf ?w1] =>
        destruct (IH w1 c Hcam Hatt) as (w' & E & Hf)
    end.
    exists w'. split; [exact E|].
    rewrite Hf. simpl. rewrite !fetches_app. simpl. lia.
Qed.

Lemma acquire_image_unfold (alg pf : Z) (w : World) (c : Camera) :
  cam w = Some c ->
  _acquire_image F ImageProcessor_Convert alg pf w
  = let r := acquire_loop F ImageProcessor_Convert (Z.to_nat (max_image_read_attempts w))
               alg pf (with_sdk_calls (sdk_calls w ++ [BeginAcquisition]) w) in
    (fst r, with_sdk_calls (sdk_calls (snd r) ++ [EndAcquisition]) (snd r)).
Proof.
  intros Hcam. unfold _acquire_image, bind, get. rewrite Hcam. simpl.
  unfold finally, bind, get. simpl.
  destruct (acquire_loop F ImageProcessor_Convert _ alg pf _) as [r w1]. reflexivity.
Qed.

Lemma acquire_loop_dev (alg pf : Z) :
  forall (n : nat) (w : World),
    dev (snd (acquire_loop F ImageProcessor_Convert n alg pf w)) = dev w.
Proof.
  induction n as [|n IH]; intros w; [reflexivity|].
  simpl acquire_loop. unfold bind at 1. unfold next_attempt.
  destruct (cam w) as [c|]; [destruct (attempts c) as [|a rest]|];
    try destruct a;
    unfold bind, sdk, logger_debug, asyncio_sleep, modify, raise, ret;
    cbv beta iota; try rewrite IH; reflexivity.
Qed.

Lemma acquire_loop_bound (alg pf : Z) :
  forall (n : nat) (w : World),
    (fetches (sdk_calls (snd (acquire_loop F ImageProcessor_Convert n alg pf w)))
     <= fetches (sdk_calls w) + n)%nat.
Proof.
  induction n as [|n IH]; intros w; [simpl; lia|].
  simpl acquire_loop. unfold bind at 1. unfold next_attempt.
  destruct (cam w) as [c|]; [destruct (attempts c) as [|a rest]|];
    try destruct a;
    unfold bind, sdk, logger_debug, asyncio_sleep, modify, raise, ret;
    cbv beta iota;
    try (match goal with
         | |- context [acquire_loop F ImageProcessor_Convert n alg pf ?w1] =>
             pose proof (IH w1) as B; simpl in B;
             rewrite ?fetches_app in B; simpl in B
         end);
    simpl; rewrite ?fetches_app; simpl; lia.
Qed.

Lemma acquire_loop_delivers (alg pf : Z) (n : nat) (w : World) (c : Camera)
    (img : Image) (rest : list attempt) :
  cam w = Some c ->
  attempts c = Complete img :: rest ->
  exists w',
    acquire_loop F ImageProcessor_Convert (S n) alg pf w = (Returns (ImageProcessor_Convert alg pf img), w')
    /\ fetches (sdk_calls w') = S (fetches (sdk_calls w)).
Proof.
  intros Hcam Hatt. simpl acquire_loop. unfold bind at 1. unfold next_attempt.
  rewrite Hcam, Hatt. eexists. split; [reflexivity|].
  simpl. rewrite !fetches_app. simpl. lia.
Qed.

Lemma acquire_loop_not_writable (alg pf : Z) (n : nat) (w : World)
    (c : Camera) (rest : list attempt) :
  cam w = Some c ->
  attempts c = TriggerNotWritable :: rest ->
  exists w',
    acquire_loop F ImageProcessor_Convert (S n) alg pf w
    = (Raises (RuntimeError "unable to execute software trigger"), w')
    /\ fetches (sdk_calls w') = fetches (sdk_calls w).
Proof.
  intros Hcam Hatt. simpl acquire_loop. unfold bind at 1. unfold next_attempt.
  rewrite Hcam, Hatt. eexists. split; reflexivity.
Qed.

(** C9 as the code has it.  With the default bound of 8 attempts and a
    camera present: when the attempts before the [k]-th neither deliver nor
    find the trigger unwritable and the [k]-th, [k <= 8], delivers a complete
    image, that image converted is returned after exactly [k] fetches; when
    none of the first 8 attempts delivers, [TimeoutError] is raised after
    exactly 8 fetches; when the trigger is not writable at the [k]-th
    attempt, [RuntimeError] is raised there, after [k - 1] fetches.  There
    are never more than 8 fetches, the acquisition is always ended, and the
    serial device is not touched. *)
Theorem acquire_image_attempts
    (alg pf : Z) (w : World) (c : Camera) (pre rest : list attempt) :
  cam w = Some c ->
  max_image_read_attempts w = 8 ->
  attempts c = (pre ++ rest)%list ->
  forallb retryable pre = true ->
  let r := _acquire_image F ImageProcessor_Convert alg pf w in
  let fetched := (fetches (sdk_calls (snd r)) - fetches (sdk_calls w))%nat in
  (forall img rest',
      rest = Complete img :: rest' -> (List.length pre < 8)%nat ->
      fst r = Returns (ImageProcessor_Convert alg pf img)
      /\ fetched = S (List.length pre))
  /\ (rest = [] \/ (8 <= List.length pre)%nat ->
      fst r = Raises (TimeoutError "max_image_read_attempts reached")
      /\ fetched = 8%nat)
  /\ (forall rest',
      rest = TriggerNotWritable :: rest' -> (List.length pre < 8)%nat ->
      fst r = Raises (RuntimeError "unable to execute software trigger")
      /\ fetched = List.length pre)
  /\ (fetched <= 8)%nat
  /\ last (sdk_calls (snd r)) BeginAcquisition = EndAcquisition
  /\ dev (snd r) = dev w.
Proof.
  intros Hcam Hmax Hatt Hall r fetched. subst r fetched.
  rewrite (acquire_image_unfold alg pf w c Hcam), Hmax.
  change (Z.to_nat 8) with 8%nat.
  set (w0 := with_sdk_calls (sdk_calls w ++ [BeginAcquisition]) w).
  assert (Hcam0 : cam w0 = Some c) by exact Hcam.
  assert (Hf0 : fetches (sdk_calls w0) = fetches (sdk_calls w)).
  { unfold w0. simpl. rewrite fetches_app. simpl. lia. }
  assert (Hd0 : dev w0 = dev w) by reflexivity.
  remember 8%nat as N eqn:HN.
  pose proof (acquire_loop_dev alg pf N w0) as Hdev.
  pose proof (acquire_loop_bound alg pf N w0) as Hbound.
  destruct (acquire_loop F ImageProcessor_Convert N alg pf w0) as [o w3] eqn:Hloop.
  cbv zeta. simpl fst in *. simpl snd in *. simpl sdk_calls.
  rewrite fetches_app, last_last. simpl fetches. rewrite Nat.add_0_r.
  split; [|split; [|split; [|split; [|split]]]].
  - (* an attempt delivers *)
    intros img rest' Hrest Hlen.
    replace N with (List.length pre + S (7 - List.length pre))%nat in Hloop
      by lia.
    destruct (acquire_loop_retries alg pf pre (S (7 - List.length pre)) w0 c
                rest Hcam0 Hatt Hall) as (w1 & E1 & Hc1 & Hf1 & _).
    subst rest.
    destruct (acquire_loop_delivers alg pf (7 - List.length pre) w1 _ img rest'
                Hc1 eq_refl) as (w2 & E2 & Hf2).
    rewrite E1, E2 in Hloop. inversion Hloop; subst o w3.
    split; [reflexivity | lia].
  - (* no attempt delivers *)
    intros [Hrest | Hlen].
    + destruct (Nat.le_gt_cases N (List.length pre)) as [Hge | Hlt].
      * rewrite <- (firstn_skipn N pre), <- app_assoc in Hatt.
        assert (Hall' : forallb retryable (firstn N pre) = true).
        { rewrite <- (firstn_skipn N pre), forallb_app in Hall.
          now apply andb_prop in Hall. }
        destruct (acquire_loop_retries alg pf (firstn N pre) 0 w0 c _
                    Hcam0 Hatt Hall') as (w1 & E1 & Hc1 & Hf1 & _).
        rewrite length_firstn, Nat.min_l in E1, Hf1 by lia.
        rewrite Nat.add_0_r in E1.
        rewrite E1 in Hloop. simpl in Hloop.
        inversion Hloop; subst o w3. split; [reflexivity | lia].
      * replace N with (List.length pre + (N - List.length pre))%nat in Hloop
          by lia.
        destruct (acquire_loop_retries alg pf pre (N - List.length pre) w0 c
                    rest Hcam0 Hatt Hall) as (w1 & E1 & Hc1 & Hf1 & _).
        subst rest.
        destruct (acquire_loop_exhausted alg pf (N - List.length pre) w1 _
                    Hc1 eq_refl) as (w2 & E2 & Hf2).
        rewrite E1, E2 in Hloop. inversion Hloop; subst o w3.
        split; [reflexivity | lia].
    + rewrite <- (firstn_skipn N pre), <- app_assoc in Hatt.
      assert (Hall' : forallb retryable (firstn N pre) = true).
      { rewrite <- (firstn_skipn N pre), forallb_app in Hall.
        now apply andb_prop in Hall. }
      destruct (acquire_loop_retries alg pf (firstn N pre) 0 w0 c _
                  Hcam0 Hatt Hall') as (w1 & E1 & Hc1 & Hf1 & _).
      rewrite length_firstn, Nat.min_l in E1, Hf1 by lia.
        rewrite Nat.add_0_r in E1.
      rewrite E1 in Hloop. simpl in Hloop.
      inversion Hloop; subst o w3. split; [reflexivity | lia].
  - (* the trigger is not writable *)
    intros rest' Hrest Hlen.
    replace N with (List.length pre + S (7 - List.length pre))%nat in Hloop
      by lia.
    destruct (acquire_loop_retries alg pf pre (S (7 - List.length pre)) w0 c
                rest Hcam0 Hatt Hall) as (w1 & E1 & Hc1 & Hf1 & _).
    subst rest.
    destruct (acquire_loop_not_writable alg pf (7 - List.length pre) w1 _ rest'
                Hc1 eq_refl) as (w2 & E2 & Hf2).
    rewrite E1, E2 in Hloop. inversion Hloop; subst o w3.
    split; [reflexivity | lia].
  - lia.
  - reflexivity.
  - simpl in Hdev. simpl. now rewrite Hdev.
Qed.

(** One iteration of the loop of [_read_until]. *)
Lemma read_until_loop_step (fuel : nat) (char : bytes) (limit t0 : Z)
    (res : bytes) (w : World) :
  read_until_loop (S fuel) char limit t0 res w
  = let x := next_read (dev w) in
    let res' := (res ++ x)%list in
    let w1 := with_clock (clock w + read_latency w)
                (with_dev (after_read (dev w)) w) in
    if clock w + read_latency w - t0 >? limit
    then (Raises (TimeoutError "Timeout while waiting for response"),
          with_log (log w ++ [Log DEBUG "[cytation5] received incomplete %s"
                                [ABytes res']]) w1)
    else
      let w2 := if bytes_eqb x [] then with_clock (clock w1 + 10) w1 else w1 in
      if bytes_eqb x char
      then (Returns res',
            with_log (log w2 ++ [Log DEBUG "[cytation5] received %s"
                                   [ABytes res']]) w2)
      else read_until_loop fuel char limit t0 res' w2.
Proof.
  simpl read_until_loop.
  unfold bind, dev_read1, time_time, get. cbv beta iota zeta.
  cbn [clock with_clock].
  destruct (clock w + read_latency w - t0 >? limit); [reflexivity|].
  unfold ret, when. 
  destruct (bytes_eqb (next_read (dev w)) []);
    destruct (bytes_eqb (next_read (dev w)) char); reflexivity.
Qed.

Lemma next_read_is_not (term : byte) (d : Device) :
  rx_script d (rx_count d) <> Some term ->
  bytes_eqb (next_read d) [term] = false.
Proof.
  intros H. unfold next_read.
  destruct (rx_script d (rx_count d)) as [b|]; [|reflexivity].
  simpl. destruct (Byte.eqb b term) eqn:E; [|reflexivity].
  apply Byte.byte_dec_bl in E. now subst.
Qed.

(** The loop of [_read_until] on a channel that never delivers the
    terminator: once the clock has passed the limit the loop raises, with
    the bytes read so far in the log record only. *)
Lemma read_until_loop_times_out (term : byte) (limit t0 : Z) :
  forall (n : nat) (w : World) (res : bytes),
    0 < read_latency w ->
    (forall k, rx_script (dev w) k <> Some term) ->
    limit - (clock w - t0) < Z.of_nat n * read_latency w ->
    exists (reads : nat) (w' : World),
      (forall fuel, (n < fuel)%nat ->
         read_until_loop fuel [term] limit t0 res w
         = (Raises (TimeoutError "Timeout while waiting for response"), w'))
      /\ log w'
         = (log w
            ++ [Log DEBUG "[cytation5] received incomplete %s"
                  [ABytes (res ++ script_bytes (rx_script (dev w))
                                   (rx_count (dev w)) reads)]])%list
      /\ limit < clock w' - t0
      /\ tx (dev w') = tx (dev w)
      /\ rx_count (dev w') = (rx_count (dev w) + reads)%nat.
Proof.
  induction n as [|n IH]; intros w res Hlat Hnever Hm;
    destruct (clock w + read_latency w - t0 >? limit) eqn:Hgt.
  1, 3:
    exists 1%nat; eexists; split; [|split; [|split; [|split]]];
    [ intros fuel Hfuel; destruct fuel as [|fuel]; [lia|];
      rewrite read_until_loop_step; cbv zeta; rewrite Hgt; reflexivity
    | simpl; rewrite app_nil_r; reflexivity
    | simpl; rewrite Z.gtb_ltb in Hgt; apply Z.ltb_lt in Hgt; lia
    | reflexivity
    | simpl; lia ].
  - exfalso. rewrite Z.gtb_ltb in Hgt. apply Z.ltb_ge in Hgt. lia.
  - rewrite Z.gtb_ltb in Hgt. pose proof Hgt as Hle. apply Z.ltb_ge in Hle.
    rewrite <- Z.gtb_ltb in Hgt.
    set (w1 := with_clock (clock w + read_latency w)
                 (with_dev (after_read (dev w)) w)).
    set (w2 := if bytes_eqb (next_read (dev w)) []
               then with_clock (clock w1 + 10) w1 else w1).
    assert (Hw2 : read_latency w2 = read_latency w
                  /\ rx_script (dev w2) = rx_script (dev w)
                  /\ rx_count (dev w2) = S (rx_count (dev w))
                  /\ tx (dev w2) = tx (dev w)
                  /\ log w2 = log w
                  /\ clock w + read_latency w <= clock w2).
    { unfold w2, w1. destruct (bytes_eqb (next_read (dev w)) []); simpl;
        repeat split; lia. }
    destruct Hw2 as (Hl2 & Hs2 & Hc2 & Ht2 & Hg2 & Hk2).
    destruct (IH w2 (res ++ next_read (dev w))%list) as (reads & w' & Hrun & Hlog & Hclk & Htx & Hcnt).
    { rewrite Hl2. exact Hlat. }
    { rewrite Hs2. exact Hnever. }
    { rewrite Hl2. lia. }
    exists (S reads), w'. split; [|split; [|split; [|split]]].
    + intros fuel Hfuel. destruct fuel as [|fuel]; [lia|].
      rewrite read_until_loop_step. cbv zeta. rewrite Hgt.
      rewrite (next_read_is_not term (dev w) (Hnever _)).
      fold w1. fold w2. apply Hrun. lia.
    + rewrite Hlog, Hg2, Hs2, Hc2. simpl script_bytes.
      unfold next_read. now rewrite <- app_assoc.
    + exact Hclk.
    + congruence.
    + rewrite Hcnt, Hc2. lia.
Qed.

(** C4 as the code has it.  On a channel that never delivers the
    terminator, with reads that take time, [_read_until] raises
    [TimeoutError] once the time elapsed exceeds the limit.  The exception
    holds the fixed message and nothing else; the bytes accumulated so far
    are put in a DEBUG log record.  Nothing is written to the device. *)
Theorem read_until_times_out
    (term : byte) (time_limit : option Z) (w : World) :
  0 < read_latency w ->
  (forall k, rx_script (dev w) k <> Some term) ->
  let limit := match time_limit with Some t => t | None => timeout w end in
  exists (fuel0 reads : nat) (w' : World),
    (forall fuel, (fuel0 <= fuel)%nat ->
       _read_until fuel [term] time_limit w
       = (Raises (TimeoutError "Timeout while waiting for response"), w'))
    /\ log w'
       = (log w
          ++ [Log DEBUG "[cytation5] received incomplete %s"
                [ABytes (script_bytes (rx_script (dev w))
                           (rx_count (dev w)) reads)]])%list
    /\ limit < clock w' - clock w
    /\ tx (dev w') = tx (dev w)
    /\ rx_count (dev w') = (rx_count (dev w) + reads)%nat.
Proof.
  intros Hlat Hnever limit.
  set (n := Z.to_nat (Z.max 0 (limit + 1))).
  destruct (read_until_loop_times_out term limit (clock w) n w [] Hlat Hnever)
    as (reads & w' & Hrun & Hlog & Hclk & Htx & Hcnt).
  { unfold n. rewrite Z2Nat.id by lia. nia. }
  exists (S n), reads, w'. split.
  - intros fuel Hfuel. unfold _read_until, bind, get, time_time.
    cbv beta iota zeta. fold limit. apply Hrun. lia.
  - repeat split; assumption.
Qed.

End BackendProperties.

(* ================================================================= *)
(** ** Properties of the response parser *)

Local Open Scope list_scope.

Lemma starts_with_app (sub t : bytes) : starts_with sub (sub ++ t) = true.
Proof.
  induction sub as [|a sub IH]; simpl; [reflexivity|].
  now rewrite (Byte.byte_dec_lb (eq_refl a)), IH.
Qed.

Lemma split_from_skip (sep l t : bytes) :
  split_from sep (List.length l) (l ++ t) = split_from sep 0 t.
Proof. induction l as [|x l IH]; simpl; [reflexivity | exact IH]. Qed.

Lemma split_from_segment (c : byte) (sep' s t : bytes) :
  free_of c s = true ->
  split_from (c :: sep') 0 (s ++ c :: sep' ++ t)
  = s :: split_from (c :: sep') 0 t.
Proof.
  intros H. induction s as [|x s IH].
  - cbn [app split_from].
    change (c :: sep' ++ t) with ((c :: sep') ++ t).
    rewrite starts_with_app. simpl Nat.pred.
    now rewrite split_from_skip.
  - simpl in H. apply andb_prop in H as [Hx Hs].
    cbn [app split_from starts_with].
    apply negb_true_iff in Hx. rewrite Hx. simpl andb.
    rewrite (IH Hs). reflexivity.
Qed.

Lemma split_from_last (c : byte) (sep' s : bytes) :
  free_of c s = true ->
  split_from (c :: sep') 0 s = [s].
Proof.
  intros H. induction s as [|x s IH]; [reflexivity|].
  simpl in H. apply andb_prop in H as [Hx Hs].
  cbn [split_from starts_with]. apply negb_true_iff in Hx. rewrite Hx.
  simpl andb. rewrite (IH Hs). reflexivity.
Qed.

(** Splitting undoes joining when no part contains the first byte of the
    separator. *)
Lemma split_join (c : byte) (sep' : bytes) (parts : list bytes) :
  parts <> [] ->
  forallb (free_of c) parts = true ->
  split (c :: sep') (join (c :: sep') parts) = parts.
Proof.
  unfold split. induction parts as [|p parts IH]; intros Hne Hfree.
  - contradiction.
  - simpl in Hfree. apply andb_prop in Hfree as [Hp Hrest].
    destruct parts as [|q parts].
    + simpl. now apply split_from_last.
    + change (join (c :: sep') (p :: q :: parts))
        with (p ++ c :: sep' ++ join (c :: sep') (q :: parts)).
      rewrite split_from_segment by exact Hp.
      rewrite IH; [reflexivity | discriminate | exact Hrest].
Qed.

Lemma group3_fields (groups : list Group) :
  group3 (flat_map group_fields groups) = map group_fields groups.
Proof.
  induction groups as [|g groups IH]; [reflexivity|].
  simpl. now rewrite IH.
Qed.

Lemma rmap_map {A B C : Type} (f : B -> result C) (g : A -> B) (l : list A) :
  rmap f (map g l) = rmap (fun a => f (g a)) l.
Proof.
  induction l as [|a l IH]; simpl; [reflexivity | now rewrite IH].
Qed.

Lemma rmap_ext_in {A B : Type} (f g : A -> result B) (l : list A) :
  (forall a, In a l -> f a = g a) -> rmap f l = rmap g l.
Proof.
  induction l as [|a l IH]; intros H; simpl; [reflexivity|].
  rewrite (H a (or_introl eq_refl)), IH; [reflexivity|].
  intros b Hb. apply H. now right.
Qed.

Lemma rmap_Forall2 {A B : Type} (f : A -> result B) (l : list A)
    (m : list B) :
  Forall2 (fun a b => f a = Ok b) l m -> rmap f l = Ok m.
Proof.
  induction 1 as [|a b l m Hab _ IH]; simpl; [reflexivity|].
  now rewrite Hab, IH.
Qed.

Lemma free_of_app (c : byte) (s t : bytes) :
  free_of c (s ++ t) = (free_of c s && free_of c t)%bool.
Proof. apply forallb_app. Qed.

Lemma free_of_join (c : byte) (sep : bytes) (parts : list bytes) :
  free_of c sep = true ->
  forallb (free_of c) parts = true ->
  free_of c (join sep parts) = true.
Proof.
  intros Hsep. induction parts as [|p parts IH]; intros H; [reflexivity|].
  simpl in H. apply andb_prop in H as [Hp Hrest].
  destruct parts as [|q parts]; [exact Hp|].
  change (join sep (p :: q :: parts)) with (p ++ sep ++ join sep (q :: parts)).
  rewrite !free_of_app, Hp, Hsep, (IH Hrest). reflexivity.
Qed.

Lemma clean_group_fields (c : byte) (g : Group) :
  c = x2c \/ c = x0d ->
  clean_group g = true ->
  forallb (free_of c) (group_fields g) = true.
Proof.
  unfold clean_group, clean_field. intros Hc H.
  repeat (apply andb_prop in H as [H ?]).
  repeat match goal with
         | X : (_ && _)%bool = true |- _ => apply andb_prop in X as [? ?]
         end.
  simpl. destruct Hc as [-> | ->];
    repeat (apply andb_true_intro; split); trivial.
Qed.

Lemma clean_row_fields (c : byte) (groups : list Group) :
  c = x2c \/ c = x0d ->
  forallb clean_group groups = true ->
  forallb (free_of c) (flat_map group_fields groups) = true.
Proof.
  intros Hc. induction groups as [|g groups IH]; intros H; [reflexivity|].
  simpl in H. apply andb_prop in H as [Hg Hrest].
  change (flat_map group_fields (g :: groups))
    with (group_fields g ++ flat_map group_fields groups).
  rewrite forallb_app, (clean_group_fields c g Hc Hg), (IH Hrest).
  reflexivity.
Qed.

Section ParserProperties.

Variable F : Type.
Variable float_decode : bytes -> option F.

(** The parser on a row segment made of clean groups. *)
Lemma parse_row_rendered (groups : list Group) :
  clean_row groups = true ->
  parse_row F float_decode (render_row groups)
  = rmap (fun g => parse_group F float_decode (group_fields g)) groups.
Proof.
  unfold clean_row. intros H. apply andb_prop in H as [Hne Hclean].
  unfold parse_row, render_row.
  change (encode ",") with [x2c].
  rewrite split_join.
  - now rewrite group3_fields, rmap_map.
  - destruct groups; [discriminate | discriminate].
  - apply clean_row_fields; [now left | exact Hclean].
Qed.

Lemma render_row_free_of_cr (groups : list Group) :
  clean_row groups = true -> free_of x0d (render_row groups) = true.
Proof.
  unfold clean_row. intros H. apply andb_prop in H as [_ Hclean].
  apply free_of_join; [reflexivity|].
  apply clean_row_fields; [now right | exact Hclean].
Qed.

Lemma slice_middle (header data rest : bytes) :
  slice (List.length header) (List.length header + List.length data)
    (header ++ data ++ rest) = data.
Proof.
  unfold slice. rewrite firstn_app_2.
  rewrite <- (Nat.add_0_r (List.length data)), firstn_app_2.
  simpl firstn. rewrite app_nil_r, skipn_app, skipn_all, Nat.sub_diag.
  reflexivity.
Qed.

Lemma forallb_prefix (ok : list Group -> bool) (rows : list (list Group)) :
  forall k, forallb ok rows = true -> forallb ok (firstn k rows) = true.
Proof.
  induction rows as [|r rows IH]; intros [|k] H; simpl; trivial.
  simpl in H. apply andb_prop in H as [Hr Hrows]. now rewrite Hr, IH.
Qed.

(** The parser on a body whose rows are clean, when the marker is first
    found where the rows begin and the last CR LF is the one that ends
    them: the values of the first eight rows, converted, in order. *)
Lemma parse_body_rendered (header trailer : bytes) (rows : list (list Group)) :
  rows <> [] ->
  forallb clean_row rows = true ->
  find (encode "01,01") (render_body header rows trailer)
    = Some (List.length header) ->
  rfind CRLF (render_body header rows trailer)
    = Some (List.length header + List.length (render_rows rows))%nat ->
  _parse_body F float_decode (render_body header rows trailer)
  = rmap (rmap (fun g => parse_group F float_decode (group_fields g)))
      (firstn 8 rows).
Proof.
  intros Hne Hclean Hstart Hend.
  unfold _parse_body, index, rindex. fold CRLF.
  rewrite Hstart, Hend. cbn [rbind].
  unfold render_body at 1. rewrite slice_middle.
  unfold render_rows. rewrite split_join.
  - rewrite firstn_map, rmap_map.
    apply rmap_ext_in. intros groups Hin.
    apply parse_row_rendered.
    pose proof (forallb_prefix clean_row rows 8 Hclean) as H8.
    rewrite forallb_forall in H8. now apply H8.
  - destruct rows; [contradiction | discriminate].
  - rewrite forallb_forall. intros row Hin.
    apply in_map_iff in Hin as (groups & <- & Hin).
    apply render_row_free_of_cr.
    rewrite forallb_forall in Hclean. now apply Hclean.
Qed.


Lemma parse_groups_converted (groups : list Group) (xs : list F) :
  Forall2 (converted F float_decode) groups xs ->
  rmap (fun g => parse_group F float_decode (group_fields g)) groups = Ok xs.
Proof.
  intros H. apply rmap_Forall2.
  revert H. apply Forall2_impl. intros g x Hgx.
  unfold converted in Hgx. simpl. now rewrite Hgx.
Qed.

(** At most eight clean rows: the parser returns one row of converted
    values for each of them, however few they are. *)
Lemma parse_body_values (header trailer : bytes) (rows : list (list Group))
    (m : list (list F)) :
  rows <> [] ->
  (List.length rows <= 8)%nat ->
  forallb clean_row rows = true ->
  find (encode "01,01") (render_body header rows trailer)
    = Some (List.length header) ->
  rfind CRLF (render_body header rows trailer)
    = Some (List.length header + List.length (render_rows rows))%nat ->
  Forall2 (Forall2 (converted F float_decode)) rows m ->
  _parse_body F float_decode (render_body header rows trailer) = Ok m
  /\ List.length m = List.length rows.
Proof.
  intros Hne Hlen Hclean Hstart Hend Hm.
  rewrite parse_body_rendered by assumption.
  rewrite firstn_all2 by exact Hlen.
  split.
  - apply rmap_Forall2.
    revert Hm. apply Forall2_impl. exact parse_groups_converted.
  - symmetry. exact (Forall2_length Hm).
Qed.

(** C6.  A body in which the marker is first found where the rows begin,
    with exactly eight row segments of clean three-field groups ended by the
    last CR LF: the parser returns the matrix of eight rows whose entries are
    the third fields of the groups converted to float, in order; the index
    fields play no part. *)
Theorem parse_body_eight_rows
    (header trailer : bytes) (rows : list (list Group)) (m : list (list F)) :
  List.length rows = 8%nat ->
  forallb clean_row rows = true ->
  find (encode "01,01") (render_body header rows trailer)
    = Some (List.length header) ->
  rfind CRLF (render_body header rows trailer)
    = Some (List.length header + List.length (render_rows rows))%nat ->
  Forall2 (Forall2 (converted F float_decode)) rows m ->
  _parse_body F float_decode (render_body header rows trailer) = Ok m
  /\ List.length m = 8%nat.
Proof.
  intros Hlen Hclean Hstart Hend Hm.
  destruct (parse_body_values header trailer rows m) as [Hok Hl];
    try assumption.
  - intros ->. discriminate.
  - lia.
  - split; [exact Hok | congruence].
Qed.

(** C3 as the code has it.  A body of the same shape with only seven row
    segments is not refused: the parser returns the matrix of these seven
    rows. *)
Theorem parse_body_seven_rows
    (header trailer : bytes) (rows : list (list Group)) (m : list (list F)) :
  List.length rows = 7%nat ->
  forallb clean_row rows = true ->
  find (encode "01,01") (render_body header rows trailer)
    = Some (List.length header) ->
  rfind CRLF (render_body header rows trailer)
    = Some (List.length header + List.length (render_rows rows))%nat ->
  Forall2 (Forall2 (converted F float_decode)) rows m ->
  _parse_body F float_decode (render_body header rows trailer) = Ok m
  /\ List.length m = 7%nat.
Proof.
  intros Hlen Hclean Hstart Hend Hm.
  destruct (parse_body_values header trailer rows m) as [Hok Hl];
    try assumption.
  - intros ->. discriminate.
  - lia.
  - split; [exact Hok | congruence].
Qed.

End ParserProperties.

Lemma starts_with_marker_inv (data : bytes) :
  starts_with (encode "01,01") data = true ->
  exists rest, data = x30 :: x31 :: rest.
Proof.
  change (encode "01,01") with [x30; x31; x2c; x30; x31].
  destruct data as [|d0 [|d1 rest]]; simpl; try discriminate.
  - intros H. apply andb_prop in H as [_ H]. discriminate.
  - intros H. apply andb_prop in H as [H0 H].
    apply andb_prop in H as [H1 _].
    apply Byte.byte_dec_bl in H0, H1. subst. now exists rest.
Qed.

(** A header without a comma cannot hold the marker, nor the beginning of
    an occurrence that would end in the rows. *)
Lemma find_after_header (header data : bytes) :
  free_of x2c header = true ->
  starts_with (encode "01,01") data = true ->
  find (encode "01,01") (header ++ data) = Some (List.length header).
Proof.
  intros Hfree Hdata.
  destruct (starts_with_marker_inv data Hdata) as [rest ->].
  induction header as [|h t IH].
  - simpl app. cbn [find]. now rewrite Hdata.
  - simpl in Hfree. apply andb_prop in Hfree as [_ Ht].
    specialize (IH Ht).
    simpl app. cbn [find]. rewrite IH.
    assert (E : starts_with (encode "01,01") (h :: t ++ x30 :: x31 :: rest)
                = false).
    { change (encode "01,01") with [x30; x31; x2c; x30; x31].
      destruct t as [|a [|b t']].
      - simpl. now rewrite andb_false_r.
      - simpl. now rewrite !andb_false_r.
      - simpl in Ht. apply andb_prop in Ht as [_ Ht].
        apply andb_prop in Ht as [Hb _]. apply negb_true_iff in Hb.
        simpl. rewrite Hb. simpl. now rewrite !andb_false_r. }
    now rewrite E.
Qed.

Lemma rfind_free_of (c : byte) (sub' s : bytes) :
  free_of c s = true -> rfind (c :: sub') s = None.
Proof.
  induction s as [|x s IH]; intros H; [reflexivity|].
  simpl in H. apply andb_prop in H as [Hx Hs]. apply negb_true_iff in Hx.
  cbn [rfind]. rewrite (IH Hs). cbn [starts_with]. now rewrite Hx.
Qed.

Lemma rfind_app (sub pre s : bytes) (i : nat) :
  rfind sub s = Some i ->
  rfind sub (pre ++ s) = Some (List.length pre + i)%nat.
Proof.
  intros H. induction pre as [|x pre IH]; [exact H|].
  simpl app. cbn [rfind]. now rewrite IH.
Qed.

(** The last CR LF of a body is the one before a trailer without a
    carriage return. *)
Lemma rfind_before_trailer (pre trailer : bytes) :
  free_of x0d trailer = true ->
  rfind CRLF (pre ++ CRLF ++ trailer) = Some (List.length pre).
Proof.
  intros H. rewrite <- (Nat.add_0_r (List.length pre)).
  apply rfind_app. unfold CRLF. simpl app. cbn [rfind].
  rewrite rfind_free_of; [reflexivity|].
  simpl. exact H.
Qed.

Lemma starts_with_app_l (sub s t : bytes) :
  starts_with sub s = true -> starts_with sub (s ++ t) = true.
Proof.
  revert s. induction sub as [|a sub IH]; intros s H; [reflexivity|].
  destruct s as [|b s]; [discriminate|].
  simpl in *. apply andb_prop in H as [Hab Hs].
  now rewrite Hab, (IH s Hs).
Qed.

(** The same for a body described by its parts alone: a header without a
    comma, rows that begin with the marker, a trailer without a carriage
    return. *)
Lemma parse_body_plain (F : Type) (float_decode : bytes -> option F)
    (header trailer : bytes) (rows : list (list Group)) (m : list (list F)) :
  free_of x2c header = true ->
  free_of x0d trailer = true ->
  starts_with (encode "01,01") (render_rows rows) = true ->
  (List.length rows <= 8)%nat ->
  forallb clean_row rows = true ->
  Forall2 (Forall2 (converted F float_decode)) rows m ->
  _parse_body F float_decode (render_body header rows trailer) = Ok m
  /\ List.length m = List.length rows.
Proof.
  intros Hh Ht Hstart Hlen Hclean Hm.
  apply parse_body_values; try assumption.
  - intros ->. discriminate.
  - unfold render_body. apply find_after_header; [exact Hh|].
    now apply starts_with_app_l.
  - unfold render_body. rewrite app_assoc, <- length_app.
    now apply rfind_before_trailer.
Qed.

(* ================================================================= *)
(** ** The properties at concrete inputs *)


(** The bound check at wavelength 229, on a device ready to answer. *)
Lemma read_absorbance_rejects_229 :
  (229 < 230 \/ 999 < 229)
  /\ read_absorbance Q digits_float 100 229 (fresh_world sample_acks)
     = (Raises (ValueError "Wavelength must be between 230 and 999"),
        fresh_world sample_acks)
  /\ tx (dev (snd (read_absorbance Q digits_float 100 229
                     (fresh_world sample_acks)))) = [].
Proof.
  assert (H : 229 < 230 \/ 999 < 229) by (left; lia).
  split; [exact H|].
  rewrite (read_absorbance_rejects_wavelength Q digits_float 100 229
             (fresh_world sample_acks) H).
  split; reflexivity.
Defined.

(** Without a camera: the cached exposure is accepted, another one and any
    gain are refused. *)
Lemma set_exposure_without_camera :
  cam exposure_cached_world = None
  /\ cached_eqb (Num 50) (_exposure (cache exposure_cached_world)) = true
  /\ fst (set_exposure exact_int (Num 50) exposure_cached_world) = Returns tt
  /\ cached_eqb (Num 20) (_exposure (cache exposure_cached_world)) = false
  /\ set_exposure exact_int (Num 20) exposure_cached_world
     = (Raises camera_not_initialized, exposure_cached_world)
  /\ set_gain (Num 5) exposure_cached_world
     = (Raises camera_not_initialized, exposure_cached_world).
Proof.
  pose proof (set_exposure_checks_cache_first exact_int (Num 50) (Num 5)
                exposure_cached_world eq_refl) as [Hhit _].
  pose proof (set_exposure_checks_cache_first exact_int (Num 20) (Num 5)
                exposure_cached_world eq_refl) as [_ [Hmiss Hgain]].
  split; [reflexivity|]. split; [reflexivity|].
  split; [exact (proj1 (Hhit eq_refl))|]. split; [reflexivity|].
  split; [exact (Hmiss eq_refl) | exact Hgain].
Defined.

(** A well already selected, and an exposure set twice. *)
Lemma setters_twice :
  requested_is_cached (Select 2 3) (cache well_cached_world) = true
  /\ only_logged well_cached_world
       (snd (call_setter exact_int 100 (Select 2 3) well_cached_world))
  /\ fst (set_exposure exact_int (Num 50) well_cached_world) = Returns tt
  /\ fst (set_exposure exact_int (Num 50)
            (snd (set_exposure exact_int (Num 50) well_cached_world))) = Returns tt
  /\ only_logged (snd (set_exposure exact_int (Num 50) well_cached_world))
       (snd (set_exposure exact_int (Num 50)
               (snd (set_exposure exact_int (Num 50) well_cached_world))))
  /\ (List.length (sdk_calls well_cached_world)
      < List.length (sdk_calls (snd (set_exposure exact_int (Num 50) well_cached_world))))%nat.
Proof.
  destruct (setter_with_cached_value_is_silent exact_int 100 well_cached_world)
    as [Hcached Htwice].
  destruct (Hcached (Select 2 3) eq_refl) as [Hlog _].
  destruct (Htwice (Num 50) (snd (set_exposure exact_int (Num 50) well_cached_world))
              eq_refl) as (Hret & Hlog2 & Hgrow).
  split; [reflexivity|]. split; [exact Hlog|].
  split; [reflexivity|]. split; [exact Hret|]. split; [exact Hlog2|].
  exact (Hgrow eq_refl).
Defined.

(** Three incomplete attempts, then a complete image: the fourth attempt
    delivers. *)
Lemma acquire_fourth_attempt :
  cam slow_camera_world
    = Some (sample_camera
              [Incomplete; Incomplete; Incomplete; Complete sample_image])
  /\ max_image_read_attempts slow_camera_world = 8
  /\ forallb retryable [Incomplete; Incomplete; Incomplete] = true
  /\ fst (_acquire_image Q plain_convert 0 0 slow_camera_world)
     = Returns (plain_convert 0 0 sample_image)
  /\ (fetches (sdk_calls (snd (_acquire_image Q plain_convert 0 0
                                 slow_camera_world)))
      - fetches (sdk_calls slow_camera_world) = 4)%nat.
Proof.
  pose proof (acquire_image_attempts Q plain_convert 0 0 slow_camera_world
                (sample_camera
                   [Incomplete; Incomplete; Incomplete; Complete sample_image])
                [Incomplete; Incomplete; Incomplete] [Complete sample_image]
                eq_refl eq_refl eq_refl eq_refl) as [Hdeliver _].
  destruct (Hdeliver sample_image [] eq_refl ltac:(simpl; lia)) as [Hr Hf].
  split; [reflexivity|]. split; [reflexivity|]. split; [reflexivity|].
  split; [exact Hr | exact Hf].
Defined.

(** The claim C9 fails for a camera whose software trigger is not writable:
    no attempt delivers an image, yet the failure is not the timeout and no
    fetch was made. *)
Lemma acquire_fails_without_timeout :
  let w := camera_world [TriggerNotWritable] in
  let r := _acquire_image Q plain_convert 0 0 w in
  fst r = Raises (RuntimeError "unable to execute software trigger")
  /\ fst r <> Raises (TimeoutError "max_image_read_attempts reached")
  /\ fetches (sdk_calls (snd r)) = 0%nat
  /\ sdk_calls (snd r) = [BeginAcquisition; EndAcquisition].
Proof.
  cbv zeta. split; [reflexivity|]. split; [discriminate|].
  split; reflexivity.
Qed.

(** A device that sends two letters and falls silent. *)
Lemma never_etx_AB : forall k, rx_script (dev (fresh_world (encode "AB"))) k <> Some ETX_byte.
Proof.
  intros k. simpl. unfold script_of.
  destruct k as [|[|[|k]]]; simpl; discriminate.
Qed.

Lemma read_until_times_out_on_AB :
  0 < read_latency (fresh_world (encode "AB"))
  /\ (forall k,
        rx_script (dev (fresh_world (encode "AB"))) k <> Some ETX_byte)
  /\ exists (fuel0 reads : nat) (w' : World),
       (forall fuel, (fuel0 <= fuel)%nat ->
          _read_until fuel [ETX_byte] (Some 50) (fresh_world (encode "AB"))
          = (Raises (TimeoutError "Timeout while waiting for response"), w'))
       /\ 50 < clock w' - clock (fresh_world (encode "AB")).
Proof.
  assert (Hlat : 0 < read_latency (fresh_world (encode "AB")))
    by (simpl; lia).
  split; [exact Hlat|]. split; [exact never_etx_AB|].
  destruct (read_until_times_out ETX_byte (Some 50)
              (fresh_world (encode "AB")) Hlat never_etx_AB)
    as (fuel0 & reads & w' & Hrun & _ & Hclk & _).
  exists fuel0, reads, w'. split; [exact Hrun | exact Hclk].
Defined.

(** The claim C4 fails: two channels leave different bytes in the
    accumulator and raise the very same exception; the bytes are in the log
    only. *)
Lemma timeout_error_does_not_carry_the_bytes :
  let r1 := _read_until 100 [ETX_byte] (Some 50) (fresh_world (encode "AB")) in
  let r2 := _read_until 100 [ETX_byte] (Some 50) (fresh_world (encode "XYZ")) in
  fst r1 = Raises (TimeoutError "Timeout while waiting for response")
  /\ fst r2 = fst r1
  /\ last (log (snd r1)) (Log INFO "" [])
     = Log DEBUG "[cytation5] received incomplete %s" [ABytes (encode "AB")]
  /\ last (log (snd r2)) (Log INFO "" [])
     = Log DEBUG "[cytation5] received incomplete %s" [ABytes (encode "XYZ")].
Proof. cbv zeta. repeat split. Qed.

(** The claim C5 fails: a second [shake] while the first session is active
    leaves two live tasks, each of which sends its shake command when the
    event loop runs it, and both go on waiting. *)
Lemma second_shake_adds_a_task :
  let w1 := snd (shake LINEAR (fresh_world (sample_acks ++ sample_acks))) in
  let w2 := snd (shake ORBITAL w1) in
  let w3 := snd (run_task 100 1 (snd (run_task 100 0 w2))) in
  _shaking w1 = true
  /\ live_tasks w1 = 1%nat
  /\ tasks w2 = [ {| task_shake_type := LINEAR; task_status := Created |};
                  {| task_shake_type := ORBITAL; task_status := Created |} ]
  /\ live_tasks w2 = 2%nat
  /\ _shaking_task w2 = Some 1%nat
  /\ nth_error (tx (dev w3)) 3 = Some (encode (shake_cmd LINEAR))
  /\ nth_error (tx (dev w3)) 8 = Some (encode (shake_cmd ORBITAL))
  /\ tasks w3 = [ {| task_shake_type := LINEAR; task_status := Waiting 250 |};
                  {| task_shake_type := ORBITAL; task_status := Waiting 250 |} ]
  /\ live_tasks w3 = 2%nat.
Proof. cbv zeta. repeat split. Qed.

(** The sample grid of eight rows. *)
Lemma parse_sample_grid :
  List.length sample_grid = 8%nat
  /\ forallb clean_row sample_grid = true
  /\ find (encode "01,01") (sample_body sample_grid)
     = Some (List.length sample_header)
  /\ rfind CRLF (sample_body sample_grid)
     = Some (List.length sample_header
             + List.length (render_rows sample_grid))%nat
  /\ _parse_body Q digits_float (sample_body sample_grid)
     = Ok (sample_values [1; 2; 3; 4; 5; 6; 7; 8]).
Proof.
  assert (Hv : Forall2 (Forall2 (converted Q digits_float)) sample_grid
                 (sample_values [1; 2; 3; 4; 5; 6; 7; 8])).
  { unfold sample_grid, sample_values. simpl. repeat constructor. }
  split; [reflexivity|]. split; [reflexivity|].
  split; [reflexivity|]. split; [reflexivity|].
  exact (proj1 (parse_body_eight_rows Q digits_float sample_header [ETX_byte]
                  sample_grid _ eq_refl eq_refl eq_refl eq_refl Hv)).
Defined.

(** The first seven rows of the sample grid. *)
Lemma parse_seven_sample_rows :
  List.length (firstn 7 sample_grid) = 7%nat
  /\ forallb clean_row (firstn 7 sample_grid) = true
  /\ find (encode "01,01") (sample_body (firstn 7 sample_grid))
     = Some (List.length sample_header)
  /\ rfind CRLF (sample_body (firstn 7 sample_grid))
     = Some (List.length sample_header
             + List.length (render_rows (firstn 7 sample_grid)))%nat
  /\ _parse_body Q digits_float (sample_body (firstn 7 sample_grid))
     = Ok (sample_values [1; 2; 3; 4; 5; 6; 7]).
Proof.
  assert (Hv : Forall2 (Forall2 (converted Q digits_float))
                 (firstn 7 sample_grid)
                 (sample_values [1; 2; 3; 4; 5; 6; 7])).
  { unfold sample_grid, sample_values. simpl. repeat constructor. }
  split; [reflexivity|]. split; [reflexivity|].
  split; [reflexivity|]. split; [reflexivity|].
  exact (proj1 (parse_body_seven_rows Q digits_float sample_header [ETX_byte]
                  (firstn 7 sample_grid) _ eq_refl eq_refl eq_refl eq_refl Hv)).
Defined.

(** The claim C3 fails: a body with seven row segments is parsed into a
    matrix of seven rows, and no exception is raised. *)
Lemma seven_rows_are_not_refused :
  let body := sample_body (firstn 7 sample_grid) in
  List.length
    (split [x0d; x0a; x2c]
       (slice (List.length sample_header)
          (List.length sample_header
           + List.length (render_rows (firstn 7 sample_grid))) body))
  = 7%nat
  /\ _parse_body Q digits_float body
     = Ok [[11; 12]; [21; 22]; [31; 32]; [41; 42]; [51; 52]; [61; 62];
           [71; 72]]%Q
  /\ (forall e, _parse_body Q digits_float body <> Raise e).
Proof.
  cbv zeta. split; [reflexivity|].
  assert (E : _parse_body Q digits_float (sample_body (firstn 7 sample_grid))
              = Ok [[11; 12]; [21; 22]; [31; 32]; [41; 42]; [51; 52];
                    [61; 62]; [71; 72]]%Q) by reflexivity.
  split; [exact E|]. intros e. rewrite E. discriminate.
Qed.

(* ================================================================= *)
(** ** Further properties: the transport and the reads *)

Lemma same_backend_refl (w : World) : same_backend w w.
Proof. unfold same_backend. now repeat split. Qed.

Lemma same_backend_trans (w1 w2 w3 : World) :
  same_backend w1 w2 -> same_backend w2 w3 -> same_backend w1 w3.
Proof.
  unfold same_backend.
  intros (A1 & A2 & A3 & A4 & A5 & A6 & A7 & A8 & A9 & A10)
         (B1 & B2 & B3 & B4 & B5 & B6 & B7 & B8 & B9 & B10).
  repeat split; congruence.
Qed.

Lemma bytes_eqb_refl (b : bytes) : bytes_eqb b b = true.
Proof.
  induction b as [|x b IH]; [reflexivity|].
  simpl. now rewrite (Byte.byte_dec_lb (eq_refl x)), IH.
Qed.

Lemma idle_reads_nonneg (s : nat -> option byte) (n : nat) :
  forall from, 0 <= idle_reads s from n.
Proof.
  induction n as [|n IH]; intros from; simpl; [lia|].
  specialize (IH (S from)). destruct (s from); lia.
Qed.

(** The loop of [_read_until] when the terminator is the [n+1]-th read and
    arrives before the limit. *)
Lemma read_until_loop_returns (term : byte) (limit t0 : Z) :
  forall (n : nat) (w : World) (res : bytes),
    0 <= read_latency w ->
    (forall i, (i < n)%nat ->
       rx_script (dev w) (rx_count (dev w) + i) <> Some term) ->
    rx_script (dev w) (rx_count (dev w) + n) = Some term ->
    clock w - t0 + Z.of_nat (S n) * read_latency w
      + 10 * idle_reads (rx_script (dev w)) (rx_count (dev w)) n <= limit ->
    exists w',
      (forall fuel, (n < fuel)%nat ->
         read_until_loop fuel [term] limit t0 res w
         = (Returns (res ++ script_bytes (rx_script (dev w))
                              (rx_count (dev w)) (S n)), w'))
      /\ log w'
         = log w
           ++ [Log DEBUG "[cytation5] received %s"
                 [ABytes (res ++ script_bytes (rx_script (dev w))
                                  (rx_count (dev w)) (S n))]]
      /\ rx_count (dev w') = (rx_count (dev w) + S n)%nat
      /\ clock w'
         = clock w + Z.of_nat (S n) * read_latency w
           + 10 * idle_reads (rx_script (dev w)) (rx_count (dev w)) n
      /\ tx (dev w') = tx (dev w)
      /\ rx_purges (dev w') = rx_purges (dev w)
      /\ tx_purges (dev w') = tx_purges (dev w)
      /\ same_backend w w'.
Proof.
  induction n as [|n IH]; intros w res Hlat Hbefore Hterm Htime.
  - rewrite Nat.add_0_r in Hterm. simpl idle_reads in *.
    assert (Hx : next_read (dev w) = [term])
      by (unfold next_read; now rewrite Hterm).
    assert (Hgt : (clock w + read_latency w - t0 >? limit) = false).
    { rewrite Z.gtb_ltb. apply Z.ltb_ge. lia. }
    eexists. split; [|split; [|split; [|split; [|split; [|split; [|split]]]]]].
    + intros fuel Hfuel. destruct fuel as [|fuel]; [lia|].
      rewrite read_until_loop_step. cbv zeta. rewrite Hgt, Hx.
      cbn [bytes_eqb]. rewrite (Byte.byte_dec_lb (eq_refl term)).
      cbn [andb]. simpl script_bytes. rewrite Hterm, app_nil_r. reflexivity.
    + simpl. rewrite Hterm, app_nil_r. reflexivity.
    + simpl. lia.
    + change (clock w + read_latency w
              = clock w + Z.of_nat 1 * read_latency w + 10 * 0). lia.
    + reflexivity.
    + reflexivity.
    + reflexivity.
    + unfold same_backend. simpl. now repeat split.
  - pose proof (idle_reads_nonneg (rx_script (dev w)) n (S (rx_count (dev w))))
      as Hidle.
    assert (Hnot : rx_script (dev w) (rx_count (dev w)) <> Some term).
    { specialize (Hbefore 0%nat ltac:(lia)). now rewrite Nat.add_0_r in Hbefore. }
    cbn [idle_reads] in Htime.
    assert (Hgt : (clock w + read_latency w - t0 >? limit) = false).
    { rewrite Z.gtb_ltb. apply Z.ltb_ge.
      destruct (rx_script (dev w) (rx_count (dev w))); lia. }
    set (w1 := with_clock (clock w + read_latency w)
                 (with_dev (after_read (dev w)) w)).
    set (w2 := if bytes_eqb (next_read (dev w)) []
               then with_clock (clock w1 + 10) w1 else w1).
    assert (Hw2 : read_latency w2 = read_latency w
                  /\ rx_script (dev w2) = rx_script (dev w)
                  /\ rx_count (dev w2) = S (rx_count (dev w))
                  /\ tx (dev w2) = tx (dev w)
                  /\ rx_purges (dev w2) = rx_purges (dev w)
                  /\ tx_purges (dev w2) = tx_purges (dev w)
                  /\ log w2 = log w
                  /\ same_backend w w2
                  /\ clock w2
                     = clock w + read_latency w
                       + 10 * match rx_script (dev w) (rx_count (dev w)) with
                              | Some _ => 0
                              | None => 1
                              end).
    { unfold w2, w1, next_read, same_backend.
      destruct (rx_script (dev w) (rx_count (dev w))); simpl;
        repeat split; lia. }
    destruct Hw2 as (Hl2 & Hs2 & Hc2 & Ht2 & Hrp2 & Htp2 & Hg2 & Hsb2 & Hk2).
    destruct (IH w2 (res ++ next_read (dev w)))
      as (w' & Hrun & Hlog & Hcnt & Hclk & Htx & Hrp & Htp & Hsb).
    { rewrite Hl2. exact Hlat. }
    { intros i Hi. rewrite Hs2, Hc2.
      replace (S (rx_count (dev w)) + i)%nat
        with (rx_count (dev w) + S i)%nat by lia.
      apply Hbefore. lia. }
    { rewrite Hs2, Hc2.
      replace (S (rx_count (dev w)) + n)%nat
        with (rx_count (dev w) + S n)%nat by lia.
      exact Hterm. }
    { rewrite Hl2, Hs2, Hc2, Hk2.
      destruct (rx_script (dev w) (rx_count (dev w))); lia. }
    assert (Hres : res ++ script_bytes (rx_script (dev w)) (rx_count (dev w))
                            (S (S n))
                   = (res ++ next_read (dev w))
                     ++ script_bytes (rx_script (dev w2)) (rx_count (dev w2))
                          (S n)).
    { rewrite Hs2, Hc2. unfold next_read.
      change (script_bytes (rx_script (dev w)) (rx_count (dev w)) (S (S n)))
        with (match rx_script (dev w) (rx_count (dev w)) with
              | Some b => [b] | None => [] end
              ++ script_bytes (rx_script (dev w)) (S (rx_count (dev w)))
                   (S n)).
      now rewrite app_assoc. }
    exists w'. split; [|split; [|split; [|split; [|split; [|split; [|split]]]]]].
    + intros fuel Hfuel. destruct fuel as [|fuel]; [lia|].
      rewrite read_until_loop_step. cbv zeta. rewrite Hgt.
      rewrite (next_read_is_not term (dev w) Hnot).
      fold w1. fold w2. rewrite Hres. apply Hrun. lia.
    + rewrite Hlog, Hg2, Hres. reflexivity.
    + rewrite Hcnt, Hc2. lia.
    + rewrite Hclk, Hl2, Hs2, Hc2, Hk2. cbn [idle_reads].
      destruct (rx_script (dev w) (rx_count (dev w))); lia.
    + congruence.
    + congruence.
    + congruence.
    + exact (same_backend_trans _ _ _ Hsb2 Hsb).
Qed.

Lemma script_bytes_last (s : nat -> option byte) (n : nat) :
  forall from,
    script_bytes s from (S n)
    = script_bytes s from n
      ++ match s (from + n)%nat with Some b => [b] | None => [] end.
Proof.
  induction n as [|n IH]; intros from.
  - simpl. now rewrite Nat.add_0_r, app_nil_r.
  - change (script_bytes s from (S (S n)))
      with (match s from with Some b => [b] | None => [] end
            ++ script_bytes s (S from) (S n)).
    rewrite IH. simpl script_bytes at 2.
    replace (S from + n)%nat with (from + S n)%nat by lia.
    now rewrite app_assoc.
Qed.

Lemma script_bytes_free_of (term : byte) (s : nat -> option byte) (n : nat) :
  forall from,
    (forall i, (i < n)%nat -> s (from + i)%nat <> Some term) ->
    free_of term (script_bytes s from n) = true.
Proof.
  induction n as [|n IH]; intros from H; [reflexivity|].
  simpl script_bytes. rewrite free_of_app, IH.
  - pose proof (H 0%nat ltac:(lia)) as H0. rewrite Nat.add_0_r in H0.
    destruct (s from) as [b|]; [|reflexivity].
    simpl. destruct (Byte.eqb term b) eqn:E; [|reflexivity].
    apply Byte.byte_dec_bl in E. now subst.
  - intros i Hi. replace (S from + i)%nat with (from + S i)%nat by lia.
    apply H. lia.
Qed.

(** [_read_until] when the terminator is the [n+1]-th byte read and the
    reads, with the waits of 10 ms after each read that found nothing, fit
    in the time limit. *)
Lemma read_until_run
    (term : byte) (time_limit : option Z) (w : World) (n : nat) :
  0 <= read_latency w ->
  (forall i, (i < n)%nat ->
     rx_script (dev w) (rx_count (dev w) + i) <> Some term) ->
  rx_script (dev w) (rx_count (dev w) + n) = Some term ->
  Z.of_nat (S n) * read_latency w
    + 10 * idle_reads (rx_script (dev w)) (rx_count (dev w)) n
  <= match time_limit with Some t => t | None => timeout w end ->
  let before := script_bytes (rx_script (dev w)) (rx_count (dev w)) n in
  exists w',
    (forall fuel, (n < fuel)%nat ->
       _read_until fuel [term] time_limit w = (Returns (before ++ [term]), w'))
    /\ free_of term before = true
    /\ rx_count (dev w') = (rx_count (dev w) + S n)%nat
    /\ clock w'
       = clock w + Z.of_nat (S n) * read_latency w
         + 10 * idle_reads (rx_script (dev w)) (rx_count (dev w)) n
    /\ tx (dev w') = tx (dev w)
    /\ rx_purges (dev w') = rx_purges (dev w)
    /\ tx_purges (dev w') = tx_purges (dev w)
    /\ same_backend w w'.
Proof.
  intros Hlat Hbefore Hterm Htime before.
  destruct (read_until_loop_returns term
              (match time_limit with Some t => t | None => timeout w end)
              (clock w) n w [] Hlat Hbefore Hterm ltac:(lia))
    as (w' & Hrun & _ & Hcnt & Hclk & Htx & Hrp & Htp & Hsb).
  exists w'.
  split; [|split; [|split; [|split; [|split; [|split; [|split]]]]]]; trivial.
  - intros fuel Hfuel. pose proof (Hrun fuel Hfuel) as E.
    unfold _read_until, bind, get, time_time. cbv beta iota zeta.
    etransitivity; [exact E|].
    unfold before. now rewrite script_bytes_last, Hterm.
  - unfold before. now apply script_bytes_free_of.
Qed.

(** The deadline is looked at before the byte just read: a terminator that
    is read after the limit has passed is not returned. *)
Lemma read_until_loop_late (term : byte) (limit t0 : Z) :
  forall (n : nat) (w : World) (res : bytes),
    0 <= read_latency w ->
    (forall i, (i < n)%nat ->
       rx_script (dev w) (rx_count (dev w) + i) <> Some term) ->
    limit < clock w - t0 + Z.of_nat (S n) * read_latency w
            + 10 * idle_reads (rx_script (dev w)) (rx_count (dev w)) n ->
    exists w',
      (forall fuel, (n < fuel)%nat ->
         read_until_loop fuel [term] limit t0 res w
         = (Raises (TimeoutError "Timeout while waiting for response"), w'))
      /\ (rx_count (dev w') <= rx_count (dev w) + S n)%nat
      /\ tx (dev w') = tx (dev w).
Proof.
  induction n as [|n IH]; intros w res Hlat Hbefore Htime;
    destruct (clock w + read_latency w - t0 >? limit) eqn:Hgt.
  1, 3:
    eexists; split; [|split];
    [ intros fuel Hfuel; destruct fuel as [|fuel]; [lia|];
      rewrite read_until_loop_step; cbv zeta; rewrite Hgt; reflexivity
    | simpl; lia
    | reflexivity ].
  - exfalso. rewrite Z.gtb_ltb in Hgt. apply Z.ltb_ge in Hgt.
    simpl idle_reads in Htime. lia.
  - assert (Hnot : rx_script (dev w) (rx_count (dev w)) <> Some term).
    { specialize (Hbefore 0%nat ltac:(lia)). now rewrite Nat.add_0_r in Hbefore. }
    set (w1 := with_clock (clock w + read_latency w)
                 (with_dev (after_read (dev w)) w)).
    set (w2 := if bytes_eqb (next_read (dev w)) []
               then with_clock (clock w1 + 10) w1 else w1).
    assert (Hw2 : read_latency w2 = read_latency w
                  /\ rx_script (dev w2) = rx_script (dev w)
                  /\ rx_count (dev w2) = S (rx_count (dev w))
                  /\ tx (dev w2) = tx (dev w)
                  /\ clock w2
                     = clock w + read_latency w
                       + 10 * match rx_script (dev w) (rx_count (dev w)) with
                              | Some _ => 0
                              | None => 1
                              end).
    { unfold w2, w1, next_read.
      destruct (rx_script (dev w) (rx_count (dev w))); simpl;
        repeat split; lia. }
    destruct Hw2 as (Hl2 & Hs2 & Hc2 & Ht2 & Hk2).
    destruct (IH w2 (res ++ next_read (dev w))) as (w' & Hrun & Hcnt & Htx).
    { rewrite Hl2. exact Hlat. }
    { intros i Hi. rewrite Hs2, Hc2.
      replace (S (rx_count (dev w)) + i)%nat
        with (rx_count (dev w) + S i)%nat by lia.
      apply Hbefore. lia. }
    { rewrite Hl2, Hs2, Hc2, Hk2. cbn [idle_reads] in Htime.
      destruct (rx_script (dev w) (rx_count (dev w))); lia. }
    exists w'. split; [|split].
    + intros fuel Hfuel. destruct fuel as [|fuel]; [lia|].
      rewrite read_until_loop_step. cbv zeta. rewrite Hgt.
      rewrite (next_read_is_not term (dev w) Hnot).
      fold w1. fold w2. apply Hrun. lia.
    + rewrite Hc2 in Hcnt. lia.
    + congruence.
Qed.

(** X2.  When the terminator is there but the reads and the idle waits before it
    take longer than the time limit, [_read_until] raises [TimeoutError]
    and has not read past the terminator. *)
Theorem read_until_late_terminator
    (term : byte) (time_limit : option Z) (w : World) (n : nat) :
  0 <= read_latency w ->
  (forall i, (i < n)%nat ->
     rx_script (dev w) (rx_count (dev w) + i) <> Some term) ->
  rx_script (dev w) (rx_count (dev w) + n) = Some term ->
  match time_limit with Some t => t | None => timeout w end
  < Z.of_nat (S n) * read_latency w
    + 10 * idle_reads (rx_script (dev w)) (rx_count (dev w)) n ->
  exists w',
    (forall fuel, (n < fuel)%nat ->
       _read_until fuel [term] time_limit w
       = (Raises (TimeoutError "Timeout while waiting for response"), w'))
    /\ (rx_count (dev w') <= rx_count (dev w) + S n)%nat.
Proof.
  intros Hlat Hbefore _ Htime.
  destruct (read_until_loop_late term
              (match time_limit with Some t => t | None => timeout w end)
              (clock w) n w [] Hlat Hbefore ltac:(lia))
    as (w' & Hrun & Hcnt & _).
  exists w'. split; [|exact Hcnt].
  intros fuel Hfuel. unfold _read_until, bind, get, time_time.
  cbv beta iota zeta. now apply Hrun.
Qed.


Lemma port_after_trans (w1 w2 w3 : World) (r1 r2 : nat)
    (t1 t2 : list bytes) (p1 p2 : nat) :
  port_after w1 w2 r1 t1 p1 -> port_after w2 w3 r2 t2 p2 ->
  port_after w1 w3 (r1 + r2) (t1 ++ t2) (p1 + p2).
Proof.
  unfold port_after.
  intros (A & A1 & A2 & A3 & A4 & A5) (B & B1 & B2 & B3 & B4 & B5).
  split; [exact (same_backend_trans _ _ _ A B)|].
  rewrite B1, B2, B3, B4, A1, A2, A3, A4, app_assoc.
  repeat split; lia.
Qed.

Lemma sends_app (w : World) (a b : bytes) :
  sends w (a ++ b) ->
  sends w a
  /\ (forall w', rx_script (dev w') = rx_script (dev w) ->
                 rx_count (dev w') = (rx_count (dev w) + List.length a)%nat ->
                 sends w' b).
Proof.
  unfold sends. intros H. split.
  - intros i Hi. rewrite H by (rewrite length_app; lia).
    now rewrite nth_error_app1.
  - intros w' Hs Hc i Hi. rewrite Hs, Hc.
    replace (rx_count (dev w) + List.length a + i)%nat
      with (rx_count (dev w) + (List.length a + i))%nat by lia.
    rewrite H by (rewrite length_app; lia).
    rewrite nth_error_app2 by lia. f_equal. lia.
Qed.

Lemma sends_script_bytes (s : nat -> option byte) (l : bytes) :
  forall from,
    (forall i, (i < List.length l)%nat -> s (from + i)%nat = nth_error l i) ->
    script_bytes s from (List.length l) = l
    /\ idle_reads s from (List.length l) = 0.
Proof.
  induction l as [|b l IH]; intros from H; [now split|].
  pose proof (H 0%nat ltac:(simpl; lia)) as H0.
  rewrite Nat.add_0_r in H0. simpl in H0.
  destruct (IH (S from)) as [E1 E2].
  { intros i Hi. replace (S from + i)%nat with (from + S i)%nat by lia.
    rewrite H by (simpl; lia). reflexivity. }
  simpl List.length. cbn [script_bytes idle_reads].
  rewrite H0, E1, E2. now split.
Qed.

Lemma free_of_nth (term : byte) (l : bytes) (i : nat) :
  free_of term l = true -> nth_error l i <> Some term.
Proof.
  revert i. induction l as [|b l IH]; intros i H.
  - now destruct i.
  - simpl in H. apply andb_prop in H as [Hb Hl].
    destruct i as [|i]; simpl.
    + intros E. inversion E; subst.
      now rewrite (Byte.byte_dec_lb (eq_refl term)) in Hb.
    + now apply IH.
Qed.

(** [_read_until] on a device that sends [before] and then the terminator,
    in time. *)
Lemma read_until_prompt (term : byte) (time_limit : option Z) (w : World)
    (before : bytes) :
  0 <= read_latency w ->
  sends w (before ++ [term]) ->
  free_of term before = true ->
  Z.of_nat (S (List.length before)) * read_latency w
  <= match time_limit with Some t => t | None => timeout w end ->
  exists w',
    (forall fuel, (List.length before < fuel)%nat ->
       _read_until fuel [term] time_limit w = (Returns (before ++ [term]), w'))
    /\ port_after w w' (S (List.length before)) [] 0.
Proof.
  intros Hlat Hsends Hfree Htime.
  destruct (sends_app w before [term] Hsends) as [Hb _].
  destruct (sends_script_bytes (rx_script (dev w)) before (rx_count (dev w)) Hb)
    as [Hbytes Hidle].
  destruct (read_until_run term time_limit w (List.length before) Hlat)
    as (w' & Hrun & _ & Hcnt & Hclk & Htx & Hrp & Htp & Hsb).
  - intros i Hi. rewrite (Hb i Hi). now apply free_of_nth.
  - rewrite Hsends by (rewrite length_app; simpl; lia).
    rewrite nth_error_app2 by lia. now rewrite Nat.sub_diag.
  - rewrite Hidle. lia.
  - exists w'. split.
    + intros fuel Hfuel. rewrite (Hrun fuel Hfuel). now rewrite Hbytes.
    + unfold port_after. rewrite Htx, Hrp, Htp, Hcnt, Hclk, Hidle, app_nil_r.
      split; [exact Hsb|]. repeat split; try lia; nia.
Qed.

Lemma command_sent_port (command : string) (w : World) :
  port_after w (command_sent command w) 0 [encode command] 1.
Proof.
  unfold port_after, same_backend, command_sent. simpl.
  repeat split; lia.
Qed.

Lemma parameter_sent_port (parameter : string) (w : World) :
  port_after w (parameter_sent parameter w) 0 [encode parameter] 0.
Proof.
  unfold port_after, same_backend, parameter_sent. simpl.
  repeat split; lia.
Qed.

Lemma port_after_sends (w w' : World) (k : nat) (t : list bytes) (p : nat)
    (a b : bytes) :
  port_after w w' k t p -> k = List.length a ->
  sends w (a ++ b) -> sends w' b.
Proof.
  intros (Hsb & Hc & _) -> Hs.
  destruct (sends_app w a b Hs) as [_ H]. apply H; [|exact Hc].
  apply Hsb.
Qed.

Lemma port_after_settings (w w' : World) (k : nat) (t : list bytes) (p : nat) :
  port_after w w' k t p ->
  read_latency w' = read_latency w /\ timeout w' = timeout w.
Proof. intros (Hsb & _). split; apply Hsb. Qed.

(** [send_command] without a parameter, awaiting the response. *)
Lemma send_command_query_eq (fuel : nat) (command : string) (w : World) :
  send_command fuel command None true w
  = match _read_until fuel [ETX_byte] None (command_sent command w) with
    | (Returns r, w') => (Returns (Some r), w')
    | (Raises e, w') => (Raises e, w')
    | (OutOfFuel, w') => (OutOfFuel, w')
    end.
Proof.
  unfold send_command, command_sent, bind. simpl.
  destruct (_read_until fuel [ETX_byte] None _) as [[r|e|] w']; reflexivity.
Qed.

(** [send_command] with a parameter, awaiting the response. *)
Lemma send_command_exchange_eq (fuel : nat) (command parameter : string)
    (w : World) :
  send_command fuel command (Some parameter) true w
  = match _read_until fuel [ACK_byte] None (command_sent command w) with
    | (Returns _, w1) =>
        match _read_until fuel [ETX_byte] None (parameter_sent parameter w1)
        with
        | (Returns r, w') => (Returns (Some r), w')
        | (Raises e, w') => (Raises e, w')
        | (OutOfFuel, w') => (OutOfFuel, w')
        end
    | (Raises e, w') => (Raises e, w')
    | (OutOfFuel, w') => (OutOfFuel, w')
    end.
Proof.
  unfold send_command, command_sent, parameter_sent, bind. simpl.
  destruct (_read_until fuel [ACK_byte] None _) as [[r|e|] w1];
    reflexivity.
Qed.

Lemma send_command_no_wait_eq (fuel : nat) (command : string) (w : World) :
  send_command fuel command None false w
  = (Returns None, command_sent command w).
Proof. cbv. reflexivity. Qed.



(** [send_command] with a parameter, not awaiting the response. *)
Lemma send_command_parameter_no_wait_eq (fuel : nat)
    (command parameter : string) (w : World) :
  send_command fuel command (Some parameter) false w
  = match _read_until fuel [ACK_byte] None (command_sent command w) with
    | (Returns r, w1) => (Returns (Some r), parameter_sent parameter w1)
    | (Raises e, w') => (Raises e, w')
    | (OutOfFuel, w') => (OutOfFuel, w')
    end.
Proof.
  unfold send_command, command_sent, parameter_sent, bind. simpl.
  destruct (_read_until fuel [ACK_byte] None _) as [[r|e|] w1];
    reflexivity.
Qed.

Lemma command_sent_latency (command : string) (w : World) :
  read_latency (command_sent command w) = read_latency w.
Proof. reflexivity. Qed.

Lemma parameter_sent_latency (parameter : string) (w : World) :
  read_latency (parameter_sent parameter w) = read_latency w.
Proof. reflexivity. Qed.

Lemma port_after_eq (w w' : World) (k k' : nat) (t t' : list bytes)
    (p p' : nat) :
  port_after w w' k t p -> k = k' -> t = t' -> p = p' ->
  port_after w w' k' t' p'.
Proof. now intros H -> -> ->. Qed.


(** A command with a parameter, on a device that sends [a], the ACK, the
    response [r] and the ETX, each part within the timeout: the parameter is
    written after the ACK was read, and the response is returned with its
    terminator. *)
Lemma send_command_exchange_run
    (command parameter : string) (w : World) (a r : bytes) :
  0 <= read_latency w ->
  sends w (a ++ [ACK_byte] ++ r ++ [ETX_byte]) ->
  free_of ACK_byte a = true ->
  free_of ETX_byte r = true ->
  Z.of_nat (S (List.length a)) * read_latency w <= timeout w ->
  Z.of_nat (S (List.length r)) * read_latency w <= timeout w ->
  exists w',
    (forall fuel, (List.length a < fuel)%nat -> (List.length r < fuel)%nat ->
       send_command fuel command (Some parameter) true w
       = (Returns (Some (r ++ [ETX_byte])), w'))
    /\ port_after w w' (S (List.length a) + S (List.length r))
         [encode command; encode parameter] 1.
Proof.
  intros Hlat Hsends Ha Hr Hta Htr.
  pose proof (command_sent_port command w) as P0.
  set (w0 := command_sent command w) in *.
  assert (Hs0 : sends w0 ((a ++ [ACK_byte]) ++ r ++ [ETX_byte])).
  { rewrite <- app_assoc.
    apply (port_after_sends w w0 0 _ _ [] _ P0 eq_refl Hsends). }
  destruct (sends_app w0 _ _ Hs0) as [Hs0a _].
  destruct (read_until_prompt ACK_byte None w0 a) as (w1 & Hrun1 & P1);
    trivial.
  pose proof (parameter_sent_port parameter w1) as P2.
  set (w2 := parameter_sent parameter w1) in *.
  assert (Hs2 : sends w2 (r ++ [ETX_byte])).
  { apply (port_after_sends w0 w2 _ _ _ (a ++ [ACK_byte]) _
             (port_after_trans _ _ _ _ _ _ _ _ _ P1 P2)); [|exact Hs0].
    rewrite length_app. simpl. lia. }
  destruct (read_until_prompt ETX_byte None w2 r) as (w3 & Hrun3 & P3);
    trivial.
  { unfold w2. rewrite parameter_sent_latency.
    destruct (port_after_settings _ _ _ _ _ P1) as [-> _]. exact Hlat. }
  { destruct (port_after_settings _ _ _ _ _
                (port_after_trans _ _ _ _ _ _ _ _ _ P1 P2)) as [-> ->].
    exact Htr. }
  exists w3. split.
  - intros fuel Hf1 Hf2. rewrite send_command_exchange_eq.
    fold w0. rewrite (Hrun1 fuel Hf1). fold w2. now rewrite (Hrun3 fuel Hf2).
  - apply (port_after_eq _ _ _ _ _ _ _ _
             (port_after_trans _ _ _ _ _ _ _ _ _
                (port_after_trans _ _ _ _ _ _ _ _ _
                   (port_after_trans _ _ _ _ _ _ _ _ _ P0 P1) P2) P3));
      [lia | reflexivity | reflexivity].
Qed.

(** A command without a parameter, on a device that sends the response [r]
    and the ETX within the timeout. *)
Lemma send_command_query_run (command : string) (w : World) (r : bytes) :
  0 <= read_latency w ->
  sends w (r ++ [ETX_byte]) ->
  free_of ETX_byte r = true ->
  Z.of_nat (S (List.length r)) * read_latency w <= timeout w ->
  exists w',
    (forall fuel, (List.length r < fuel)%nat ->
       send_command fuel command None true w
       = (Returns (Some (r ++ [ETX_byte])), w'))
    /\ port_after w w' (S (List.length r)) [encode command] 1.
Proof.
  intros Hlat Hsends Hr Htr.
  pose proof (command_sent_port command w) as P0.
  set (w0 := command_sent command w) in *.
  assert (Hs0 : sends w0 (r ++ [ETX_byte])).
  { apply (port_after_sends w w0 0 _ _ [] _ P0 eq_refl Hsends). }
  destruct (read_until_prompt ETX_byte None w0 r) as (w1 & Hrun1 & P1);
    trivial.
  exists w1. split.
  - intros fuel Hf. rewrite send_command_query_eq. fold w0.
    now rewrite (Hrun1 fuel Hf).
  - apply (port_after_eq _ _ _ _ _ _ _ _
             (port_after_trans _ _ _ _ _ _ _ _ _ P0 P1));
      [lia | reflexivity | reflexivity].
Qed.

Lemma port_after_latency (w w' : World) (k : nat) (t : list bytes) (p : nat) :
  port_after w w' k t p -> 0 <= read_latency w -> 0 <= read_latency w'.
Proof.
  intros P H. destruct (port_after_settings _ _ _ _ _ P) as [-> _]. exact H.
Qed.

Lemma within_time (n m : nat) (latency limit : Z) :
  0 <= latency -> (n <= m)%nat ->
  Z.of_nat m * latency <= limit -> Z.of_nat n * latency <= limit.
Proof.
  intros Hl Hnm H. assert (Z.of_nat n <= Z.of_nat m) by lia. nia.
Qed.

(** The three exchanges on a device that answers each of them in time. *)
Lemma command_sequence_run (priming action : string) (w : World)
    (r1 r2 r3 rest : bytes) :
  0 <= read_latency w ->
  sends w (sequence_answers r1 r2 r3 ++ rest) ->
  free_of ETX_byte r1 = true ->
  free_of ETX_byte r2 = true ->
  free_of ETX_byte r3 = true ->
  Z.of_nat (List.length (sequence_answers r1 r2 r3)) * read_latency w
    <= timeout w ->
  exists w',
    (forall fuel, (List.length (sequence_answers r1 r2 r3) < fuel)%nat ->
       command_sequence fuel priming action w
       = (if bytes_eqb (r3 ++ [ETX_byte]) ack_0000
          then Returns tt else Raises AssertionError, w'))
    /\ port_after w w' (List.length (sequence_answers r1 r2 r3))
         [encode "y"; encode priming; encode "D"; encode action; encode "O"]
         3.
Proof.
  intros Hlat Hsends H1 H2 H3 Htime.
  assert (Hlen : List.length (sequence_answers r1 r2 r3)
                 = (S (S (List.length r1)) + S (S (List.length r2))
                    + S (List.length r3))%nat).
  { unfold sequence_answers. rewrite !length_app. simpl. lia. }
  rewrite Hlen in *.
  (* the priming command *)
  assert (Hs1 : sends w (([] ++ [ACK_byte] ++ r1 ++ [ETX_byte])
                         ++ ([ACK_byte] ++ r2 ++ [ETX_byte])
                         ++ (r3 ++ [ETX_byte]) ++ rest)).
  { replace (([] ++ [ACK_byte] ++ r1 ++ [ETX_byte])
              ++ ([ACK_byte] ++ r2 ++ [ETX_byte])
              ++ (r3 ++ [ETX_byte]) ++ rest)
      with (sequence_answers r1 r2 r3 ++ rest); [exact Hsends|].
    unfold sequence_answers. cbn [app].
    repeat (rewrite <- app_assoc; cbn [app]). reflexivity. }
  destruct (sends_app w _ _ Hs1) as [Hs1a _].
  destruct (send_command_exchange_run "y" priming w [] r1 Hlat Hs1a eq_refl H1)
    as (w1 & Hrun1 & P1);
    [(refine (within_time _ _ _ _ Hlat _ Htime); simpl; lia)
    |(refine (within_time _ _ _ _ Hlat _ Htime); simpl; lia) |].
  (* the action command *)
  assert (Hs2 : sends w1 (([] ++ [ACK_byte] ++ r2 ++ [ETX_byte])
                          ++ (r3 ++ [ETX_byte]) ++ rest)).
  { apply (port_after_sends w w1 _ _ _ _ _ P1) in Hs1; [exact Hs1|].
    rewrite !length_app. simpl. lia. }
  destruct (sends_app w1 _ _ Hs2) as [Hs2a _].
  destruct (port_after_settings _ _ _ _ _ P1) as [Hl1 Ht1].
  destruct (send_command_exchange_run "D" action w1 [] r2
              (port_after_latency _ _ _ _ _ P1 Hlat) Hs2a eq_refl H2)
    as (w2 & Hrun2 & P2);
    [rewrite Hl1, Ht1;
     (refine (within_time _ _ _ _ Hlat _ Htime); simpl; lia)
    |rewrite Hl1, Ht1;
     (refine (within_time _ _ _ _ Hlat _ Htime); simpl; lia) |].
  (* the trigger *)
  assert (Hs3 : sends w2 ((r3 ++ [ETX_byte]) ++ rest)).
  { apply (port_after_sends w1 w2 _ _ _ _ _ P2) in Hs2; [exact Hs2|].
    rewrite !length_app. simpl. lia. }
  destruct (sends_app w2 _ _ Hs3) as [Hs3a _].
  pose proof (port_after_trans _ _ _ _ _ _ _ _ _ P1 P2) as P12.
  destruct (port_after_settings _ _ _ _ _ P12) as [Hl2 Ht2].
  destruct (send_command_query_run "O" w2 r3
              (port_after_latency _ _ _ _ _ P12 Hlat) Hs3a H3)
    as (w3 & Hrun3 & P3);
    [rewrite Hl2, Ht2;
     (refine (within_time _ _ _ _ Hlat _ Htime); simpl; lia) |].
  exists w3. split.
  - intros fuel Hfuel. unfold command_sequence, bind.
    rewrite (Hrun1 fuel) by (simpl; lia).
    rewrite (Hrun2 fuel) by (simpl; lia).
    rewrite (Hrun3 fuel) by lia.
    unfold assert, response_is.
    destruct (bytes_eqb (r3 ++ [ETX_byte]) ack_0000); reflexivity.
  - apply (port_after_eq _ _ _ _ _ _ _ _
             (port_after_trans _ _ _ _ _ _ _ _ _ P12 P3));
      [simpl; lia | reflexivity | reflexivity].
Qed.

Section ReadProperties.

Variable F : Type.
Variable float_decode : bytes -> option F.

Lemma read_absorbance_eq (fuel : nat) (wavelength : Z) (w : World) :
  230 <= wavelength <= 999 ->
  read_absorbance F float_decode fuel wavelength w
  = (command_sequence fuel priming_parameter (absorbance_cmd wavelength) ;;
     body <- _read_until fuel [ETX_byte] (Some (60 * 3 * 1000)) ;;
     lift (_parse_body F float_decode body)) w.
Proof.
  intros [Hlo Hhi]. unfold read_absorbance.
  apply Z.leb_le in Hlo, Hhi. rewrite Hlo, Hhi. cbn [andb negb].
  unfold command_sequence, bind.
  destruct (send_command fuel "y" _ true w) as [[r|e|] w1]; try reflexivity;
    destruct (send_command fuel "D" _ true w1) as [[r'|e'|] w2];
    try reflexivity;
    destruct (send_command fuel "O" None true w2) as [[r''|e''|] w3];
    try reflexivity;
    destruct (assert _ w3) as [[u|e3|] w4]; reflexivity.
Qed.

(** X6.  A complete absorbance read on a device that answers in time: the five
    writes of the three exchanges, then the body up to its ETX, handed to the
    parser. *)
Theorem read_absorbance_reads
    (wavelength : Z) (w : World) (r1 r2 body : bytes) :
  230 <= wavelength <= 999 ->
  0 <= read_latency w ->
  sends w (sequence_answers r1 r2 (ACK_byte :: encode "0000")
           ++ body ++ [ETX_byte]) ->
  free_of ETX_byte r1 = true ->
  free_of ETX_byte r2 = true ->
  free_of ETX_byte body = true ->
  Z.of_nat (List.length (sequence_answers r1 r2 (ACK_byte :: encode "0000")))
    * read_latency w <= timeout w ->
  Z.of_nat (S (List.length body)) * read_latency w <= 60 * 3 * 1000 ->
  exists w',
    (forall fuel,
       (List.length (sequence_answers r1 r2 (ACK_byte :: encode "0000"))
        < fuel)%nat ->
       (List.length body < fuel)%nat ->
       read_absorbance F float_decode fuel wavelength w
       = (match _parse_body F float_decode (body ++ [ETX_byte]) with
          | Ok m => Returns m
          | Raise e => Raises e
          end, w'))
    /\ port_after w w'
         (List.length (sequence_answers r1 r2 (ACK_byte :: encode "0000"))
          + S (List.length body))
         [encode "y"; encode priming_parameter; encode "D";
          encode (absorbance_cmd wavelength); encode "O"] 3.
Proof.
  intros Hwl Hlat Hsends H1 H2 Hb Ht1 Ht2.
  set (answers := sequence_answers r1 r2 (ACK_byte :: encode "0000")) in *.
  destruct (command_sequence_run priming_parameter (absorbance_cmd wavelength)
              w r1 r2 (ACK_byte :: encode "0000") (body ++ [ETX_byte])
              Hlat Hsends H1 H2 eq_refl Ht1) as (w1 & Hrun1 & P1).
  fold answers in Hrun1, P1.
  assert (Hs : sends w1 (body ++ [ETX_byte])).
  { exact (port_after_sends w w1 _ _ _ answers _ P1 eq_refl Hsends). }
  destruct (port_after_settings _ _ _ _ _ P1) as [Hl1 _].
  destruct (read_until_prompt ETX_byte (Some (60 * 3 * 1000)) w1 body)
    as (w2 & Hrun2 & P2); trivial.
  { rewrite Hl1. exact Hlat. }
  { rewrite Hl1. exact Ht2. }
  exists w2. split.
  - intros fuel Hf1 Hf2. rewrite read_absorbance_eq by exact Hwl.
    unfold bind at 1. rewrite (Hrun1 fuel Hf1). cbn [bytes_eqb].
    change (bytes_eqb ((ACK_byte :: encode "0000") ++ [ETX_byte]) ack_0000)
      with true. cbv iota.
    unfold bind. rewrite (Hrun2 fuel Hf2).
    destruct (_parse_body F float_decode (body ++ [ETX_byte])); reflexivity.
  - apply (port_after_eq _ _ _ _ _ _ _ _
             (port_after_trans _ _ _ _ _ _ _ _ _ P1 P2));
      [lia | reflexivity | reflexivity].
Qed.

(** X7.  When the answer to the trigger is not [b"\x060000\x03"] the read stops
    with the failed assertion; the body is not read. *)
Theorem read_absorbance_unexpected_answer
    (wavelength : Z) (w : World) (r1 r2 r3 rest : bytes) :
  230 <= wavelength <= 999 ->
  0 <= read_latency w ->
  sends w (sequence_answers r1 r2 r3 ++ rest) ->
  free_of ETX_byte r1 = true ->
  free_of ETX_byte r2 = true ->
  free_of ETX_byte r3 = true ->
  bytes_eqb (r3 ++ [ETX_byte]) ack_0000 = false ->
  Z.of_nat (List.length (sequence_answers r1 r2 r3)) * read_latency w
    <= timeout w ->
  exists w',
    (forall fuel, (List.length (sequence_answers r1 r2 r3) < fuel)%nat ->
       read_absorbance F float_decode fuel wavelength w
       = (Raises AssertionError, w'))
    /\ port_after w w' (List.length (sequence_answers r1 r2 r3))
         [encode "y"; encode priming_parameter; encode "D";
          encode (absorbance_cmd wavelength); encode "O"] 3.
Proof.
  intros Hwl Hlat Hsends H1 H2 H3 Hne Ht.
  destruct (command_sequence_run priming_parameter (absorbance_cmd wavelength)
              w r1 r2 r3 rest Hlat Hsends H1 H2 H3 Ht) as (w1 & Hrun1 & P1).
  exists w1. split; [|exact P1].
  intros fuel Hf. rewrite read_absorbance_eq by exact Hwl.
  unfold bind at 1. rewrite (Hrun1 fuel Hf), Hne. reflexivity.
Qed.

End ReadProperties.

(* ================================================================= *)
(** ** Further properties: checks before any exchange *)

Lemma focal_height_ok_iff (focal_height : Q) :
  focal_height_ok focal_height = true
  <-> (45 # 10 <= focal_height /\ focal_height <= 1388 # 100)%Q.
Proof.
  unfold focal_height_ok. rewrite andb_true_iff, !Qle_bool_iff. reflexivity.
Qed.

Section ReadValidation.

Variable F : Type.
Variable float_decode : bytes -> option F.
Variable python_int : arith -> result Z.

(** [read_fluorescence] checks the focal height, then the excitation
    wavelength, then the emission wavelength; a value out of range raises
    the [ValueError] of its check and nothing has happened yet. *)
Lemma read_fluorescence_checks
    (fuel : nat) (excitation emission : Z) (focal_height : Q) (w : World) :
  let r := read_fluorescence F float_decode python_int fuel excitation emission
             focal_height w in
  (~ (45 # 10 <= focal_height /\ focal_height <= 1388 # 100)%Q ->
   r = (Raises (ValueError "Focal height must be between 4.5 and 13.88"), w))
  /\ ((45 # 10 <= focal_height /\ focal_height <= 1388 # 100)%Q ->
      excitation < 250 \/ 700 < excitation ->
      r = (Raises (ValueError
                     "Excitation wavelength must be between 250 and 700"), w))
  /\ ((45 # 10 <= focal_height /\ focal_height <= 1388 # 100)%Q ->
      250 <= excitation <= 700 ->
      emission < 250 \/ 700 < emission ->
      r = (Raises (ValueError
                     "Emission wavelength must be between 250 and 700"), w)).
Proof.
  cbv zeta. unfold read_fluorescence. split; [|split].
  - intros H. rewrite <- focal_height_ok_iff in H.
    apply not_true_is_false in H. now rewrite H.
  - intros H Hex. apply focal_height_ok_iff in H. rewrite H. cbn [negb].
    destruct (250 <=? excitation)%Z eqn:E1;
      destruct (excitation <=? 700)%Z eqn:E2; cbn [andb negb];
      try reflexivity.
    apply Z.leb_le in E1, E2. lia.
  - intros H [Hex1 Hex2] Hem. apply focal_height_ok_iff in H.
    rewrite H. cbn [negb].
    apply Z.leb_le in Hex1, Hex2. rewrite Hex1, Hex2. cbn [andb negb].
    destruct (250 <=? emission)%Z eqn:E1;
      destruct (emission <=? 700)%Z eqn:E2; cbn [andb negb];
      try reflexivity.
    apply Z.leb_le in E1, E2. lia.
Qed.

(** [read_luminescence] refuses a focal height out of range before
    anything is sent. *)
Lemma read_luminescence_checks
    (fuel : nat) (focal_height : Q) (w : World) :
  ~ (45 # 10 <= focal_height /\ focal_height <= 1388 # 100)%Q ->
  read_luminescence F float_decode python_int fuel focal_height w
  = (Raises (ValueError "Focal height must be between 4.5 and 13.88"), w).
Proof.
  intros H. unfold read_luminescence. rewrite <- focal_height_ok_iff in H.
  apply not_true_is_false in H. now rewrite H.
Qed.

End ReadValidation.

(** [led_on] checks the intensity, then that an imaging mode is set;
    either failure happens before anything is sent. *)
Lemma led_on_checks (fuel : nat) (intensity : Z) (w : World) :
  (intensity < 1 \/ 10 < intensity ->
   led_on fuel intensity w
   = (Raises (ValueError "intensity must be between 1 and 10"), w))
  /\ (1 <= intensity <= 10 ->
      _imaging_mode (cache w) = None ->
      led_on fuel intensity w
      = (Raises (ValueError
                   "Imaging mode not set. Run set_imaging_mode() first."), w)).
Proof.
  unfold led_on. split.
  - intros H.
    destruct (1 <=? intensity)%Z eqn:E1; destruct (intensity <=? 10)%Z eqn:E2;
      cbn [andb negb]; try reflexivity.
    apply Z.leb_le in E1, E2. lia.
  - intros [H1 H2] Hmode. apply Z.leb_le in H1, H2. rewrite H1, H2.
    cbn [andb negb]. unfold bind, get. now rewrite Hmode.
Qed.

(** Automatic focus and colour brightfield are refused as not implemented,
    before anything is sent or cached. *)
Lemma unimplemented_checks (python_int : arith -> result Z) (fuel : nat)
    (w : World) :
  (cached_eqb (Text "auto") (_focal_height (cache w)) = false ->
   set_focus python_int fuel (Text "auto") w
   = (Raises (NotImplementedError "auto_focus not implemented yet"), w))
  /\ (cam w <> None ->
      mode_cached_eqb COLOR_BRIGHTFIELD (_imaging_mode (cache w)) = false ->
      set_imaging_mode fuel COLOR_BRIGHTFIELD w
      = (Raises (NotImplementedError
                   "Color brightfield imaging not implemented yet"), w)).
Proof.
  split.
  - intros H. unfold set_focus, bind, get. now rewrite H.
  - intros Hcam H. unfold set_imaging_mode, bind, get.
    destruct (cam w); [|contradiction]. now rewrite H.
Qed.

(* ================================================================= *)
(** ** Further properties: the shake session *)

Lemma set_nth_same {A : Type} (a : A) (l : list A) :
  forall i, (i < List.length l)%nat -> nth_error (set_nth i a l) i = Some a.
Proof.
  induction l as [|x l IH]; intros [|i] H; simpl in *; try lia;
    [reflexivity | apply IH; lia].
Qed.

Lemma set_nth_other {A : Type} (a : A) (l : list A) :
  forall i j, i <> j -> nth_error (set_nth i a l) j = nth_error l j.
Proof.
  induction l as [|x l IH]; intros [|i] [|j] H; simpl; try reflexivity;
    try contradiction.
  apply IH. lia.
Qed.

Lemma set_nth_last {A : Type} (a b : A) (l : list A) :
  set_nth (List.length l) a (l ++ [b]) = l ++ [a].
Proof. induction l as [|x l IH]; simpl; [reflexivity | now rewrite IH]. Qed.

Lemma nth_error_last {A : Type} (b : A) (l : list A) :
  nth_error (l ++ [b]) (List.length l) = Some b.
Proof. rewrite nth_error_app2, Nat.sub_diag by lia. reflexivity. Qed.

(** [stop_shaking] up to the point where it looks at the handle. *)
Lemma command_sent_shaking_task (command : string) (w : World) :
  _shaking_task (command_sent command w) = _shaking_task w.
Proof. cbv. reflexivity. Qed.

Lemma stop_shaking_eq (fuel : nat) (woken : nat -> bool) (w : World) :
  stop_shaking fuel woken w
  = let w1 := with_shaking false (command_sent "x" w) in
    match _shaking_task w with
    | Some i =>
        (cancel_and_await fuel woken i ;; modify (with_shaking_task None)) w1
    | None => (Returns tt, w1)
    end.
Proof.
  unfold stop_shaking, _abort, bind. rewrite send_command_no_wait_eq.
  unfold when. unfold get, ret, modify. cbv beta iota zeta.
  destruct (_shaking (command_sent "x" w)) eqn:E.
  - cbn [_shaking_task with_shaking]. rewrite command_sent_shaking_task.
    destruct (_shaking_task w); reflexivity.
  - assert (Hw : with_shaking false (command_sent "x" w) = command_sent "x" w).
    { destruct (command_sent "x" w). simpl in E. now subst. }
    rewrite Hw, command_sent_shaking_task.
    destruct (_shaking_task w); reflexivity.
Qed.

Lemma with_tasks_same (w : World) : with_tasks (tasks w) w = w.
Proof. now destruct w. Qed.

Lemma set_nth_middle {A : Type} (a b : A) (pre l : list A) :
  set_nth (List.length pre) a (pre ++ b :: l) = pre ++ a :: l.
Proof. induction pre as [|x pre IH]; simpl; [reflexivity | now rewrite IH]. Qed.

Lemma nth_error_middle {A : Type} (b : A) (pre l : list A) :
  nth_error (pre ++ b :: l) (List.length pre) = Some b.
Proof. rewrite nth_error_app2, Nat.sub_diag by lia. reflexivity. Qed.

(** The turn of a live task while the flag is cleared: the task ends, and
    nothing else changes. *)
Lemma run_task_cleared (fuel : nat) (w : World) (i : nat) (t : Task) :
  nth_error (tasks w) i = Some t ->
  task_live t = true ->
  _shaking w = false ->
  run_task fuel i w
  = (Returns tt,
     with_tasks (set_nth i {| task_shake_type := task_shake_type t;
                              task_status := Finished |} (tasks w)) w).
Proof.
  intros Ht Hlive Hflag.
  unfold run_task. rewrite Ht. unfold task_live in Hlive.
  destruct (task_status t) eqn:Hs; try discriminate;
    unfold shake_round; unfold bind, get; cbv beta iota;
    rewrite ?Hflag; rewrite ?andb_false_r; cbv beta iota;
    rewrite ?Hflag; cbv beta iota;
    unfold set_task_status, modify; cbv beta iota; rewrite Ht;
    reflexivity.
Qed.

Lemma after_turn_live (woken : nat -> bool) (j : nat) (t : Task) :
  task_live (after_turn woken j t) = true -> task_live t = true.
Proof.
  unfold after_turn, task_live.
  destruct (task_status t) eqn:Hs; try destruct (woken j);
    cbn; rewrite ?Hs; trivial; discriminate.
Qed.

Lemma after_turn_shake_type (woken : nat -> bool) (j : nat) (t : Task) :
  task_shake_type (after_turn woken j t) = task_shake_type t.
Proof.
  unfold after_turn. destruct (task_status t); trivial.
  now destruct (woken j).
Qed.

Lemma turns_from_nth (woken : nat -> bool) (l : list Task) :
  forall j k,
    nth_error (turns_from woken j l) k
    = option_map (after_turn woken (j + k)) (nth_error l k).
Proof.
  induction l as [|t l IH]; intros j [|k]; simpl; trivial.
  - now rewrite Nat.add_0_r.
  - rewrite IH. now replace (S j + k)%nat with (j + S k)%nat by lia.
Qed.

Lemma turns_from_length (woken : nat -> bool) (l : list Task) :
  forall j, List.length (turns_from woken j l) = List.length l.
Proof. induction l as [|t l IH]; intros j; simpl; [trivial | now rewrite IH]. Qed.

Lemma turns_from_app (woken : nat -> bool) (a b : list Task) :
  forall j,
    turns_from woken j (a ++ b)
    = turns_from woken j a ++ turns_from woken (j + List.length a) b.
Proof.
  induction a as [|t a IH]; intros j; simpl.
  - now rewrite Nat.add_0_r.
  - rewrite IH. now replace (S j + List.length a)%nat
                  with (j + S (List.length a))%nat by lia.
Qed.

Lemma turns_from_live (woken : nat -> bool) (l : list Task) :
  forall j,
    (List.length (filter task_live (turns_from woken j l))
     <= List.length (filter task_live l))%nat.
Proof.
  induction l as [|t l IH]; intros j; simpl; [lia|].
  specialize (IH (S j)).
  destruct (task_live (after_turn woken j t)) eqn:E.
  - rewrite (after_turn_live woken j t E). simpl. lia.
  - destruct (task_live t); simpl; lia.
Qed.

(** The turns of the event loop while the flag is cleared: each task that
    gets a turn ends; nothing is exchanged with the device. *)
Lemma loop_turns_cleared (fuel : nat) (woken : nat -> bool) :
  forall (ts pre : list Task) (w : World),
    _shaking w = false ->
    tasks w = pre ++ ts ->
    loop_turns fuel woken ts (List.length pre) w
    = (Returns tt,
       with_tasks (pre ++ turns_from woken (List.length pre) ts) w).
Proof.
  induction ts as [|t ts IH]; intros pre w Hflag Htasks.
  - simpl. rewrite <- Htasks, with_tasks_same. reflexivity.
  - assert (Hskip : loop_turns fuel woken ts (S (List.length pre)) w
                    = (Returns tt,
                       with_tasks
                         (pre ++ t :: turns_from woken (S (List.length pre)) ts)
                         w)).
    { specialize (IH (pre ++ [t]) w Hflag).
      rewrite length_app, Nat.add_1_r, <- app_assoc in IH.
      rewrite <- app_assoc in IH. now apply IH. }
    assert (Hturn : task_live t = true ->
              (run_task fuel (List.length pre) ;;
               loop_turns fuel woken ts (S (List.length pre))) w
              = (Returns tt,
                 with_tasks
                   (pre ++ {| task_shake_type := task_shake_type t;
                              task_status := Finished |}
                        :: turns_from woken (S (List.length pre)) ts) w)).
    { intros Hlive. unfold bind.
      rewrite (run_task_cleared fuel w (List.length pre) t);
        [|rewrite Htasks; apply nth_error_middle | exact Hlive | exact Hflag].
      rewrite Htasks, set_nth_middle.
      set (t' := {| task_shake_type := task_shake_type t;
                    task_status := Finished |}).
      specialize (IH (pre ++ [t']) (with_tasks (pre ++ t' :: ts) w) Hflag).
      rewrite length_app, Nat.add_1_r, <- !app_assoc in IH.
      rewrite IH by reflexivity. reflexivity. }
    cbn [loop_turns turns_from]. unfold after_turn.
    destruct (task_status t) eqn:Hs.
    + apply Hturn. unfold task_live. now rewrite Hs.
    + destruct (woken (List.length pre)).
      * apply Hturn. unfold task_live. now rewrite Hs.
      * unfold bind, ret. exact Hskip.
    + unfold bind, ret. exact Hskip.
    + unfold bind, ret. exact Hskip.
    + unfold bind, ret. exact Hskip.
Qed.

(** Cancelling and awaiting a live task while the flag is cleared. *)
Lemma cancel_and_await_live (fuel : nat) (woken : nat -> bool) (i : nat)
    (t : Task) (w : World) :
  _shaking w = false ->
  nth_error (tasks w) i = Some t ->
  task_live t = true ->
  cancel_and_await fuel woken i w
  = (Returns tt,
     with_tasks
       (turns_from woken 0
          (set_nth i {| task_shake_type := task_shake_type t;
                        task_status := Cancelled |} (tasks w))) w).
Proof.
  intros Hflag Ht Hlive.
  unfold cancel_and_await. unfold bind at 1. unfold get at 1.
  cbv beta iota. rewrite Ht.
  set (l := set_nth i {| task_shake_type := task_shake_type t;
                         task_status := Cancelled |} (tasks w)).
  assert (E : (set_task_status i Cancelled ;;
               ts <- get tasks ;; loop_turns fuel woken ts 0) w
              = (Returns tt, with_tasks (turns_from woken 0 l) w)).
  { unfold bind, get, set_task_status, modify. cbv beta iota. rewrite Ht.
    cbn [tasks with_tasks]. fold l.
    pose proof (loop_turns_cleared fuel woken l [] (with_tasks l w) Hflag
                  eq_refl) as E0.
    cbn [List.length app] in E0. rewrite E0. reflexivity. }
  unfold task_live in Hlive.
  destruct (task_status t); try discriminate; exact E.
Qed.

(** X12.  [stop_shaking] with a live task stored: the abort command is
    written, the flag and the handle are cleared and the stored task is
    cancelled.  No other task is cancelled: while the call awaits the
    cancelled task, the tasks that get a turn (those created and not yet
    started, and those woken from their sleep) find the flag cleared and
    end; the others are left as they were. *)
Theorem stop_shaking_cancels
    (fuel : nat) (woken : nat -> bool) (w : World) (i : nat) (t : Task) :
  _shaking_task w = Some i ->
  nth_error (tasks w) i = Some t ->
  task_live t = true ->
  exists w',
    stop_shaking fuel woken w = (Returns tt, w')
    /\ _shaking w' = false
    /\ _shaking_task w' = None
    /\ nth_error (tasks w') i
       = Some {| task_shake_type := task_shake_type t;
                 task_status := Cancelled |}
    /\ (forall j u, j <> i -> nth_error (tasks w) j = Some u ->
          nth_error (tasks w') j = Some (after_turn woken j u))
    /\ List.length (tasks w') = List.length (tasks w)
    /\ tx (dev w') = tx (dev w) ++ [encode "x"]
    /\ rx_count (dev w') = rx_count (dev w).
Proof.
  intros Hh Ht Hlive.
  assert (Hi : (i < List.length (tasks w))%nat).
  { apply nth_error_Some. now rewrite Ht. }
  rewrite stop_shaking_eq, Hh. cbv zeta.
  unfold bind at 1.
  rewrite (cancel_and_await_live fuel woken i t
             (with_shaking false (command_sent "x" w)) eq_refl Ht Hlive).
  eexists. split; [reflexivity|]. cbn.
  split; [reflexivity|]. split; [reflexivity|].
  split; [|split; [|split; [|split; reflexivity]]].
  - rewrite turns_from_nth, set_nth_same by exact Hi. reflexivity.
  - intros j u Hj Hu.
    rewrite turns_from_nth, set_nth_other by congruence.
    now rewrite Hu.
  - rewrite turns_from_length. clear. revert i.
    induction (tasks w) as [|x l IH]; intros [|i]; simpl; trivial.
    now rewrite IH.
Qed.

(** X10.  [shake] followed by [stop_shaking]: the abort command is written
    and no answer awaited, the flag and the handle are cleared and the task
    just created is cancelled before it has run.  The earlier tasks are not
    cancelled; those that get a turn while the call awaits the cancelled
    task end by themselves, so that no more tasks are live than before. *)
Theorem shake_then_stop
    (fuel : nat) (woken : nat -> bool) (shake_type : ShakeType) (w : World) :
  exists w',
    stop_shaking fuel woken (snd (shake shake_type w)) = (Returns tt, w')
    /\ _shaking w' = false
    /\ _shaking_task w' = None
    /\ nth_error (tasks w') (List.length (tasks w))
       = Some {| task_shake_type := shake_type; task_status := Cancelled |}
    /\ List.length (tasks w') = S (List.length (tasks w))
    /\ (forall j u, nth_error (tasks w) j = Some u ->
          nth_error (tasks w') j = Some (after_turn woken j u))
    /\ (live_tasks w' <= live_tasks w)%nat
    /\ tx (dev w') = tx (dev w) ++ [encode "x"]
    /\ rx_count (dev w') = rx_count (dev w).
Proof.
  set (w1 := snd (shake shake_type w)).
  set (new := {| task_shake_type := shake_type; task_status := Created |}).
  assert (H1 : _shaking_task w1 = Some (List.length (tasks w))) by reflexivity.
  assert (H2 : tasks w1 = tasks w ++ [new]) by reflexivity.
  assert (H3 : dev w1 = dev w) by reflexivity.
  rewrite stop_shaking_eq, H1. cbv zeta.
  unfold bind at 1.
  rewrite (cancel_and_await_live fuel woken (List.length (tasks w)) new
             (with_shaking false (command_sent "x" w1)) eq_refl);
    [|cbn [tasks with_shaking]; change (tasks (command_sent "x" w1))
                                  with (tasks w1);
      rewrite H2; apply nth_error_last | reflexivity].
  change (tasks (with_shaking false (command_sent "x" w1))) with (tasks w1).
  rewrite H2, set_nth_last, turns_from_app. cbn [turns_from task_shake_type new].
  eexists. split; [reflexivity|]. cbn.
  split; [reflexivity|]. split; [reflexivity|].
  split; [|split; [|split; [|split; [|split; reflexivity]]]].
  - rewrite nth_error_app2 by (rewrite turns_from_length; lia).
    rewrite turns_from_length, Nat.sub_diag. reflexivity.
  - rewrite length_app, turns_from_length. simpl. lia.
  - intros j u Hu.
    assert (Hj : (j < List.length (tasks w))%nat).
    { apply nth_error_Some. now rewrite Hu. }
    rewrite nth_error_app1 by (rewrite turns_from_length; exact Hj).
    rewrite turns_from_nth, Hu. reflexivity.
  - unfold live_tasks. cbn [tasks with_tasks with_shaking_task].
    rewrite filter_app, length_app. cbn. rewrite Nat.add_0_r.
    apply turns_from_live.
Qed.

(** [stop_shaking] when no task is stored: only the abort command is
    written and the flag cleared. *)
Lemma stop_shaking_idle (fuel : nat) (woken : nat -> bool) (w : World) :
  _shaking_task w = None ->
  exists w',
    stop_shaking fuel woken w = (Returns tt, w')
    /\ _shaking w' = false
    /\ _shaking_task w' = None
    /\ tasks w' = tasks w
    /\ tx (dev w') = tx (dev w) ++ [encode "x"]
    /\ rx_count (dev w') = rx_count (dev w).
Proof.
  intros H. rewrite stop_shaking_eq, H. cbv zeta.
  eexists. split; [reflexivity|]. simpl. now repeat split.
Qed.

(** X11.  When the stored task has ended with an exception, [stop_shaking] writes
    the abort command, clears the flag and raises that exception; the handle
    stays, so that a later call raises it again. *)
Theorem stop_shaking_failed_task
    (fuel : nat) (woken : nat -> bool) (w : World) (i : nat) (t : Task)
    (e : exn) :
  _shaking_task w = Some i ->
  nth_error (tasks w) i = Some t ->
  task_status t = Failed e ->
  exists w',
    stop_shaking fuel woken w = (Raises e, w')
    /\ _shaking w' = false
    /\ _shaking_task w' = Some i
    /\ tasks w' = tasks w
    /\ tx (dev w') = tx (dev w) ++ [encode "x"]
    /\ fst (stop_shaking fuel woken w') = Raises e.
Proof.
  intros Hh Ht Hs.
  assert (E : forall w0, _shaking_task w0 = Some i -> tasks w0 = tasks w ->
                fst (stop_shaking fuel woken w0) = Raises e
                /\ snd (stop_shaking fuel woken w0)
                   = with_shaking false (command_sent "x" w0)).
  { intros w0 H1 H2. rewrite stop_shaking_eq, H1. cbv zeta.
    unfold cancel_and_await. unfold bind, get. cbv beta iota.
    change (tasks (with_shaking false (command_sent "x" w0))) with (tasks w0).
    rewrite H2, Ht, Hs.
    split; reflexivity. }
  destruct (E w Hh eq_refl) as [E1 E2].
  exists (with_shaking false (command_sent "x" w)).
  split; [rewrite <- E1, <- E2; now destruct (stop_shaking fuel woken w)|].
  simpl. repeat split; trivial.
  apply E; [exact Hh | reflexivity].
Qed.

(** A task that gets a turn after the flag was cleared ends without
    exchanging anything with the device. *)
Lemma run_task_after_stop (fuel : nat) (w : World) (i : nat) (t : Task) :
  nth_error (tasks w) i = Some t ->
  task_live t = true ->
  _shaking w = false ->
  exists w',
    run_task fuel i w = (Returns tt, w')
    /\ nth_error (tasks w') i
       = Some {| task_shake_type := task_shake_type t;
                 task_status := Finished |}
    /\ dev w' = dev w
    /\ clock w' = clock w.
Proof.
  intros Ht Hlive Hflag.
  assert (Hi : (i < List.length (tasks w))%nat).
  { apply nth_error_Some. now rewrite Ht. }
  unfold run_task. rewrite Ht. unfold task_live in Hlive.
  destruct (task_status t) eqn:Hs; try discriminate;
    unfold shake_round; unfold bind, get; cbv beta iota;
    rewrite ?Hflag; rewrite ?andb_false_r; cbv beta iota;
    rewrite ?Hflag; cbv beta iota;
    unfold set_task_status, modify; cbv beta iota; rewrite Ht;
    (eexists; split; [reflexivity|]); cbn;
    (repeat split; now apply set_nth_same).
Qed.

(** X13.  While the flag is set and less than the maximal duration has been
    waited, a turn given to a waiting task is one more wait of a quarter of a
    second: nothing is sent. *)
Theorem run_task_polls
    (fuel : nat) (w : World) (i : nat) (t : Task) (since : Z) :
  nth_error (tasks w) i = Some t ->
  task_status t = Waiting since ->
  since < 960 * 1000 ->
  _shaking w = true ->
  exists w',
    run_task fuel i w = (Returns tt, w')
    /\ nth_error (tasks w') i
       = Some {| task_shake_type := task_shake_type t;
                 task_status := Waiting (since + 250) |}
    /\ dev w' = dev w
    /\ clock w' = clock w + 250.
Proof.
  intros Ht Hs Hsince Hflag.
  assert (Hi : (i < List.length (tasks w))%nat).
  { apply nth_error_Some. now rewrite Ht. }
  unfold run_task. rewrite Ht, Hs. unfold bind, get. cbv beta iota.
  rewrite Hflag.
  assert (E : (since <? max_duration * 1000)%Z = true)
    by (apply Z.ltb_lt; unfold max_duration; lia).
  rewrite E. cbn [andb].
  unfold asyncio_sleep, set_task_status, modify. cbv beta iota.
  change (tasks (with_clock (clock w + 250) w)) with (tasks w). rewrite Ht.
  eexists. split; [reflexivity|]. cbn.
  repeat split. now apply set_nth_same.
Qed.

Lemma shake_maximal_duration_eq (fuel : nat) (shake_type : ShakeType) :
  shake_maximal_duration fuel shake_type
  = command_sequence fuel shake_priming_parameter (shake_cmd shake_type).
Proof. unfold shake_maximal_duration, command_sequence. reflexivity. Qed.

Lemma shake_round_run (w : World) (i : nat) (t : Task) (r1 r2 r3 rest : bytes) :
  nth_error (tasks w) i = Some t ->
  _shaking w = true ->
  0 <= read_latency w ->
  sends w (sequence_answers r1 r2 r3 ++ rest) ->
  free_of ETX_byte r1 = true ->
  free_of ETX_byte r2 = true ->
  free_of ETX_byte r3 = true ->
  Z.of_nat (List.length (sequence_answers r1 r2 r3)) * read_latency w
    <= timeout w ->
  exists w',
    (forall fuel, (List.length (sequence_answers r1 r2 r3) < fuel)%nat ->
       match shake_round fuel i (task_shake_type t) w with
       | (Raises e, w1) => set_task_status i (Failed e) w1
       | r => r
       end = (Returns tt, w'))
    /\ tx (dev w')
       = tx (dev w)
         ++ [encode "y"; encode shake_priming_parameter; encode "D";
             encode (shake_cmd (task_shake_type t)); encode "O"]
    /\ nth_error (tasks w') i
       = Some {| task_shake_type := task_shake_type t;
                 task_status :=
                   if bytes_eqb (r3 ++ [ETX_byte]) ack_0000
                   then Waiting 250 else Failed AssertionError |}.
Proof.
  intros Ht Hflag Hlat Hsends H1 H2 H3 Htime.
  assert (Hi : (i < List.length (tasks w))%nat).
  { apply nth_error_Some. now rewrite Ht. }
  destruct (command_sequence_run shake_priming_parameter
              (shake_cmd (task_shake_type t)) w r1 r2 r3 rest
              Hlat Hsends H1 H2 H3 Htime) as (w1 & Hrun & P).
  destruct P as (Hsb & _ & Htx & _).
  destruct Hsb as (_ & _ & _ & Hflag1 & _ & Htasks1 & _).
  rewrite Hflag in Hflag1.
  destruct (bytes_eqb (r3 ++ [ETX_byte]) ack_0000) eqn:Hack.
  - eexists. split; [|split].
    + intros fuel Hfuel. unfold shake_round. unfold bind, get.
      cbv beta iota. rewrite Hflag.
      rewrite shake_maximal_duration_eq.
      rewrite (Hrun fuel Hfuel), Hflag1.
      change ((0 <? max_duration * 1000)%Z && true)%bool with true.
      cbv beta iota.
      unfold asyncio_sleep, set_task_status, modify. cbv beta iota.
      change (tasks (with_clock (clock w1 + 250) w1)) with (tasks w1).
      rewrite Htasks1, Ht. reflexivity.
    + cbn. exact Htx.
    + cbn. now apply set_nth_same.
  - eexists. split; [|split].
    + intros fuel Hfuel. unfold shake_round. unfold bind, get.
      cbv beta iota. rewrite Hflag.
      rewrite shake_maximal_duration_eq.
      rewrite (Hrun fuel Hfuel).
      unfold set_task_status, modify. cbv beta iota.
      rewrite Htasks1, Ht. reflexivity.
    + cbn. exact Htx.
    + cbn. now apply set_nth_same.
Qed.

(** X14.  A task that has just been created, or has waited the maximal duration,
    sends the shake command of its shake type when it gets its turn with the
    flag set; when the trigger is answered by [b"\x060000\x03"] it goes on
    waiting, otherwise the failed assertion ends the task and is kept in it
    instead of reaching the caller. *)
Theorem run_task_sends_shake_command
    (w : World) (i : nat) (t : Task) (r1 r2 r3 rest : bytes) :
  nth_error (tasks w) i = Some t ->
  (task_status t = Created
   \/ exists since, task_status t = Waiting since /\ 960 * 1000 <= since) ->
  _shaking w = true ->
  0 <= read_latency w ->
  sends w (sequence_answers r1 r2 r3 ++ rest) ->
  free_of ETX_byte r1 = true ->
  free_of ETX_byte r2 = true ->
  free_of ETX_byte r3 = true ->
  Z.of_nat (List.length (sequence_answers r1 r2 r3)) * read_latency w
    <= timeout w ->
  exists w',
    (forall fuel, (List.length (sequence_answers r1 r2 r3) < fuel)%nat ->
       run_task fuel i w = (Returns tt, w'))
    /\ tx (dev w')
       = tx (dev w)
         ++ [encode "y"; encode shake_priming_parameter; encode "D";
             encode (shake_cmd (task_shake_type t)); encode "O"]
    /\ nth_error (tasks w') i
       = Some {| task_shake_type := task_shake_type t;
                 task_status :=
                   if bytes_eqb (r3 ++ [ETX_byte]) ack_0000
                   then Waiting 250 else Failed AssertionError |}.
Proof.
  intros Ht Hs Hflag Hlat Hsends H1 H2 H3 Htime.
  destruct (shake_round_run w i t r1 r2 r3 rest Ht Hflag Hlat Hsends H1 H2 H3
              Htime) as (w' & Hrun & Htx & Htask).
  exists w'. split; [|split; assumption].
  intros fuel Hfuel. specialize (Hrun fuel Hfuel).
  unfold run_task. rewrite Ht.
  destruct Hs as [Hs | (since & Hs & Hsince)]; rewrite Hs.
  - exact Hrun.
  - unfold bind at 1. unfold get at 1. cbv beta iota.
    assert (E : (since <? max_duration * 1000)%Z = false)
      by (apply Z.ltb_ge; unfold max_duration; lia).
    rewrite E. cbn [andb]. exact Hrun.
Qed.

(* ================================================================= *)
(** ** The checksums in what is written *)

Section ChecksumProperties.

Variable F : Type.
Variable float_decode : bytes -> option F.
Variable python_int : arith -> result Z.

Lemma read_fluorescence_eq (fuel : nat) (excitation emission : Z)
    (focal_height : Q) (focus : Z) (w : World) :
  (45 # 10 <= focal_height /\ focal_height <= 1388 # 100)%Q ->
  250 <= excitation <= 700 ->
  250 <= emission <= 700 ->
  python_int (Times (Number 1000) (Number focal_height)) = Ok focus ->
  read_fluorescence F float_decode python_int fuel excitation emission
    focal_height w
  = (send_command fuel "t"
       (Some (str (614220 + focus) ++ ETX_str)%string) true ;;
     command_sequence fuel priming_parameter
       (fluorescence_cmd excitation emission) ;;
     body <- _read_until fuel [ETX_byte] (Some (60 * 2 * 1000)) ;;
     lift (_parse_body F float_decode body)) w.
Proof.
  intros Hfocal [Hx1 Hx2] [He1 He2] Hfocus. unfold read_fluorescence.
  apply focal_height_ok_iff in Hfocal. rewrite Hfocal.
  apply Z.leb_le in Hx1, Hx2, He1, He2. rewrite Hx1, Hx2, He1, He2.
  cbn [andb negb]. rewrite Hfocus.
  unfold command_sequence, bind. cbn [lift]. unfold ret.
  destruct (send_command fuel "t" _ true w) as [[r0|e0|] w0];
    try reflexivity;
    destruct (send_command fuel "y" _ true w0) as [[r|e|] w1];
    try reflexivity;
    destruct (send_command fuel "D" _ true w1) as [[r'|e'|] w2];
    try reflexivity;
    destruct (send_command fuel "O" None true w2) as [[r''|e''|] w3];
    try reflexivity;
    destruct (assert _ w3) as [[u|e3|] w4]; reflexivity.
Qed.

(** A complete fluorescence read on a device that answers in time: the
    seven writes of the four exchanges, then the body up to its ETX, handed
    to the parser. *)
Lemma read_fluorescence_run
    (excitation emission : Z) (focal_height : Q) (focus : Z) (w : World)
    (r0 r1 r2 body : bytes) :
  (45 # 10 <= focal_height /\ focal_height <= 1388 # 100)%Q ->
  250 <= excitation <= 700 ->
  250 <= emission <= 700 ->
  python_int (Times (Number 1000) (Number focal_height)) = Ok focus ->
  0 <= read_latency w ->
  sends w (([ACK_byte] ++ r0 ++ [ETX_byte])
           ++ sequence_answers r1 r2 (ACK_byte :: encode "0000")
           ++ body ++ [ETX_byte]) ->
  free_of ETX_byte r0 = true ->
  free_of ETX_byte r1 = true ->
  free_of ETX_byte r2 = true ->
  free_of ETX_byte body = true ->
  Z.of_nat (S (S (List.length r0))
            + List.length (sequence_answers r1 r2 (ACK_byte :: encode "0000")))
    * read_latency w <= timeout w ->
  Z.of_nat (S (List.length body)) * read_latency w <= 60 * 2 * 1000 ->
  exists w',
    (forall fuel,
       (S (S (List.length r0))
        + List.length (sequence_answers r1 r2 (ACK_byte :: encode "0000"))
        < fuel)%nat ->
       (List.length body < fuel)%nat ->
       read_fluorescence F float_decode python_int fuel excitation emission
         focal_height w
       = (match _parse_body F float_decode (body ++ [ETX_byte]) with
          | Ok m => Returns m
          | Raise e => Raises e
          end, w'))
    /\ tx (dev w')
       = tx (dev w)
         ++ [encode "t"; encode (str (614220 + focus) ++ ETX_str)%string;
             encode "y"; encode priming_parameter; encode "D";
             encode (fluorescence_cmd excitation emission); encode "O"].
Proof.
  intros Hfocal Hx He Hfocus Hlat Hsends H0 H1 H2 Hb Ht1 Ht2.
  set (answers := sequence_answers r1 r2 (ACK_byte :: encode "0000")) in *.
  (* the focus command *)
  assert (Hs0 : sends w ([] ++ [ACK_byte] ++ r0 ++ [ETX_byte])).
  { apply (sends_app w _ _ Hsends). }
  destruct (send_command_exchange_run "t"
              (str (614220 + focus) ++ ETX_str)%string
              w [] r0 Hlat Hs0 eq_refl H0) as (w0 & Hrun0 & P0).
  { refine (within_time _ _ _ _ Hlat _ Ht1). simpl. lia. }
  { refine (within_time _ _ _ _ Hlat _ Ht1). simpl. lia. }
  destruct (port_after_settings _ _ _ _ _ P0) as [Hl0 Hto0].
  assert (Hsa : sends w0 (answers ++ body ++ [ETX_byte])).
  { apply (port_after_sends w w0 _ _ _ ([ACK_byte] ++ r0 ++ [ETX_byte]) _ P0);
      [|exact Hsends].
    rewrite !length_app. simpl. lia. }
  (* the three exchanges *)
  destruct (command_sequence_run priming_parameter
              (fluorescence_cmd excitation emission)
              w0 r1 r2 (ACK_byte :: encode "0000") (body ++ [ETX_byte]))
    as (w1 & Hrun1 & P1); trivial.
  { rewrite Hl0. exact Hlat. }
  { rewrite Hl0, Hto0. fold answers.
    refine (within_time _ _ _ _ Hlat _ Ht1). lia. }
  fold answers in Hrun1, P1.
  destruct (port_after_settings _ _ _ _ _ P1) as [Hl1 _].
  assert (Hs : sends w1 (body ++ [ETX_byte])).
  { exact (port_after_sends w0 w1 _ _ _ answers _ P1 eq_refl Hsa). }
  destruct (read_until_prompt ETX_byte (Some (60 * 2 * 1000)) w1 body)
    as (w2 & Hrun2 & P2); trivial.
  { rewrite Hl1, Hl0. exact Hlat. }
  { rewrite Hl1, Hl0. exact Ht2. }
  exists w2. split.
  - intros fuel Hf1 Hf2.
    rewrite (read_fluorescence_eq fuel excitation emission focal_height focus)
      by assumption.
    unfold bind at 1. rewrite (Hrun0 fuel) by (simpl; lia).
    unfold bind at 1. rewrite (Hrun1 fuel) by lia.
    change (bytes_eqb ((ACK_byte :: encode "0000") ++ [ETX_byte]) ack_0000)
      with true. cbv iota.
    unfold bind. rewrite (Hrun2 fuel Hf2).
    destruct (_parse_body F float_decode (body ++ [ETX_byte])); reflexivity.
  - destruct (port_after_trans _ _ _ _ _ _ _ _ _
                (port_after_trans _ _ _ _ _ _ _ _ _ P0 P1) P2)
      as (_ & _ & Htx & _).
    exact Htx.
Qed.

(** C2.  The checksum that [read_fluorescence] sends is the decimal text of
    [(sum(body) + 7) mod 100] and the one that the shake task sends is that
    of [(sum(body) + 73) mod 100]: on a device that answers in time, the
    parameter written after [D] is the body followed by this checksum and
    ETX, in the read and in the first turn of a task created by [shake].
    Neither checksum is the one without offset, nor the one with the other
    offset. *)
Theorem checksum_offsets
    (excitation emission : Z) (focal_height : Q) (focus : Z) (w : World)
    (r0 r1 r2 body : bytes)
    (ws : World) (i : nat) (t : Task) (s1 s2 s3 rest : bytes) :
  (45 # 10 <= focal_height /\ focal_height <= 1388 # 100)%Q ->
  250 <= excitation <= 700 ->
  250 <= emission <= 700 ->
  python_int (Times (Number 1000) (Number focal_height)) = Ok focus ->
  0 <= read_latency w ->
  sends w (([ACK_byte] ++ r0 ++ [ETX_byte])
           ++ sequence_answers r1 r2 (ACK_byte :: encode "0000")
           ++ body ++ [ETX_byte]) ->
  free_of ETX_byte r0 = true ->
  free_of ETX_byte r1 = true ->
  free_of ETX_byte r2 = true ->
  free_of ETX_byte body = true ->
  Z.of_nat (S (S (List.length r0))
            + List.length (sequence_answers r1 r2 (ACK_byte :: encode "0000")))
    * read_latency w <= timeout w ->
  Z.of_nat (S (List.length body)) * read_latency w <= 60 * 2 * 1000 ->
  nth_error (tasks ws) i = Some t ->
  task_status t = Created ->
  _shaking ws = true ->
  0 <= read_latency ws ->
  sends ws (sequence_answers s1 s2 s3 ++ rest) ->
  free_of ETX_byte s1 = true ->
  free_of ETX_byte s2 = true ->
  free_of ETX_byte s3 = true ->
  Z.of_nat (List.length (sequence_answers s1 s2 s3)) * read_latency ws
    <= timeout ws ->
  let fb := fluorescence_body excitation emission in
  let sb := shake_body (task_shake_type t) in
  (exists w',
     (forall fuel,
        (S (S (List.length r0))
         + List.length (sequence_answers r1 r2 (ACK_byte :: encode "0000"))
         < fuel)%nat ->
        (List.length body < fuel)%nat ->
        read_fluorescence F float_decode python_int fuel excitation emission
          focal_height w
        = (match _parse_body F float_decode (body ++ [ETX_byte]) with
           | Ok m => Returns m
           | Raise e => Raises e
           end, w'))
     /\ tx (dev w')
        = tx (dev w)
          ++ [encode "t"; encode (str (614220 + focus) ++ ETX_str)%string;
              encode "y"; encode priming_parameter; encode "D";
              encode (fb ++ str ((sum (encode fb) + 7) mod 100)
                         ++ ETX_str)%string;
              encode "O"])
  /\ (exists ws',
        (forall fuel, (List.length (sequence_answers s1 s2 s3) < fuel)%nat ->
           run_task fuel i ws = (Returns tt, ws'))
        /\ tx (dev ws')
           = tx (dev ws)
             ++ [encode "y"; encode shake_priming_parameter; encode "D";
                 encode (sb ++ str ((sum (encode sb) + 73) mod 100)
                            ++ ETX_str)%string;
                 encode "O"])
  /\ 0 <= (sum (encode fb) + 7) mod 100 < 100
  /\ 0 <= (sum (encode sb) + 73) mod 100 < 100
  /\ str ((sum (encode fb) + 7) mod 100) <> str (sum (encode fb) mod 100)
  /\ str ((sum (encode sb) + 73) mod 100) <> str (sum (encode sb) mod 100)
  /\ str ((sum (encode fb) + 7) mod 100)
     <> str ((sum (encode fb) + 73) mod 100)
  /\ str ((sum (encode sb) + 73) mod 100)
     <> str ((sum (encode sb) + 7) mod 100).
Proof.
  intros Hfocal Hx He Hfocus Hlat Hsends H0 H1 H2 Hb Ht1 Ht2
    Ht Hcreated Hflag Hlats Hsendss Hs1 Hs2 Hs3 Hts fb sb.
  split; [|split].
  - destruct (read_fluorescence_run excitation emission focal_height focus w
                r0 r1 r2 body) as (w' & Hrun & Htx); trivial.
    exists w'. split; [exact Hrun | exact Htx].
  - destruct (shake_round_run ws i t s1 s2 s3 rest) as (ws' & Hrun & Htx & _);
      trivial.
    exists ws'. split; [|exact Htx].
    intros fuel Hfuel. unfold run_task. rewrite Ht, Hcreated.
    exact (Hrun fuel Hfuel).
  - destruct (checksum_arithmetic excitation emission (task_shake_type t))
      as (_ & _ & A1 & A2 & A3 & A4 & A5 & A6).
    repeat split; trivial; first [apply A1 | apply A2].
Qed.

End ChecksumProperties.

(* ================================================================= *)
(** ** Further properties: what the exchanges leave untouched *)

Lemma read_until_loop_backend (char : bytes) (limit t0 : Z) :
  forall (fuel : nat) (res : bytes) (w : World),
    same_backend w (snd (read_until_loop fuel char limit t0 res w)).
Proof.
  induction fuel as [|fuel IH]; intros res w; [apply same_backend_refl|].
  rewrite read_until_loop_step. cbv zeta.
  set (w1 := with_clock (clock w + read_latency w)
               (with_dev (after_read (dev w)) w)).
  set (w2 := if bytes_eqb (next_read (dev w)) []
             then with_clock (clock w1 + 10) w1 else w1).
  assert (P2 : same_backend w w2).
  { unfold same_backend, w2, w1.
    destruct (bytes_eqb (next_read (dev w)) []); simpl; now repeat split. }
  destruct (clock w + read_latency w - t0 >? limit).
  - unfold same_backend, w1. simpl. now repeat split.
  - destruct (bytes_eqb (next_read (dev w)) char).
    + unfold same_backend in *. simpl. exact P2.
    + exact (same_backend_trans _ _ _ P2 (IH _ w2)).
Qed.

Lemma read_until_backend (fuel : nat) (char : bytes) (time_limit : option Z)
    (w : World) :
  same_backend w (snd (_read_until fuel char time_limit w)).
Proof.
  unfold _read_until, bind, get, time_time. cbv beta iota zeta.
  apply read_until_loop_backend.
Qed.

Lemma command_sent_backend (command : string) (w : World) :
  same_backend w (command_sent command w).
Proof. apply command_sent_port. Qed.

Lemma parameter_sent_backend (parameter : string) (w : World) :
  same_backend w (parameter_sent parameter w).
Proof. apply parameter_sent_port. Qed.

(** [send_command] leaves the camera, the cache, the shake session and the
    settings alone, however it ends. *)
Lemma send_command_backend (fuel : nat) (command : string)
    (parameter : option string) (wait_for_response : bool) (w : World) :
  same_backend w
    (snd (send_command fuel command parameter wait_for_response w)).
Proof.
  pose proof (command_sent_backend command w) as B0.
  destruct parameter as [p|]; destruct wait_for_response.
  - rewrite send_command_exchange_eq.
    pose proof (read_until_backend fuel [ACK_byte] None
                  (command_sent command w)) as B1.
    destruct (_read_until fuel [ACK_byte] None (command_sent command w))
      as [[r|e|] w1]; simpl snd in B1;
      try exact (same_backend_trans _ _ _ B0 B1).
    pose proof (read_until_backend fuel [ETX_byte] None
                  (parameter_sent p w1)) as B3.
    pose proof (same_backend_trans _ _ _
                  (same_backend_trans _ _ _
                     (same_backend_trans _ _ _ B0 B1)
                     (parameter_sent_backend p w1)) B3) as B.
    destruct (_read_until fuel [ETX_byte] None (parameter_sent p w1))
      as [[r'|e|] w']; exact B.
  - rewrite send_command_parameter_no_wait_eq.
    pose proof (read_until_backend fuel [ACK_byte] None
                  (command_sent command w)) as B1.
    destruct (_read_until fuel [ACK_byte] None (command_sent command w))
      as [[r|e|] w1]; simpl snd in B1;
      exact (same_backend_trans _ _ _ B0 B1).
  - rewrite send_command_query_eq.
    pose proof (read_until_backend fuel [ETX_byte] None
                  (command_sent command w)) as B1.
    pose proof (same_backend_trans _ _ _ B0 B1) as B.
    destruct (_read_until fuel [ETX_byte] None (command_sent command w))
      as [[r|e|] w1]; exact B.
  - rewrite send_command_no_wait_eq. exact B0.
Qed.

Lemma Setting_eqb_refl (v : Setting) : Setting_eqb v v = true.
Proof.
  destruct v as [q|s]; simpl; [apply Qeq_bool_refl | apply String.eqb_refl].
Qed.

Lemma ImagingMode_eqb_refl (m : ImagingMode) : ImagingMode_eqb m m = true.
Proof. destruct m; simpl; trivial. apply Nat.eqb_refl. Qed.

Lemma keeps_bind {A B : Type} (R : World -> World -> Prop)
    (m : M A) (k : A -> M B) :
  (forall a b c, R a b -> R b c -> R a c) ->
  keeps R m -> (forall a, keeps R (k a)) -> keeps R (bind m k).
Proof.
  intros Htrans Hm Hk w. unfold bind. specialize (Hm w).
  destruct (m w) as [[a|e|] w1]; simpl in *; trivial.
  exact (Htrans _ _ _ Hm (Hk a w1)).
Qed.

Lemma keeps_ret {A : Type} (R : World -> World -> Prop) (a : A) :
  (forall w, R w w) -> keeps R (ret a).
Proof. intros H w. apply H. Qed.

Lemma keeps_raise {A : Type} (R : World -> World -> Prop) (e : exn) :
  (forall w, R w w) -> keeps R (@raise A e).
Proof. intros H w. apply H. Qed.

Lemma keeps_lift {A : Type} (R : World -> World -> Prop) (r : result A) :
  (forall w, R w w) -> keeps R (lift r).
Proof. intros H w. destruct r; apply H. Qed.

Lemma keeps_get {A : Type} (R : World -> World -> Prop) (f : World -> A) :
  (forall w, R w w) -> keeps R (get f).
Proof. intros H w. apply H. Qed.

Lemma same_camera_refl (w : World) : same_camera w w.
Proof. now split. Qed.

Lemma same_camera_trans (a b c : World) :
  same_camera a b -> same_camera b c -> same_camera a c.
Proof. unfold same_camera. intros [? ?] [? ?]. split; congruence. Qed.

Lemma same_device_refl (w : World) : same_device w w.
Proof. now split. Qed.

Lemma same_device_trans (a b c : World) :
  same_device a b -> same_device b c -> same_device a c.
Proof. unfold same_device. intros [? ?] [? ?]. split; congruence. Qed.

Lemma same_cache_refl (w : World) : same_cache w w.
Proof. reflexivity. Qed.

Lemma same_cache_trans (a b c : World) :
  same_cache a b -> same_cache b c -> same_cache a c.
Proof. unfold same_cache. congruence. Qed.

Lemma send_command_keeps_camera (fuel : nat) (command : string)
    (parameter : option string) (wait_for_response : bool) :
  keeps same_camera (send_command fuel command parameter wait_for_response).
Proof.
  intros w.
  destruct (send_command_backend fuel command parameter wait_for_response w)
    as (H1 & H2 & _).
  now split.
Qed.

Lemma send_command_keeps_cache (fuel : nat) (command : string)
    (parameter : option string) (wait_for_response : bool) :
  keeps same_cache (send_command fuel command parameter wait_for_response).
Proof.
  intros w.
  destruct (send_command_backend fuel command parameter wait_for_response w)
    as (_ & _ & H & _).
  exact H.
Qed.

Lemma logger_debug_keeps (R : World -> World -> Prop) (f : string)
    (a : list pyarg) :
  (forall w l, R w (with_log l w)) -> keeps R (logger_debug f a).
Proof. intros H w. apply H. Qed.

Lemma update_cache_keeps_camera (f : Cache -> Cache) :
  keeps same_camera (update_cache f).
Proof. intros w. now split. Qed.

Lemma update_cache_keeps_device (f : Cache -> Cache) :
  keeps same_device (update_cache f).
Proof. intros w. now split. Qed.

Lemma sdk_keeps_device (c : sdk_call) : keeps same_device (sdk c).
Proof. intros w. now split. Qed.

Ltac keeps_camera :=
  repeat first
    [ apply send_command_keeps_camera
    | apply update_cache_keeps_camera
    | apply keeps_bind; [exact same_camera_trans | | intros ?]
    | apply logger_debug_keeps; intros; now split
    | apply keeps_ret; exact same_camera_refl
    | apply keeps_raise; exact same_camera_refl
    | apply keeps_get; exact same_camera_refl
    | apply keeps_lift; exact same_camera_refl
    | match goal with
      | |- keeps _ (if ?b then _ else _) => destruct b
      | |- keeps _ (match ?x with _ => _ end) => destruct x
      end ].

Ltac keeps_device :=
  repeat first
    [ apply sdk_keeps_device
    | apply update_cache_keeps_device
    | apply keeps_bind; [exact same_device_trans | | intros ?]
    | apply logger_debug_keeps; intros; now split
    | apply keeps_ret; exact same_device_refl
    | apply keeps_raise; exact same_device_refl
    | apply keeps_get; exact same_device_refl
    | apply keeps_lift; exact same_device_refl
    | match goal with
      | |- keeps _ (if ?b then _ else _) => destruct b
      | |- keeps _ (match ?x with _ => _ end) => destruct x
      end ].

Ltac keeps_cache :=
  repeat first
    [ apply send_command_keeps_cache
    | apply keeps_bind; [exact same_cache_trans | | intros ?]
    | apply logger_debug_keeps; intros; reflexivity
    | apply keeps_ret; exact same_cache_refl
    | apply keeps_raise; exact same_cache_refl
    | apply keeps_get; exact same_cache_refl
    | apply keeps_lift; exact same_cache_refl
    | match goal with
      | |- keeps _ (if ?b then _ else _) => destruct b
      | |- keeps _ (match ?x with _ => _ end) => destruct x
      end ].

Lemma led_on_keeps_camera (fuel : nat) (intensity : Z) :
  keeps same_camera (led_on fuel intensity).
Proof. unfold led_on. keeps_camera. Qed.

Lemma led_on_keeps_cache (fuel : nat) (intensity : Z) :
  keeps same_cache (led_on fuel intensity).
Proof. unfold led_on. keeps_cache. Qed.

Lemma led_off_keeps_camera (fuel : nat) : keeps same_camera (led_off fuel).
Proof. unfold led_off. keeps_camera. Qed.

Lemma set_auto_exposure_keeps_device (auto_exposure : string) :
  keeps same_device (set_auto_exposure auto_exposure).
Proof. unfold set_auto_exposure. keeps_device. Qed.

Section SetterProperties.

Variable python_int : arith -> result Z.

(** X15.  Selecting a well, focusing, switching the LED and the imaging mode use
    the serial device only: however they end, the camera is as it was and no
    call into its SDK was made. *)
Theorem instrument_setters_keep_camera (fuel : nat) :
  (forall row column, keeps same_camera (select fuel row column))
  /\ (forall focal_position, keeps same_camera (set_focus python_int fuel focal_position))
  /\ (forall mode, keeps same_camera (set_imaging_mode fuel mode))
  /\ (forall intensity, keeps same_camera (led_on fuel intensity))
  /\ keeps same_camera (led_off fuel).
Proof.
  split; [|split; [|split; [|split]]].
  - intros row column. unfold select. keeps_camera.
  - intros v. unfold set_focus, auto_focus. keeps_camera.
  - intros mode. unfold set_imaging_mode.
    keeps_camera; try apply led_off_keeps_camera;
      try apply led_on_keeps_camera.
  - apply led_on_keeps_camera.
  - apply led_off_keeps_camera.
Qed.

(** X16.  Setting the exposure or the gain uses the camera only: however the
    call ends, nothing was read from or written to the serial device and no
    time was spent waiting. *)
Theorem camera_setters_keep_device :
  (forall exposure, keeps same_device (set_exposure python_int exposure))
  /\ (forall gain, keeps same_device (set_gain gain))
  /\ (forall auto_exposure, keeps same_device (set_auto_exposure auto_exposure)).
Proof.
  split; [|split].
  - intros v. unfold set_exposure.
    keeps_device; apply set_auto_exposure_keeps_device.
  - intros v. unfold set_gain. keeps_device.
  - apply set_auto_exposure_keeps_device.
Qed.

(* ================================================================= *)
(** ** Further properties: the setters and the cache *)

Lemma returned_after {A B : Type} (m : M A) (k : A -> M B) (w w2 : World)
    (b : B) :
  bind m k w = (Returns b, w2) ->
  exists a w1, m w = (Returns a, w1) /\ k a w1 = (Returns b, w2).
Proof.
  unfold bind. destruct (m w) as [[a|e|] w1]; try discriminate.
  intros H. now exists a, w1.
Qed.

Lemma select_returned (fuel : nat) (row column : Z) (w w1 : World) :
  select fuel row column w = (Returns tt, w1) ->
  requested_is_cached (Select row column) (cache w1) = true.
Proof.
  unfold select. intros H.
  apply returned_after in H as (c & w0 & Hget & H).
  inversion Hget; subst c w0; clear Hget.
  destruct (int_cached_eqb row (_row (cache w))
            && int_cached_eqb column (_column (cache w)))%bool eqn:Hc.
  - inversion H; subst. exact Hc.
  - apply returned_after in H as (? & ? & _ & H).
    apply returned_after in H as (? & ? & _ & H).
    inversion H; subst. simpl. now rewrite !Z.eqb_refl.
Qed.

Lemma set_focus_returned (fuel : nat) (v : Setting) (w w1 : World) :
  set_focus python_int fuel v w = (Returns tt, w1) ->
  requested_is_cached (SetFocus v) (cache w1) = true.
Proof.
  unfold set_focus. intros H.
  apply returned_after in H as (c & w0 & Hget & H).
  inversion Hget; subst c w0; clear Hget.
  destruct (cached_eqb v (_focal_height (cache w))) eqn:Hc.
  - inversion H; subst. exact Hc.
  - destruct v as [q|s].
    + apply returned_after in H as (? & ? & _ & H).
      apply returned_after in H as (? & ? & _ & H).
      apply returned_after in H as (? & ? & _ & H).
      inversion H; subst. simpl. apply Qeq_bool_refl.
    + destruct (String.eqb s "auto"); discriminate.
Qed.

Lemma set_gain_returned (v : Setting) (w w1 : World) :
  set_gain v w = (Returns tt, w1) ->
  requested_is_cached (SetGain v) (cache w1) = true /\ cam w1 <> None.
Proof.
  unfold set_gain. intros H.
  apply returned_after in H as (c & w0 & Hget & H).
  inversion Hget; subst c w0; clear Hget.
  destruct (cam w) as [camera|] eqn:Hcam; [|discriminate].
  apply returned_after in H as (c & w0 & Hget & H).
  inversion Hget; subst c w0; clear Hget.
  destruct (cached_eqb v (_gain (cache w))) eqn:Hc.
  - inversion H; subst. simpl. rewrite Hcam. split; [exact Hc | discriminate].
  - assert (Hfinal : forall (m : M unit) w0,
              keeps same_device m ->
              cam w0 = cam w ->
              (forall w', cam (snd (m w')) = cam w') ->
              (m ;; update_cache (set_cached_gain (Some v))) w0
              = (Returns tt, w1) ->
              requested_is_cached (SetGain v) (cache w1) = true
              /\ cam w1 <> None).
    { intros m w0 _ Hc0 Hm Hr.
      apply returned_after in Hr as (? & w2 & Hm2 & Hr).
      inversion Hr; subst. simpl. rewrite Setting_eqb_refl.
      split; [reflexivity|].
      specialize (Hm w0). rewrite Hm2 in Hm. simpl in Hm.
      rewrite Hm, Hc0, Hcam. discriminate. }
    destruct v as [q|s].
    + destruct (Qle_bool 0 q && Qle_bool q 30)%bool; [|discriminate].
      destruct (negb (GainAuto_readable camera && GainAuto_writable camera));
        [discriminate|].
      cbn [is_auto] in H.
      destruct (negb (GainAuto_Off_readable camera)); [discriminate|].
      apply returned_after in H as (? & w2 & Hsdk & H).
      inversion Hsdk; subst; clear Hsdk.
      refine (Hfinal _ _ _ _ _ H).
      * keeps_device.
      * reflexivity.
      * intros w'.
        destruct (negb (Gain_readable camera) || negb (Gain_writable camera)
                  || Qeq_bool (Gain_max camera) 0)%bool; [reflexivity|].
        destruct (Qlt_bool q (Gain_min camera)); [reflexivity|].
        destruct (Qlt_bool (Gain_max camera) q); reflexivity.
    + destruct (String.eqb s "auto") eqn:Hs; [|discriminate].
      destruct (negb (GainAuto_readable camera && GainAuto_writable camera));
        [discriminate|].
      cbn [is_auto] in H. rewrite Hs in H.
      destruct (negb (GainAuto_Continuous_readable camera)); [discriminate|].
      apply returned_after in H as (? & w2 & Hsdk & H).
      inversion Hsdk; subst; clear Hsdk.
      refine (Hfinal _ _ _ _ _ H).
      * keeps_device.
      * reflexivity.
      * reflexivity.
Qed.

Lemma set_imaging_mode_keeps_camera (fuel : nat) (mode : ImagingMode) :
  keeps same_camera (set_imaging_mode fuel mode).
Proof.
  unfold set_imaging_mode.
  keeps_camera; try apply led_off_keeps_camera; try apply led_on_keeps_camera.
Qed.

Lemma set_imaging_mode_returned (fuel : nat) (mode : ImagingMode)
    (w w1 : World) :
  set_imaging_mode fuel mode w = (Returns tt, w1) ->
  requested_is_cached (SetImagingMode mode) (cache w1) = true
  /\ cam w1 <> None.
Proof.
  intros H.
  pose proof (set_imaging_mode_keeps_camera fuel mode w) as [Hc _].
  rewrite H in Hc. cbn [snd] in Hc.
  unfold set_imaging_mode in H.
  apply returned_after in H as (c & w0 & Hget & H).
  inversion Hget; subst c w0; clear Hget.
  destruct (cam w) as [camera|] eqn:Hcam; [|discriminate].
  split; [|rewrite Hc; discriminate].
  apply returned_after in H as (c & w0 & Hget & H).
  inversion Hget; subst c w0; clear Hget.
  destruct (mode_cached_eqb mode (_imaging_mode (cache w))) eqn:Hm.
  - inversion H; subst. exact Hm.
  - destruct (ImagingMode_eqb mode COLOR_BRIGHTFIELD); [discriminate|].
    apply returned_after in H as (? & w2 & _ & H).
    apply returned_after in H as (? & w3 & _ & H).
    apply returned_after in H as (? & w4 & Hupd & H).
    inversion Hupd; subst; clear Hupd.
    pose proof (led_on_keeps_cache fuel 10
                  (with_cache (set_cached_imaging_mode (Some mode) (cache w3))
                     w3)) as Hk.
    rewrite H in Hk. unfold same_cache in Hk. cbn [snd cache with_cache] in Hk.
    unfold requested_is_cached. rewrite Hk.
    cbn [_imaging_mode set_cached_imaging_mode mode_cached_eqb].
    apply ImagingMode_eqb_refl.
Qed.

(** Whichever of the five setters has returned, the value it was asked for
    is the cached one afterwards. *)
Lemma setter_returned_caches (fuel : nat) (c : setter_call) (w w1 : World) :
  call_setter python_int fuel c w = (Returns tt, w1) ->
  requested_is_cached c (cache w1) = true
  /\ (checks_camera_first c = true -> cam w1 <> None).
Proof.
  destruct c as [v|v|v|m|row column]; simpl call_setter; intros H.
  - split; [|discriminate].
    exact (proj1 (set_exposure_returns_caches python_int v w w1 H)).
  - split; [|discriminate]. exact (set_focus_returned fuel v w w1 H).
  - destruct (set_gain_returned v w w1 H). now split.
  - destruct (set_imaging_mode_returned fuel m w w1 H). now split.
  - split; [|discriminate]. exact (select_returned fuel row column w w1 H).
Qed.

(** X17.  After a call of a setter that returned, the same call again returns
    without any exchange: the serial device, the camera, the calls into the
    SDK and the cache stay as the first call left them. *)
Theorem setter_repeated_is_silent
    (fuel fuel' : nat) (c : setter_call) (w w1 : World) :
  call_setter python_int fuel c w = (Returns tt, w1) ->
  fst (call_setter python_int fuel' c w1) = Returns tt
  /\ only_logged w1 (snd (call_setter python_int fuel' c w1)).
Proof.
  intros H.
  destruct (setter_returned_caches fuel c w w1 H) as [Hc Hcam].
  destruct (cached_call_outcome python_int fuel' c w1 Hc) as [Hlog [Hret | (Hf & Hn & _)]].
  - now split.
  - exfalso. exact (Hcam Hf Hn).
Qed.

Lemma Qlt_bool_true (x y : Q) : (x < y)%Q -> Qlt_bool x y = true.
Proof.
  intros H. unfold Qlt_bool. apply negb_true_iff.
  destruct (Qle_bool y x) eqn:E; [|reflexivity].
  apply Qle_bool_iff in E. exfalso. exact (Qlt_not_le _ _ H E).
Qed.

Lemma Qlt_bool_false (x y : Q) : (y <= x)%Q -> Qlt_bool x y = false.
Proof.
  intros H. unfold Qlt_bool. apply negb_false_iff. now apply Qle_bool_iff.
Qed.

(** X18.  A number given to [set_exposure] whose value in microseconds,
    [int(exposure * 1000)] as Python computes it, is below the minimum or
    above the maximum of the camera: [ValueError]; the automatic exposure
    has been switched off all the same, and the cache is as it was. *)
Theorem set_exposure_refused
    (q : Q) (us : Z) (w : World) (camera : Camera) :
  cam w = Some camera ->
  cached_eqb (Num q) (_exposure (cache w)) = false ->
  ExposureTime_access camera = RW ->
  python_int (Times (Number q) (Number 1000)) = Ok us ->
  (inject_Z us < ExposureTime_min camera
   \/ ExposureTime_max camera < inject_Z us)%Q ->
  exists msg w',
    set_exposure python_int (Num q) w = (Raises (ValueError msg), w')
    /\ sdk_calls w' = sdk_calls w ++ [ExposureAuto_SetValue Auto_Off]
    /\ cache w' = cache w
    /\ dev w' = dev w.
Proof.
  intros Hcam Hc Hrw Hus Hout.
  unfold set_exposure. unfold bind, get. cbv beta iota. rewrite Hc.
  cbv beta iota. rewrite Hcam. unfold sdk, modify. cbv beta iota.
  rewrite Hrw. cbn [is_RW negb]. rewrite Hus. cbn [lift]. unfold ret.
  destruct (Qlt_bool (inject_Z us) (ExposureTime_min camera)) eqn:E1.
  - eexists. eexists. split; [reflexivity|]. now repeat split.
  - destruct Hout as [Hlt | Hgt].
    + rewrite (Qlt_bool_true _ _ Hlt) in E1. discriminate.
    + rewrite (Qlt_bool_true _ _ Hgt).
      eexists. eexists. split; [reflexivity|]. now repeat split.
Qed.

(** X19.  A number the camera accepts: automatic exposure is switched off,
    the exposure time is set to [int(exposure * 1000)] microseconds, the
    integer Python computes, and the value is cached. *)
Theorem set_exposure_sets (q : Q) (us : Z) (w : World) (camera : Camera) :
  cam w = Some camera ->
  cached_eqb (Num q) (_exposure (cache w)) = false ->
  ExposureTime_access camera = RW ->
  python_int (Times (Number q) (Number 1000)) = Ok us ->
  (ExposureTime_min camera <= inject_Z us
   /\ inject_Z us <= ExposureTime_max camera)%Q ->
  exists w',
    set_exposure python_int (Num q) w = (Returns tt, w')
    /\ sdk_calls w'
       = sdk_calls w ++ [ExposureAuto_SetValue Auto_Off;
                         ExposureTime_SetValue us]
    /\ cache w' = set_cached_exposure (Some (Num q)) (cache w)
    /\ dev w' = dev w.
Proof.
  intros Hcam Hc Hrw Hus [Hlo Hhi].
  unfold set_exposure. unfold bind, get. cbv beta iota. rewrite Hc.
  cbv beta iota. rewrite Hcam. unfold sdk, modify. cbv beta iota.
  rewrite Hrw. cbn [is_RW negb]. rewrite Hus. cbn [lift]. unfold ret.
  rewrite (Qlt_bool_false _ _ Hlo), (Qlt_bool_false _ _ Hhi).
  eexists. split; [reflexivity|]. cbn. rewrite <- app_assoc.
  now repeat split.
Qed.

(** X20.  A gain outside [0, 30] is refused before the camera is touched. *)
Theorem set_gain_out_of_range (q : Q) (w : World) :
  cam w <> None ->
  cached_eqb (Num q) (_gain (cache w)) = false ->
  (q < 0 \/ 30 < q)%Q ->
  set_gain (Num q) w
  = (Raises (ValueError
               "gain must be between 0 and 30 (inclusive), or 'auto'"), w).
Proof.
  intros Hcam Hc Hout. unfold set_gain. unfold bind, get. cbv beta iota.
  destruct (cam w) as [camera|]; [|contradiction]. rewrite Hc.
  assert (E : (Qle_bool 0 q && Qle_bool q 30)%bool = false).
  { apply andb_false_iff. destruct Hout as [H | H].
    - left. destruct (Qle_bool 0 q) eqn:E; [|reflexivity].
      apply Qle_bool_iff in E. exfalso. exact (Qlt_not_le _ _ H E).
    - right. destruct (Qle_bool q 30) eqn:E; [|reflexivity].
      apply Qle_bool_iff in E. exfalso. exact (Qlt_not_le _ _ H E). }
  now rewrite E.
Qed.

(** X21.  An accepted gain: the automatic gain is switched off and the gain set;
    ["auto"] switches the automatic gain to continuous and sets nothing
    else.  The value is cached. *)
Theorem set_gain_sets (gain : Setting) (w : World) (camera : Camera) :
  cam w = Some camera ->
  cached_eqb gain (_gain (cache w)) = false ->
  GainAuto_readable camera = true ->
  GainAuto_writable camera = true ->
  match gain with
  | Num q =>
      GainAuto_Off_readable camera = true
      /\ Gain_readable camera = true /\ Gain_writable camera = true
      /\ ~ (Gain_max camera == 0)%Q
      /\ (0 <= q /\ q <= 30)%Q
      /\ (Gain_min camera <= q /\ q <= Gain_max camera)%Q
  | Text s => s = "auto" /\ GainAuto_Continuous_readable camera = true
  end ->
  exists w',
    set_gain gain w = (Returns tt, w')
    /\ sdk_calls w'
       = sdk_calls w
         ++ match gain with
            | Num q => [GainAuto_SetIntValue Auto_Off; Gain_SetValue q]
            | Text _ => [GainAuto_SetIntValue Auto_Continuous]
            end
    /\ cache w' = set_cached_gain (Some gain) (cache w)
    /\ dev w' = dev w.
Proof.
  intros Hcam Hc Hr Hw Hgain.
  unfold set_gain. unfold bind, get. cbv beta iota.
  rewrite Hcam, Hc, Hr, Hw. cbn [andb negb].
  destruct gain as [q|s].
  - destruct Hgain as (Hoff & Hgr & Hgw & Hmax & [H0 H30] & [Hmin Hmx]).
    apply Qle_bool_iff in H0, H30. rewrite H0, H30. cbn [andb is_auto].
    rewrite Hoff, Hgr, Hgw. cbn [negb orb].
    destruct (Qeq_bool (Gain_max camera) 0) eqn:E.
    { apply Qeq_bool_iff in E. contradiction. }
    unfold sdk, modify. cbv beta iota.
    rewrite (Qlt_bool_false _ _ Hmin), (Qlt_bool_false _ _ Hmx).
    eexists. split; [reflexivity|]. cbn. rewrite <- app_assoc.
    now repeat split.
  - destruct Hgain as [-> Hcont]. cbn [String.eqb is_auto].
    change ("auto" =? "auto")%string with true. cbv beta iota.
    rewrite Hcont. cbn [negb].
    eexists. split; [reflexivity|]. now repeat split.
Qed.

(** X22.  [select] of a well that is not the cached one, on a device that
    acknowledges both commands at once and answers them in time: the two
    exchanges carry the fixed position command and the well, each index
    padded to two digits, and the well is cached. *)
Theorem select_exchanges
    (row column : Z) (w : World) (r1 r2 rest : bytes) :
  (int_cached_eqb row (_row (cache w))
   && int_cached_eqb column (_column (cache w)))%bool = false ->
  0 <= read_latency w ->
  sends w (([ACK_byte] ++ r1 ++ [ETX_byte])
           ++ ([ACK_byte] ++ r2 ++ [ETX_byte]) ++ rest) ->
  free_of ETX_byte r1 = true ->
  free_of ETX_byte r2 = true ->
  Z.of_nat (S (List.length r1)) * read_latency w <= timeout w ->
  Z.of_nat (S (List.length r2)) * read_latency w <= timeout w ->
  exists w',
    (forall fuel, (List.length r1 < fuel)%nat -> (List.length r2 < fuel)%nat ->
       select fuel row column w = (Returns tt, w'))
    /\ tx (dev w')
       = tx (dev w)
         ++ [encode "Y"; encode "Z1260101000000000000"; encode "Y";
             encode ("W6" ++ zfill 2 (str row) ++ zfill 2 (str column))%string]
    /\ rx_count (dev w')
       = (rx_count (dev w) + S (S (List.length r1)) + S (S (List.length r2)))%nat
    /\ _row (cache w') = Some row
    /\ _column (cache w') = Some column
    /\ same_camera w w'.
Proof.
  intros Hc Hlat Hsends H1 H2 Ht1 Ht2.
  destruct (sends_app w _ _ Hsends) as [Hs1 _].
  assert (Ht0 : Z.of_nat 1 * read_latency w <= timeout w).
  { refine (within_time 1 _ _ _ Hlat _ Ht1). lia. }
  destruct (send_command_exchange_run "Y" "Z1260101000000000000" w [] r1
              Hlat Hs1 eq_refl H1 Ht0 Ht1) as (w1 & Hrun1 & P1).
  assert (Hs2 : sends w1 (([] ++ [ACK_byte] ++ r2 ++ [ETX_byte]) ++ rest)).
  { apply (port_after_sends w w1 _ _ _ _ _ P1) in Hsends; [exact Hsends|].
    rewrite !length_app. simpl. lia. }
  destruct (sends_app w1 _ _ Hs2) as [Hs2a _].
  destruct (port_after_settings _ _ _ _ _ P1) as [Hl1 Htm1].
  destruct (send_command_exchange_run "Y"
              ("W6" ++ zfill 2 (str row) ++ zfill 2 (str column))%string
              w1 [] r2 (port_after_latency _ _ _ _ _ P1 Hlat) Hs2a eq_refl H2)
    as (w2 & Hrun2 & P2); [rewrite Hl1, Htm1; exact Ht0
                          | rewrite Hl1, Htm1; exact Ht2 |].
  pose proof (port_after_trans _ _ _ _ _ _ _ _ _ P1 P2) as P.
  destruct P as (Hsb & Hcnt & Htx & _).
  exists (with_cache (set_cached_well (Some row) (Some column) (cache w2)) w2).
  split; [|split; [|split; [|split; [|split]]]].
  - intros fuel Hf1 Hf2. unfold select. unfold bind at 1. unfold get at 1.
    cbv beta iota. rewrite Hc. unfold bind.
    rewrite (Hrun1 fuel) by (simpl; lia).
    rewrite (Hrun2 fuel) by (simpl; lia). reflexivity.
  - simpl. exact Htx.
  - simpl. rewrite Hcnt. simpl. lia.
  - reflexivity.
  - reflexivity.
  - destruct Hsb as (A & B & _). now split.
Qed.

End SetterProperties.

(* ================================================================= *)
(** ** Further properties: capture *)

Lemma same_but_log_with_log (l : list log_record) (w : World) :
  same_but_log (with_log l w) w.
Proof. reflexivity. Qed.



Lemma only_logged_same_but_log (w w' : World) :
  only_logged w w' -> same_but_log w' w.
Proof. unfold only_logged, same_but_log. intros ->. reflexivity. Qed.


Section AcquisitionAndLog.

Variable F : Type.
Variable ImageProcessor_Convert : Z -> Z -> Image -> list (list F).
Variable python_int : arith -> result Z.





End AcquisitionAndLog.

(* ================================================================= *)
(** ** Further properties: the queries *)

Lemma inner_reply (r : bytes) : inner (r ++ [ETX_byte]) = tl r.
Proof.
  unfold inner, slice. rewrite length_app. simpl List.length.
  replace (List.length r + 1 - 1)%nat with (List.length r + 0)%nat by lia.
  rewrite firstn_app_2. simpl firstn. rewrite app_nil_r.
  now destruct r.
Qed.

Lemma text_split_not_nil (sep : N) (s : text) : text_split sep s <> [].
Proof.
  induction s as [|c s IH]; simpl; [discriminate|].
  destruct (N.eqb c sep); [discriminate|].
  destruct (text_split sep s); [contradiction | discriminate].
Qed.

(** Joining undoes splitting. *)
Lemma text_join_split (sep : N) (s : text) :
  text_join [sep] (text_split sep s) = s.
Proof.
  induction s as [|c s IH]; [reflexivity|].
  simpl text_split. destruct (N.eqb_spec c sep) as [->|Hne].
  - pose proof (text_split_not_nil sep s) as Hnn.
    destruct (text_split sep s) as [|p ps]; [contradiction|].
    change (text_join [sep] ([] :: p :: ps))
      with (sep :: text_join [sep] (p :: ps)).
    now rewrite IH.
  - pose proof (text_split_not_nil sep s) as Hnn.
    destruct (text_split sep s) as [|p ps]; [contradiction|].
    rewrite <- IH. destruct ps; reflexivity.
Qed.

Lemma text_split_length (sep : N) (s : text) :
  List.length (text_split sep s) = S (count_occ N.eq_dec s sep).
Proof.
  induction s as [|c s IH]; [reflexivity|].
  simpl text_split. simpl count_occ.
  destruct (N.eqb_spec c sep) as [->|Hne].
  - destruct (N.eq_dec sep sep) as [_|H]; [|contradiction].
    simpl. now rewrite IH.
  - destruct (N.eq_dec c sep) as [H|_]; [contradiction|].
    pose proof (text_split_not_nil sep s) as Hnn.
    destruct (text_split sep s) as [|p ps]; [contradiction|].
    simpl in *. exact IH.
Qed.

Lemma text_split_words (sep : N) (s : text) :
  Forall (fun p => count_occ N.eq_dec p sep = 0%nat) (text_split sep s).
Proof.
  induction s as [|c s IH]; [repeat constructor|].
  simpl text_split. destruct (N.eqb_spec c sep) as [->|Hne].
  - constructor; [reflexivity | exact IH].
  - pose proof (text_split_not_nil sep s) as Hnn.
    destruct (text_split sep s) as [|p ps]; [contradiction|].
    inversion IH; subst. constructor; [|assumption].
    simpl. destruct (N.eq_dec c sep); [contradiction | assumption].
Qed.

Lemma text_join_cons (sep : N) (p : text) (parts : list text) :
  parts <> [] ->
  text_join [sep] (p :: parts) = p ++ sep :: text_join [sep] parts.
Proof. destruct parts; [contradiction | reflexivity]. Qed.

(** The first [k] parts joined are the beginning of all the parts joined. *)
Lemma text_join_firstn (sep : N) (parts : list text) :
  forall k, exists rest,
    text_join [sep] parts = text_join [sep] (firstn k parts) ++ rest.
Proof.
  induction parts as [|p parts IH]; intros k.
  - exists []. now rewrite firstn_nil.
  - destruct k as [|k]; [now exists (text_join [sep] (p :: parts))|].
    destruct parts as [|q parts].
    + exists []. rewrite firstn_cons, firstn_nil. simpl.
      now rewrite app_nil_r.
    + destruct (IH k) as [rest Hrest].
      destruct k as [|k].
      * exists (sep :: text_join [sep] (q :: parts)). reflexivity.
      * exists rest.
        rewrite text_join_cons by discriminate.
        change (firstn (S (S k)) (p :: q :: parts))
          with (p :: firstn (S k) (q :: parts)).
        rewrite (text_join_cons sep p (firstn (S k) (q :: parts)))
          by (simpl; discriminate).
        rewrite Hrest, <- app_assoc. reflexivity.
Qed.

Lemma text_join_count (sep : N) (parts : list text) :
  Forall (fun p => count_occ N.eq_dec p sep = 0%nat) parts ->
  count_occ N.eq_dec (text_join [sep] parts) sep
  = Nat.pred (List.length parts).
Proof.
  induction parts as [|p parts IH]; intros H; [reflexivity|].
  inversion H as [|? ? Hp Hparts]; subst.
  destruct parts as [|q parts]; [exact Hp|].
  rewrite text_join_cons by discriminate.
  rewrite count_occ_app, Hp, count_occ_cons_eq by reflexivity.
  rewrite (IH Hparts). reflexivity.
Qed.

Lemma Forall_firstn {A : Type} (P : A -> Prop) (l : list A) :
  forall k, Forall P l -> Forall P (firstn k l).
Proof.
  induction l as [|a l IH]; intros [|k] H; simpl; try constructor.
  - now inversion H.
  - apply IH. now inversion H.
Qed.

(** What [get_firmware_version] makes of the decoded text: its beginning,
    with three separators at most, and all of it when it has no more. *)
Lemma first_words (k : nat) (sep : N) (s : text) :
  let v := text_join [sep] (firstn (S k) (text_split sep s)) in
  (exists rest, s = v ++ rest)
  /\ (count_occ N.eq_dec v sep <= k)%nat
  /\ ((count_occ N.eq_dec s sep <= k)%nat -> v = s).
Proof.
  intros v. repeat split.
  - destruct (text_join_firstn sep (text_split sep s) (S k)) as [rest H].
    exists rest. unfold v. now rewrite <- H, text_join_split.
  - unfold v. rewrite text_join_count
      by (apply Forall_firstn, text_split_words).
    rewrite length_firstn. lia.
  - intros H. unfold v. rewrite firstn_all2.
    + apply text_join_split.
    + rewrite text_split_length. lia.
Qed.

Section QueryProperties.

Variable bytes_decode : bytes -> result text.
Variable int_of_bytes : bytes -> result Z.
Variable T : Type.
Variable true_div : Z -> Z -> result T.

(** X27.  The temperature is read off the bytes between the first byte of the
    answer and the closing ETX: the integer they spell, divided by 100000;
    an exception of the conversion or of the division is the outcome. *)
Theorem get_current_temperature_reads (w : World) (r : bytes) :
  0 <= read_latency w ->
  sends w (r ++ [ETX_byte]) ->
  free_of ETX_byte r = true ->
  Z.of_nat (S (List.length r)) * read_latency w <= timeout w ->
  exists w',
    (forall fuel, (List.length r < fuel)%nat ->
       get_current_temperature int_of_bytes T true_div fuel w
       = lift (rbind (int_of_bytes (tl r)) (fun n => true_div n 100000)) w')
    /\ port_after w w' (S (List.length r)) [encode "h"] 1.
Proof.
  intros Hlat Hsends Hfree Htime.
  destruct (send_command_query_run "h" w r Hlat Hsends Hfree Htime)
    as (w' & Hrun & Hport).
  exists w'. split; [|exact Hport].
  intros fuel Hfuel. unfold get_current_temperature, bind.
  rewrite (Hrun fuel Hfuel). cbv beta iota. rewrite inner_reply.
  destruct (int_of_bytes (tl r)) as [n|e]; [|reflexivity].
  simpl. destruct (true_div n 100000); reflexivity.
Qed.

(** X28.  The serial number is the decoded run of bytes between the first byte of
    the answer and the first space. *)
Theorem get_serial_number_reads (w : World) (b : byte) (serial rest : bytes) :
  0 <= read_latency w ->
  sends w ((b :: serial ++ x20 :: rest) ++ [ETX_byte]) ->
  free_of ETX_byte (b :: serial ++ x20 :: rest) = true ->
  free_of x20 serial = true ->
  Z.of_nat (S (List.length (b :: serial ++ x20 :: rest))) * read_latency w
  <= timeout w ->
  exists w',
    (forall fuel, (List.length (b :: serial ++ x20 :: rest) < fuel)%nat ->
       get_serial_number bytes_decode fuel w = lift (bytes_decode serial) w')
    /\ port_after w w' (S (List.length (b :: serial ++ x20 :: rest)))
         [encode "C"] 1.
Proof.
  intros Hlat Hsends Hfree Hserial Htime.
  destruct (send_command_query_run "C" w _ Hlat Hsends Hfree Htime)
    as (w' & Hrun & Hport).
  exists w'. split; [|exact Hport].
  intros fuel Hfuel. unfold get_serial_number, bind.
  rewrite (Hrun fuel Hfuel). cbv beta iota.
  change (skipn 1 ((b :: serial ++ x20 :: rest) ++ [ETX_byte]))
    with ((serial ++ x20 :: rest) ++ [ETX_byte]).
  rewrite <- app_assoc. change (encode " ") with [x20]. unfold split.
  change ((x20 :: rest) ++ [ETX_byte]) with (x20 :: [] ++ rest ++ [ETX_byte]).
  rewrite split_from_segment by exact Hserial. reflexivity.
Qed.

(** X29.  An answer without a space: the closing ETX is decoded with the rest. *)
Theorem get_serial_number_without_space (w : World) (b : byte) (r : bytes) :
  0 <= read_latency w ->
  sends w ((b :: r) ++ [ETX_byte]) ->
  free_of ETX_byte (b :: r) = true ->
  free_of x20 r = true ->
  Z.of_nat (S (List.length (b :: r))) * read_latency w <= timeout w ->
  exists w',
    (forall fuel, (List.length (b :: r) < fuel)%nat ->
       get_serial_number bytes_decode fuel w
       = lift (bytes_decode (r ++ [ETX_byte])) w')
    /\ port_after w w' (S (List.length (b :: r))) [encode "C"] 1.
Proof.
  intros Hlat Hsends Hfree Hr Htime.
  destruct (send_command_query_run "C" w _ Hlat Hsends Hfree Htime)
    as (w' & Hrun & Hport).
  exists w'. split; [|exact Hport].
  intros fuel Hfuel. unfold get_serial_number, bind.
  rewrite (Hrun fuel Hfuel). cbv beta iota.
  change (skipn 1 ((b :: r) ++ [ETX_byte])) with (r ++ [ETX_byte]).
  change (encode " ") with [x20]. unfold split.
  rewrite split_from_last; [reflexivity|].
  unfold free_of. rewrite forallb_app. fold (free_of x20 r). rewrite Hr.
  reflexivity.
Qed.

(** X30.  The firmware version is the beginning of the decoded text between the
    first byte of the answer and the closing ETX, up to its fourth space:
    it holds three spaces at most, and is the whole text when that has no
    more than three. *)
Theorem get_firmware_version_reads (w : World) (r : bytes) (decoded : text) :
  0 <= read_latency w ->
  sends w (r ++ [ETX_byte]) ->
  free_of ETX_byte r = true ->
  Z.of_nat (S (List.length r)) * read_latency w <= timeout w ->
  bytes_decode (tl r) = Ok decoded ->
  exists w' version,
    (forall fuel, (List.length r < fuel)%nat ->
       get_firmware_version bytes_decode fuel w = (Returns version, w'))
    /\ port_after w w' (S (List.length r)) [encode "e"] 1
    /\ (exists rest, decoded = version ++ rest)
    /\ (count_occ N.eq_dec version space <= 3)%nat
    /\ ((count_occ N.eq_dec decoded space <= 3)%nat -> version = decoded).
Proof.
  intros Hlat Hsends Hfree Htime Hdec.
  destruct (send_command_query_run "e" w r Hlat Hsends Hfree Htime)
    as (w' & Hrun & Hport).
  exists w', (text_join [space] (firstn 4 (text_split space decoded))).
  split; [|split; [exact Hport | exact (first_words 3 space decoded)]].
  intros fuel Hfuel. unfold get_firmware_version, bind.
  rewrite (Hrun fuel Hfuel). cbv beta iota. rewrite inner_reply, Hdec.
  reflexivity.
Qed.

End QueryProperties.

(* ================================================================= *)
(** ** Further properties: the shape of what the parser returns *)

Lemma rmap_Ok_inv {A B : Type} (f : A -> result B) (l : list A) :
  forall m, rmap f l = Ok m -> Forall2 (fun a b => f a = Ok b) l m.
Proof.
  induction l as [|a l IH]; intros m H; simpl in H.
  - inversion H. constructor.
  - destruct (f a) as [b|e] eqn:Ea; [|discriminate].
    simpl in H. destruct (rmap f l) as [bs|e]; [|discriminate].
    inversion H; subst. constructor; [exact Ea | now apply IH].
Qed.

(** When every conversion either succeeds or raises [e], and one raises,
    the whole raises [e]. *)
Lemma rmap_raises {A B : Type} (f : A -> result B) (e : exn) (l : list A) :
  (forall a, In a l -> f a = Raise e \/ exists b, f a = Ok b) ->
  (exists a, In a l /\ f a = Raise e) ->
  rmap f l = Raise e.
Proof.
  induction l as [|a l IH]; intros Hall (x & Hin & Hx); [contradiction|].
  simpl. destruct (Hall a (or_introl eq_refl)) as [Ha | [b Ha]];
    rewrite Ha; [reflexivity|].
  simpl. rewrite IH; [reflexivity | |].
  - intros y Hy. apply Hall. now right.
  - destruct Hin as [<- | Hin]; [congruence|]. now exists x.
Qed.

Lemma rmap_outcomes {A B : Type} (f : A -> result B) (e : exn) (l : list A) :
  (forall a, In a l -> f a = Raise e \/ exists b, f a = Ok b) ->
  rmap f l = Raise e \/ exists bs, rmap f l = Ok bs.
Proof.
  induction l as [|a l IH]; intros Hall; [right; now exists []|].
  simpl. destruct (Hall a (or_introl eq_refl)) as [Ha | [b Ha]];
    rewrite Ha; [now left|].
  simpl. destruct IH as [H | [bs H]].
  - intros y Hy. apply Hall. now right.
  - rewrite H. now left.
  - rewrite H. right. now exists (b :: bs).
Qed.

Lemma group3_not_nil {A : Type} (l : list A) : l <> [] -> group3 l <> [].
Proof.
  destruct l as [|a [|b [|c l]]]; simpl; intros H; try discriminate.
  contradiction.
Qed.

Lemma split_from_not_nil (sep : bytes) :
  forall s k, split_from sep k s <> [].
Proof.
  induction s as [|c s IH]; intros k; simpl; [discriminate|].
  destruct k; [|apply IH].
  destruct (starts_with sep (c :: s)); [discriminate|].
  specialize (IH 0%nat). destruct (split_from sep 0 s);
    [contradiction | discriminate].
Qed.

Section ParserShape.

Variable F : Type.
Variable float_decode : bytes -> option F.

(** X24.  Whatever the body, a matrix returned by the parser has between one and
    eight rows, and none of its rows is empty. *)
Theorem parse_body_shape (body : bytes) (m : list (list F)) :
  _parse_body F float_decode body = Ok m ->
  (1 <= List.length m <= 8)%nat /\ Forall (fun row => row <> []) m.
Proof.
  unfold _parse_body. intros H.
  destruct (index (encode "01,01") body) as [start|]; [|discriminate].
  destruct (rindex [x0d; x0a] body) as [stop|]; [|discriminate].
  cbn [rbind] in H. apply rmap_Ok_inv in H.
  pose proof (Forall2_length H) as Hlen.
  pose proof (split_from_not_nil [x0d; x0a; x2c]
                (slice start stop body) 0) as Hne.
  unfold split in *.
  set (segments := split_from [x0d; x0a; x2c] 0 (slice start stop body)) in *.
  split.
  - rewrite <- Hlen, length_firstn.
    destruct segments; [contradiction|]. cbn [List.length]. lia.
  - clear Hlen Hne. induction H as [|row r rows rs Hrow _ IH]; constructor;
      [|exact IH].
    unfold parse_row in Hrow. apply rmap_Ok_inv in Hrow.
    apply Forall2_length in Hrow.
    pose proof (group3_not_nil _ (split_from_not_nil (encode ",") row 0))
      as Hg.
    unfold split in Hrow. intros ->.
    destruct (group3 (split_from (encode ",") 0 row));
      [contradiction | discriminate].
Qed.

(** X25.  Rows beyond the eighth play no part: when the first eight convert, the
    parser returns their values, whatever the values of the later rows. *)
Theorem parse_body_ignores_later_rows
    (header trailer : bytes) (rows more : list (list Group))
    (m : list (list F)) :
  List.length rows = 8%nat ->
  forallb clean_row (rows ++ more) = true ->
  find (encode "01,01") (render_body header (rows ++ more) trailer)
    = Some (List.length header) ->
  rfind CRLF (render_body header (rows ++ more) trailer)
    = Some (List.length header + List.length (render_rows (rows ++ more)))%nat ->
  Forall2 (Forall2 (converted F float_decode)) rows m ->
  _parse_body F float_decode (render_body header (rows ++ more) trailer)
  = Ok m.
Proof.
  intros Hlen Hclean Hstart Hend Hm.
  rewrite parse_body_rendered; try assumption.
  - rewrite <- Hlen, firstn_app, Nat.sub_diag, firstn_all, firstn_O,
      app_nil_r.
    apply rmap_Forall2. revert Hm. apply Forall2_impl.
    exact (parse_groups_converted F float_decode).
  - destruct rows; [discriminate | discriminate].
Qed.

(** X26.  A value among the first eight rows that does not convert to a float:
    the parser raises [ValueError]. *)
Theorem parse_body_undecodable_value
    (header trailer : bytes) (rows : list (list Group))
    (row : list Group) (g : Group) :
  forallb clean_row rows = true ->
  find (encode "01,01") (render_body header rows trailer)
    = Some (List.length header) ->
  rfind CRLF (render_body header rows trailer)
    = Some (List.length header + List.length (render_rows rows))%nat ->
  In row (firstn 8 rows) -> In g row ->
  float_decode (value g) = None ->
  _parse_body F float_decode (render_body header rows trailer)
  = Raise (ValueError "could not convert string to float").
Proof.
  intros Hclean Hstart Hend Hrow Hg Hvalue.
  rewrite parse_body_rendered; try assumption.
  - assert (Hgroup : forall l : list Group, forall a, In a l ->
              parse_group F float_decode (group_fields a)
              = Raise (ValueError "could not convert string to float")
              \/ exists b, parse_group F float_decode (group_fields a) = Ok b).
    { intros l a _. simpl. destruct (float_decode (value a)) as [v|];
        [right; now exists v | now left]. }
    apply rmap_raises.
    + intros l _. apply rmap_outcomes, Hgroup.
    + exists row. split; [exact Hrow|].
      apply rmap_raises; [apply Hgroup|].
      exists g. split; [exact Hg|]. simpl. now rewrite Hvalue.
  - intros ->. now rewrite firstn_nil in Hrow.
Qed.

End ParserShape.

(* ================================================================= *)
(** ** Further properties: statements for the users of the backend *)







(** X5.  A command without a parameter, on a device that sends the response [r]
    and the ETX within the timeout: the response is returned with its
    terminator, the command is all that was written. *)
Theorem send_command_query (command : string) (w : World) (r : bytes) :
  0 <= read_latency w ->
  sends w (r ++ [ETX_byte]) ->
  free_of ETX_byte r = true ->
  Z.of_nat (S (List.length r)) * read_latency w <= timeout w ->
  exists w',
    (forall fuel, (List.length r < fuel)%nat ->
       send_command fuel command None true w
       = (Returns (Some (r ++ [ETX_byte])), w'))
    /\ port_after w w' (S (List.length r)) [encode command] 1.
Proof. exact (send_command_query_run command w r). Qed.

(** X8.  [read_luminescence] and [read_fluorescence] check the focal height,
    the latter then the excitation and the emission wavelength, in this
    order; a value out of range raises the [ValueError] of its check and
    nothing has been sent or logged. *)
Theorem reads_reject_arguments
    (F : Type) (float_decode : bytes -> option F)
    (python_int : arith -> result Z) (fuel : nat) (excitation emission : Z) (focal_height : Q) (w : World) :
  (~ (45 # 10 <= focal_height /\ focal_height <= 1388 # 100)%Q ->
   read_luminescence F float_decode python_int fuel focal_height w
   = (Raises (ValueError "Focal height must be between 4.5 and 13.88"), w)
   /\ read_fluorescence F float_decode python_int fuel excitation emission
        focal_height w
      = (Raises (ValueError "Focal height must be between 4.5 and 13.88"), w))
  /\ ((45 # 10 <= focal_height /\ focal_height <= 1388 # 100)%Q ->
      excitation < 250 \/ 700 < excitation ->
      read_fluorescence F float_decode python_int fuel excitation emission
        focal_height w
      = (Raises (ValueError
                   "Excitation wavelength must be between 250 and 700"), w))
  /\ ((45 # 10 <= focal_height /\ focal_height <= 1388 # 100)%Q ->
      250 <= excitation <= 700 ->
      emission < 250 \/ 700 < emission ->
      read_fluorescence F float_decode python_int fuel excitation emission
        focal_height w
      = (Raises (ValueError
                   "Emission wavelength must be between 250 and 700"), w)).
Proof.
  destruct (read_fluorescence_checks F float_decode python_int fuel excitation
              emission
              focal_height w) as (Hfocal & Hexcitation & Hemission).
  split; [|split; assumption].
  intros Hout. split; [|exact (Hfocal Hout)].
  exact (read_luminescence_checks F float_decode python_int fuel focal_height
           w Hout).
Qed.

(** X9.  Requests refused before anything is sent, cached or logged: an LED
    intensity outside 1..10, the LED without an imaging mode set, automatic
    focus and colour brightfield (both not implemented). *)
Theorem requests_refused (python_int : arith -> result Z) (fuel : nat)
    (intensity : Z) (w : World) :
  (intensity < 1 \/ 10 < intensity ->
   led_on fuel intensity w
   = (Raises (ValueError "intensity must be between 1 and 10"), w))
  /\ (1 <= intensity <= 10 ->
      _imaging_mode (cache w) = None ->
      led_on fuel intensity w
      = (Raises (ValueError
                   "Imaging mode not set. Run set_imaging_mode() first."), w))
  /\ (cached_eqb (Text "auto") (_focal_height (cache w)) = false ->
      set_focus python_int fuel (Text "auto") w
      = (Raises (NotImplementedError "auto_focus not implemented yet"), w))
  /\ (cam w <> None ->
      mode_cached_eqb COLOR_BRIGHTFIELD (_imaging_mode (cache w)) = false ->
      set_imaging_mode fuel COLOR_BRIGHTFIELD w
      = (Raises (NotImplementedError
                   "Color brightfield imaging not implemented yet"), w)).
Proof.
  destruct (led_on_checks fuel intensity w) as [Hrange Hmode].
  destruct (unimplemented_checks python_int fuel w) as [Hfocus Hcolor].
  repeat split; assumption.
Qed.

(* ================================================================= *)
(** ** Further properties on concrete instances *)

Lemma sends_fresh (l : bytes) : sends (fresh_world l) l.
Proof. intros i _. reflexivity. Qed.


(** The same answer under a time limit of two milliseconds. *)
Lemma read_until_late_terminator_AB :
  exists w',
    forall fuel, (2 < fuel)%nat ->
      _read_until fuel [ETX_byte] (Some 2)
        (fresh_world (encode "AB" ++ [ETX_byte]))
      = (Raises (TimeoutError "Timeout while waiting for response"), w').
Proof.
  destruct (read_until_late_terminator ETX_byte (Some 2)
              (fresh_world (encode "AB" ++ [ETX_byte])) 2)
    as (w' & Hrun & _).
  - simpl; lia.
  - intros [|[|i]] Hi; simpl; try discriminate; lia.
  - reflexivity.
  - vm_compute. reflexivity.
  - exists w'. exact Hrun.
Defined.



Lemma send_command_query_answered :
  exists w',
    (forall fuel, (5 < fuel)%nat ->
       send_command fuel "O" None true (fresh_world ack_0000)
       = (Returns (Some ack_0000), w'))
    /\ port_after (fresh_world ack_0000) w' 6 [encode "O"] 1.
Proof.
  apply (send_command_query "O" (fresh_world ack_0000)
           (ACK_byte :: encode "0000")).
  - simpl; lia.
  - apply sends_fresh.
  - reflexivity.
  - simpl; lia.
Defined.

(** A whole absorbance read of the sample grid. *)
Lemma read_absorbance_sample_grid :
  exists w',
    (forall fuel, (200 < fuel)%nat ->
       read_absorbance Q digits_float fuel 580
         (fresh_world (sample_incoming sample_grid))
       = (Returns (sample_values [1; 2; 3; 4; 5; 6; 7; 8]), w'))
    /\ tx (dev w')
       = [encode "y"; encode priming_parameter; encode "D";
          encode (absorbance_cmd 580); encode "O"].
Proof.
  destruct (read_absorbance_reads Q digits_float 580
              (fresh_world (sample_incoming sample_grid))
              (encode "0") (encode "0")
              (sample_header ++ render_rows sample_grid ++ CRLF))
    as (w' & Hrun & Hport).
  - lia.
  - simpl; lia.
  - apply sends_fresh.
  - reflexivity.
  - reflexivity.
  - reflexivity.
  - vm_compute. discriminate.
  - vm_compute. discriminate.
  - exists w'. split.
    + intros fuel Hfuel. rewrite Hrun.
      * reflexivity.
      * vm_compute. lia.
      * vm_compute. lia.
    + destruct Hport as (_ & _ & Htx & _). exact Htx.
Defined.

(** The trigger answered by [0001]: the assertion fails. *)
Lemma read_absorbance_answer_0001 :
  exists w',
    forall fuel, (100 < fuel)%nat ->
      read_absorbance Q digits_float fuel 580
        (fresh_world (sequence_answers (encode "0") (encode "0")
                        (ACK_byte :: encode "0001") ++ []))
      = (Raises AssertionError, w').
Proof.
  destruct (read_absorbance_unexpected_answer Q digits_float 580
              (fresh_world (sequence_answers (encode "0") (encode "0")
                              (ACK_byte :: encode "0001") ++ []))
              (encode "0") (encode "0") (ACK_byte :: encode "0001") [])
    as (w' & Hrun & _).
  - lia.
  - simpl; lia.
  - apply sends_fresh.
  - reflexivity.
  - reflexivity.
  - reflexivity.
  - reflexivity.
  - vm_compute. discriminate.
  - exists w'. intros fuel Hfuel. apply Hrun.
    vm_compute. lia.
Defined.

(** A focal height of 2 mm, and an excitation wavelength of 800 nm. *)
Lemma reads_reject_focal_height_2 :
  read_luminescence Q digits_float exact_int 100 2 (fresh_world [])
  = (Raises (ValueError "Focal height must be between 4.5 and 13.88"),
     fresh_world [])
  /\ read_fluorescence Q digits_float exact_int 100 800 528 5 (fresh_world [])
     = (Raises (ValueError
                  "Excitation wavelength must be between 250 and 700"),
        fresh_world []).
Proof.
  split.
  - apply (proj1 (reads_reject_arguments Q digits_float exact_int 100 485 528 2
                    (fresh_world []))).
    intros [H _]. revert H. vm_compute. intros H. now apply H.
  - apply (proj1 (proj2 (reads_reject_arguments Q digits_float exact_int 100 800 528 5
                           (fresh_world [])))).
    + split; vm_compute; discriminate.
    + right; lia.
Defined.

Lemma requests_refused_fresh :
  led_on 100 11 (fresh_world [])
  = (Raises (ValueError "intensity must be between 1 and 10"), fresh_world [])
  /\ led_on 100 5 (fresh_world [])
     = (Raises (ValueError
                  "Imaging mode not set. Run set_imaging_mode() first."),
        fresh_world [])
  /\ set_focus exact_int 100 (Text "auto") (fresh_world [])
     = (Raises (NotImplementedError "auto_focus not implemented yet"),
        fresh_world [])
  /\ set_imaging_mode 100 COLOR_BRIGHTFIELD (camera_world [])
     = (Raises (NotImplementedError
                  "Color brightfield imaging not implemented yet"),
        camera_world []).
Proof.
  destruct (requests_refused exact_int 100 11 (fresh_world [])) as (H1 & _).
  destruct (requests_refused exact_int 100 5 (fresh_world [])) as (_ & H2 & H3 & _).
  destruct (requests_refused exact_int 100 5 (camera_world [])) as (_ & _ & _ & H4).
  split; [apply H1; right; lia|].
  split; [apply H2; [lia | reflexivity]|].
  split; [apply H3; reflexivity|].
  apply H4; [discriminate | reflexivity].
Defined.

Lemma stop_shaking_failed_task_raises :
  exists w',
    stop_shaking 5 (fun _ => false) failed_task_world
    = (Raises AssertionError, w')
    /\ _shaking_task w' = Some 0%nat
    /\ fst (stop_shaking 5 (fun _ => false) w') = Raises AssertionError.
Proof.
  destruct (stop_shaking_failed_task 5 (fun _ => false) failed_task_world 0
              {| task_shake_type := LINEAR;
                 task_status := Failed AssertionError |} AssertionError
              eq_refl eq_refl eq_refl)
    as (w' & Hrun & _ & Htask & _ & _ & Hagain).
  exists w'. split; [exact Hrun|]. split; [exact Htask | exact Hagain].
Defined.

(** The stored task is cancelled; the task created before it and not yet
    started gets its turn during the await and ends; the task asleep is
    left asleep when its sleep is not over, and ends when it is. *)
Lemma stop_shaking_cancels_last_of_three :
  (exists w',
     stop_shaking 5 (fun _ => false) three_tasks_world = (Returns tt, w')
     /\ _shaking w' = false
     /\ _shaking_task w' = None
     /\ nth_error (tasks w') 2
        = Some {| task_shake_type := LINEAR; task_status := Cancelled |}
     /\ nth_error (tasks w') 1
        = Some {| task_shake_type := ORBITAL; task_status := Finished |}
     /\ nth_error (tasks w') 0
        = Some {| task_shake_type := LINEAR; task_status := Waiting 500 |}
     /\ tx (dev w') = [encode "x"])
  /\ (exists w',
        stop_shaking 5 (fun _ => true) three_tasks_world = (Returns tt, w')
        /\ nth_error (tasks w') 0
           = Some {| task_shake_type := LINEAR; task_status := Finished |}).
Proof.
  split.
  - destruct (stop_shaking_cancels 5 (fun _ => false) three_tasks_world 2
                {| task_shake_type := LINEAR; task_status := Created |}
                eq_refl eq_refl eq_refl)
      as (w' & Hrun & Hflag & Htask & Hnth & Hothers & _ & Htx & _).
    exists w'. repeat split; trivial.
    + exact (Hothers 1%nat _ ltac:(discriminate) eq_refl).
    + exact (Hothers 0%nat _ ltac:(discriminate) eq_refl).
  - destruct (stop_shaking_cancels 5 (fun _ => true) three_tasks_world 2
                {| task_shake_type := LINEAR; task_status := Created |}
                eq_refl eq_refl eq_refl)
      as (w' & Hrun & _ & _ & _ & Hothers & _).
    exists w'. split; [exact Hrun|].
    exact (Hothers 0%nat _ ltac:(discriminate) eq_refl).
Defined.

Lemma run_task_polls_waiting :
  exists w',
    run_task 5 0 waiting_task_world = (Returns tt, w')
    /\ nth_error (tasks w') 0
       = Some {| task_shake_type := LINEAR; task_status := Waiting 500 |}
    /\ dev w' = dev waiting_task_world
    /\ clock w' = 250.
Proof.
  destruct (run_task_polls 5 waiting_task_world 0
              {| task_shake_type := LINEAR; task_status := Waiting 250 |} 250
              eq_refl eq_refl ltac:(lia) eq_refl)
    as (w' & Hrun & Hnth & Hdev & Hclk).
  exists w'. repeat split; assumption.
Defined.

(** The task created by [shake] gets its turn on a device that acknowledges
    the shake command. *)
Lemma run_task_sends_orbital :
  exists w',
    (forall fuel, (100 < fuel)%nat ->
       run_task fuel 0 (snd (shake ORBITAL (fresh_world (sample_acks ++ []))))
       = (Returns tt, w'))
    /\ tx (dev w')
       = [encode "y"; encode shake_priming_parameter; encode "D";
          encode (shake_cmd ORBITAL); encode "O"]
    /\ nth_error (tasks w') 0
       = Some {| task_shake_type := ORBITAL; task_status := Waiting 250 |}.
Proof.
  destruct (run_task_sends_shake_command
              (snd (shake ORBITAL (fresh_world (sample_acks ++ [])))) 0
              {| task_shake_type := ORBITAL; task_status := Created |}
              (encode "0") (encode "0") (ACK_byte :: encode "0000") [])
    as (w' & Hrun & Htx & Hnth).
  - reflexivity.
  - left; reflexivity.
  - reflexivity.
  - simpl; lia.
  - intros i _. reflexivity.
  - reflexivity.
  - reflexivity.
  - reflexivity.
  - vm_compute. discriminate.
  - exists w'. split; [|split; [exact Htx | exact Hnth]].
    intros fuel Hfuel. apply Hrun. vm_compute. lia.
Defined.

(** An exposure set on a backend whose well is cached, then asked for
    again. *)
Lemma setter_repeated_exposure :
  fst (call_setter exact_int 5 (SetExposure (Num 50))
         (snd (call_setter exact_int 5 (SetExposure (Num 50)) well_cached_world)))
  = Returns tt
  /\ only_logged (snd (call_setter exact_int 5 (SetExposure (Num 50)) well_cached_world))
       (snd (call_setter exact_int 5 (SetExposure (Num 50))
               (snd (call_setter exact_int 5 (SetExposure (Num 50))
                       well_cached_world)))).
Proof.
  apply (setter_repeated_is_silent exact_int 5 5 (SetExposure (Num 50))
           well_cached_world
           (snd (call_setter exact_int 5 (SetExposure (Num 50)) well_cached_world))).
  reflexivity.
Defined.

(** One microsecond is below the minimum of the sample camera. *)
Lemma set_exposure_refused_short :
  exists msg w',
    set_exposure exact_int (Num (1 # 1000)) (camera_world [])
    = (Raises (ValueError msg), w')
    /\ sdk_calls w' = [ExposureAuto_SetValue Auto_Off]
    /\ cache w' = empty_cache.
Proof.
  destruct (set_exposure_refused exact_int (1 # 1000) 1 (camera_world [])
              (sample_camera []) eq_refl eq_refl eq_refl eq_refl)
    as (msg & w' & Hrun & Hsdk & Hcache & _).
  - left. vm_compute. reflexivity.
  - exists msg, w'. split; [exact Hrun|]. split; [exact Hsdk | exact Hcache].
Defined.

Lemma set_exposure_sets_50 :
  exists w',
    set_exposure exact_int (Num 50) (camera_world []) = (Returns tt, w')
    /\ sdk_calls w'
       = [ExposureAuto_SetValue Auto_Off; ExposureTime_SetValue 50000]
    /\ _exposure (cache w') = Some (Num 50).
Proof.
  destruct (set_exposure_sets exact_int 50 50000 (camera_world [])
              (sample_camera []) eq_refl eq_refl eq_refl eq_refl)
    as (w' & Hrun & Hsdk & Hcache & _).
  - split; vm_compute; discriminate.
  - exists w'. split; [exact Hrun|]. split; [exact Hsdk|].
    now rewrite Hcache.
Defined.

Lemma set_gain_refuses_31 :
  set_gain (Num 31) (camera_world [])
  = (Raises (ValueError
               "gain must be between 0 and 30 (inclusive), or 'auto'"),
     camera_world []).
Proof.
  apply (set_gain_out_of_range 31 (camera_world [])).
  - discriminate.
  - reflexivity.
  - right. vm_compute. reflexivity.
Defined.

Lemma set_gain_sets_5 :
  exists w',
    set_gain (Num 5) (camera_world []) = (Returns tt, w')
    /\ sdk_calls w' = [GainAuto_SetIntValue Auto_Off; Gain_SetValue 5]
    /\ _gain (cache w') = Some (Num 5).
Proof.
  destruct (set_gain_sets (Num 5) (camera_world []) (sample_camera [])
              eq_refl eq_refl eq_refl eq_refl)
    as (w' & Hrun & Hsdk & Hcache & _).
  - repeat split; try reflexivity; vm_compute; discriminate.
  - exists w'. split; [exact Hrun|]. split; [exact Hsdk|].
    now rewrite Hcache.
Defined.

Lemma select_exchanges_well_2_3 :
  exists w',
    (forall fuel, (1 < fuel)%nat ->
       select fuel 2 3 (fresh_world two_acks) = (Returns tt, w'))
    /\ tx (dev w')
       = [encode "Y"; encode "Z1260101000000000000"; encode "Y";
          encode "W60203"]
    /\ _row (cache w') = Some 2
    /\ _column (cache w') = Some 3.
Proof.
  destruct (select_exchanges 2 3 (fresh_world two_acks)
              (encode "0") (encode "0") [])
    as (w' & Hrun & Htx & _ & Hrow & Hcol & _).
  - reflexivity.
  - simpl; lia.
  - apply sends_fresh.
  - reflexivity.
  - reflexivity.
  - simpl; lia.
  - simpl; lia.
  - exists w'. split; [|split; [exact Htx | split; assumption]].
    intros fuel Hfuel. apply Hrun; simpl; lia.
Defined.


Lemma parse_body_shape_sample :
  (1 <= List.length (sample_values [1; 2; 3; 4; 5; 6; 7; 8]%Z) <= 8)%nat
  /\ Forall (fun row => row <> []) (sample_values [1; 2; 3; 4; 5; 6; 7; 8]).
Proof.
  apply (parse_body_shape Q digits_float (sample_body sample_grid)).
  reflexivity.
Defined.

(** A ninth row whose value is not a number does not disturb the parser. *)
Lemma parse_body_ignores_ninth_row :
  _parse_body Q digits_float
    (render_body sample_header (sample_grid ++ [[overflow_group]]) [ETX_byte])
  = Ok (sample_values [1; 2; 3; 4; 5; 6; 7; 8])
  /\ digits_float (value overflow_group) = None.
Proof.
  split; [|reflexivity].
  apply (parse_body_ignores_later_rows Q digits_float sample_header
           [ETX_byte] sample_grid [[overflow_group]]);
    try reflexivity.
  unfold sample_grid, sample_values. simpl. repeat constructor.
Defined.

(** The same value in the second row is a [ValueError]. *)
Lemma parse_body_overflow_in_second_row :
  _parse_body Q digits_float
    (render_body sample_header
       (firstn 1 sample_grid ++ [[overflow_group]]) [ETX_byte])
  = Raise (ValueError "could not convert string to float").
Proof.
  apply (parse_body_undecodable_value Q digits_float sample_header
           [ETX_byte] (firstn 1 sample_grid ++ [[overflow_group]])
           [overflow_group] overflow_group);
    try reflexivity.
  - simpl. right. left. reflexivity.
  - left. reflexivity.
Defined.

Lemma temperature_23_45678 :
  exists w',
    forall fuel, (8 < fuel)%nat ->
      get_current_temperature digits_int Q exact_div fuel
        (fresh_world (temperature_reply ++ [ETX_byte]))
      = (Returns (2345678 # 100000), w').
Proof.
  destruct (get_current_temperature_reads digits_int Q exact_div
              (fresh_world (temperature_reply ++ [ETX_byte]))
              temperature_reply)
    as (w' & Hrun & _).
  - simpl; lia.
  - apply sends_fresh.
  - reflexivity.
  - vm_compute. discriminate.
  - exists w'. intros fuel Hfuel. rewrite Hrun; [reflexivity|].
    vm_compute. lia.
Defined.

Lemma serial_number_1234567 :
  exists w',
    forall fuel, (100 < fuel)%nat ->
      get_serial_number ascii_decode fuel
        (fresh_world ((ACK_byte :: encode "1234567" ++ x20 :: serial_reply_rest)
                      ++ [ETX_byte]))
      = (Returns (map Byte.to_N (encode "1234567")), w').
Proof.
  destruct (get_serial_number_reads ascii_decode
              (fresh_world ((ACK_byte :: encode "1234567"
                             ++ x20 :: serial_reply_rest) ++ [ETX_byte]))
              ACK_byte (encode "1234567") serial_reply_rest)
    as (w' & Hrun & _).
  - simpl; lia.
  - apply sends_fresh.
  - reflexivity.
  - reflexivity.
  - vm_compute. discriminate.
  - exists w'. intros fuel Hfuel. rewrite Hrun; [reflexivity|].
    vm_compute. lia.
Defined.

(** An answer without a space: the serial number ends with the code point
    3 of the ETX. *)
Lemma serial_number_with_ETX :
  exists w',
    forall fuel, (100 < fuel)%nat ->
      get_serial_number ascii_decode fuel
        (fresh_world ((ACK_byte :: encode "1234567") ++ [ETX_byte]))
      = (Returns (map Byte.to_N (encode "1234567") ++ [3%N]), w').
Proof.
  destruct (get_serial_number_without_space ascii_decode
              (fresh_world ((ACK_byte :: encode "1234567") ++ [ETX_byte]))
              ACK_byte (encode "1234567"))
    as (w' & Hrun & _).
  - simpl; lia.
  - apply sends_fresh.
  - reflexivity.
  - reflexivity.
  - vm_compute. discriminate.
  - exists w'. intros fuel Hfuel. rewrite Hrun; [reflexivity|].
    vm_compute. lia.
Defined.

(** Six words in the answer: the version is the first four. *)
Lemma firmware_version_four_words :
  exists w',
    forall fuel, (100 < fuel)%nat ->
      get_firmware_version ascii_decode fuel
        (fresh_world (firmware_reply ++ [ETX_byte]))
      = (Returns (map Byte.to_N (encode "7090202 Version 2.07 extra")), w').
Proof.
  destruct (get_firmware_version_reads ascii_decode
              (fresh_world (firmware_reply ++ [ETX_byte])) firmware_reply
              (map Byte.to_N (encode "7090202 Version 2.07 extra words")))
    as (w' & version & Hrun & _ & _ & _ & _).
  - simpl; lia.
  - apply sends_fresh.
  - reflexivity.
  - vm_compute. discriminate.
  - reflexivity.
  - exists w'. intros fuel Hfuel.
    pose proof (Hrun fuel ltac:(vm_compute; lia))
      as E.
    rewrite E. f_equal. f_equal.
    assert (E5 : get_firmware_version ascii_decode 40
                   (fresh_world (firmware_reply ++ [ETX_byte]))
                 = (Returns version, w'))
      by (apply Hrun; vm_compute; lia).
    vm_compute in E5. inversion E5. reflexivity.
Defined.

(** A fluorescence read of the sample grid at 485 nm and 528 nm, and the
    first turn of an orbital shake task: the checksums written are [19]
    and [90]. *)
Lemma checksum_offsets_sample :
  (exists w',
     (forall fuel, (200 < fuel)%nat ->
        read_fluorescence Q digits_float exact_int fuel 485 528 5
          (fresh_world fluorescence_incoming)
        = (Returns (sample_values [1; 2; 3; 4; 5; 6; 7; 8]), w'))
     /\ nth_error (tx (dev w')) 5
        = Some (encode (fluorescence_body 485 528 ++ "19" ++ ETX_str)%string))
  /\ (exists ws',
        (forall fuel, (100 < fuel)%nat ->
           run_task fuel 0
             (snd (shake ORBITAL (fresh_world (sample_acks ++ []))))
           = (Returns tt, ws'))
        /\ nth_error (tx (dev ws')) 3
           = Some (encode (shake_body ORBITAL ++ "90" ++ ETX_str)%string)).
Proof.
  destruct (checksum_offsets Q digits_float exact_int 485 528 5 5000
              (fresh_world fluorescence_incoming)
              (encode "0") (encode "0") (encode "0")
              (sample_header ++ render_rows sample_grid ++ CRLF)
              (snd (shake ORBITAL (fresh_world (sample_acks ++ [])))) 0
              {| task_shake_type := ORBITAL; task_status := Created |}
              (encode "0") (encode "0") (ACK_byte :: encode "0000") [])
    as ((w' & Hrun & Htx) & (ws' & Hruns & Htxs) & _).
  - split; vm_compute; discriminate.
  - lia.
  - lia.
  - reflexivity.
  - simpl; lia.
  - apply sends_fresh.
  - reflexivity.
  - reflexivity.
  - reflexivity.
  - reflexivity.
  - vm_compute. discriminate.
  - vm_compute. discriminate.
  - reflexivity.
  - reflexivity.
  - reflexivity.
  - simpl; lia.
  - intros k _. reflexivity.
  - reflexivity.
  - reflexivity.
  - reflexivity.
  - vm_compute. discriminate.
  - split.
    + exists w'. split.
      * intros fuel Hfuel. rewrite Hrun; [reflexivity | |];
          vm_compute; lia.
      * rewrite Htx. reflexivity.
    + exists ws'. split.
      * intros fuel Hfuel. apply Hruns. vm_compute. lia.
      * rewrite Htxs. reflexivity.
Defined.
